(** * RoadRPC: the JSON-RPC 2.0 dispatch engine of [roadrpc/rpc.py]

    A shallow embedding of the message model, the method registry, the
    middleware chain and the dispatch engine ([RPCServer.call] and
    [RPCServer.handle_json]), followed by the properties established of
    them.

    Conventions of the embedding.
    - Python values that travel through the engine are the values
      [json.loads] produces ([None], booleans, integers, strings, lists
      and string-keyed dicts) and, since a handler or a hook may hand
      over anything, objects of other classes, which [json.dumps] cannot
      encode.  Floating-point numbers are left out; no property below
      inspects a number.
    - A dict is an association list in insertion order.
    - Hooks and handlers are arbitrary Python callables: they are
      functions over a world state [W] that either return or raise.
    - A request object accepts attributes beyond its declared fields;
      what has been attached to it is part of the world.
    - The engine additionally keeps a journal of the hooks and handlers
      it invokes, so that "was never invoked" and "ran in registration
      order" can be stated.
    - Coroutines are awaited one after the other; the embedding is the
      sequential reading of the [async] code. *)

From Stdlib Require Import ZArith String List Bool Ascii.
From stdpp Require Import gmap strings list fin_maps pretty.

#[local] Set Warnings "-register-all".
Local Open Scope string_scope.
Local Open Scope Z_scope.

(** ** Python values *)

Inductive pyvalue : Type :=
| PyNone
| PyBool (b : bool)
| PyInt (z : Z)
| PyStr (s : string)
| PyList (items : list pyvalue)
| PyDict (entries : list (string * pyvalue))
| PyObject (cls : string) (text : string).

(** [PyObject cls text] is an instance of any other class [cls], with
    the behaviour inherited from [object]: true, hashable, equal to
    itself only, neither a mapping nor a sequence; [text] is its
    [str()]. *)

(** [x is None] *)
Definition is_None (v : pyvalue) : bool :=
  match v with PyNone => true | _ => false end.

(** Truth value of an object, as tested by [if v:]. *)
Definition truthy (v : pyvalue) : bool :=
  match v with
  | PyNone => false
  | PyBool b => b
  | PyInt z => negb (z =? 0)
  | PyStr s => negb (String.eqb s "")
  | PyList items => match items with [] => false | _ => true end
  | PyDict entries => match entries with [] => false | _ => true end
  | PyObject _ _ => true
  end.

(** [type(v).__name__] *)
Definition type_name (v : pyvalue) : string :=
  match v with
  | PyNone => "NoneType"
  | PyBool _ => "bool"
  | PyInt _ => "int"
  | PyStr _ => "str"
  | PyList _ => "list"
  | PyDict _ => "dict"
  | PyObject cls _ => cls
  end.

(** ** Dicts: [d.get(k)], [d.get(k, default)], [d[k] = v] *)

Fixpoint dict_lookup (d : list (string * pyvalue)) (k : string) : option pyvalue :=
  match d with
  | [] => None
  | (k', v) :: rest => if String.eqb k' k then Some v else dict_lookup rest k
  end.

Definition dict_get (d : list (string * pyvalue)) (k : string) (default : pyvalue) : pyvalue :=
  match dict_lookup d k with
  | Some v => v
  | None => default
  end.

Fixpoint dict_set (d : list (string * pyvalue)) (k : string) (v : pyvalue)
  : list (string * pyvalue) :=
  match d with
  | [] => [(k, v)]
  | (k', v') :: rest =>
      if String.eqb k' k then (k', v) :: rest else (k', v') :: dict_set rest k v
  end.

(** ** Exceptions

    The engine distinguishes [RPCError], [TypeError], every other
    subclass of [Exception], and what [except Exception] does not catch
    ([KeyboardInterrupt], [asyncio.CancelledError], ...). *)

(** [class RPCErrorCode(int, Enum)] *)
Definition PARSE_ERROR : Z := -32700.
Definition INVALID_REQUEST : Z := -32600.
Definition METHOD_NOT_FOUND : Z := -32601.
Definition INVALID_PARAMS : Z := -32602.
Definition INTERNAL_ERROR : Z := -32603.
Definition SERVER_ERROR : Z := -32000.

(** [class RPCError(Exception)] *)
Record RPCError : Type := mkRPCError {
  code : Z;
  message : string;
  data : pyvalue
}.

(** [RPCError.to_dict] *)
Definition RPCError_to_dict (self : RPCError) : pyvalue :=
  let error := [("code", PyInt (code self)); ("message", PyStr (message self))] in
  if negb (is_None (data self))
  then PyDict (dict_set error "data" (data self))
  else PyDict error.

Inductive exn : Type :=
| RPCError_exn (e : RPCError)
| TypeError (msg : string)
| OtherException (cls : string) (msg : string)
| BaseException (cls : string) (msg : string).

(** [str(e)] *)
Definition exn_str (e : exn) : string :=
  match e with
  | RPCError_exn e => message e
  | TypeError msg => msg
  | OtherException _ msg => msg
  | BaseException _ msg => msg
  end.

Inductive res (A : Type) : Type :=
| Ok (a : A)
| Raise (e : exn).
Arguments Ok {A} a.
Arguments Raise {A} e.

(** ** Message model *)

(** [@dataclass class RPCRequest]: the declared fields. *)
Record RPCRequest : Type := mkRPCRequest {
  req_method : pyvalue;
  req_params : pyvalue;
  req_id : pyvalue;
  req_jsonrpc : pyvalue
}.

(** Attribute access [request.<attr>]: a declared field or, the class
    being a plain dataclass whose instances accept new attributes
    ([request.metadata = {}]), one attached to the object since, as
    [attached] lists them; [None] stands for [AttributeError]. *)
Definition RPCRequest_getattr (attached : list (string * pyvalue))
    (request : RPCRequest) (attr : string) : option pyvalue :=
  if String.eqb attr "method" then Some (req_method request)
  else if String.eqb attr "params" then Some (req_params request)
  else if String.eqb attr "id" then Some (req_id request)
  else if String.eqb attr "jsonrpc" then Some (req_jsonrpc request)
  else dict_lookup attached attr.

(** [RPCRequest.from_dict], applied to a dict. *)
Definition RPCRequest_from_dict (data : list (string * pyvalue)) : RPCRequest :=
  {| req_method := dict_get data "method" (PyStr "");
     req_params := dict_get data "params" (PyList []);
     req_id := dict_get data "id" PyNone;
     req_jsonrpc := dict_get data "jsonrpc" (PyStr "2.0") |}.

(** [RPCRequest.from_dict] applied to whatever was decoded: [data.get]
    exists on dicts only. *)
Definition RPCRequest_from_value (data : pyvalue) : res RPCRequest :=
  match data with
  | PyDict d => Ok (RPCRequest_from_dict d)
  | other =>
      Raise (OtherException "AttributeError"
               ("'" ++ type_name other ++ "' object has no attribute 'get'"))
  end.

(** [RPCRequest.to_dict] *)
Definition RPCRequest_to_dict (self : RPCRequest) : list (string * pyvalue) :=
  let request := [("jsonrpc", req_jsonrpc self);
                  ("method", req_method self);
                  ("params", req_params self)] in
  if negb (is_None (req_id self))
  then dict_set request "id" (req_id self)
  else request.

(** [RPCRequest.is_notification] *)
Definition is_notification (self : RPCRequest) : bool := is_None (req_id self).

(** [@dataclass class RPCResponse] *)
Record RPCResponse : Type := mkRPCResponse {
  resp_result : pyvalue;
  resp_error : pyvalue;
  resp_id : pyvalue;
  resp_jsonrpc : pyvalue
}.

(** [RPCResponse.success] *)
Definition RPCResponse_success (result id : pyvalue) : RPCResponse :=
  {| resp_result := result; resp_error := PyNone; resp_id := id;
     resp_jsonrpc := PyStr "2.0" |}.

(** [RPCResponse.failure] *)
Definition RPCResponse_failure (error : RPCError) (id : pyvalue) : RPCResponse :=
  {| resp_result := PyNone; resp_error := RPCError_to_dict error; resp_id := id;
     resp_jsonrpc := PyStr "2.0" |}.

(** [RPCResponse.to_dict] *)
Definition RPCResponse_to_dict (self : RPCResponse) : list (string * pyvalue) :=
  let response := [("jsonrpc", resp_jsonrpc self); ("id", resp_id self)] in
  if truthy (resp_error self)
  then dict_set response "error" (resp_error self)
  else dict_set response "result" (resp_result self).

(** [str(v)] as spliced into an f-string, for the values that can be a
    dict key.  Lists and dicts never get here: used as a method name they
    have already raised in [methods.get]. *)
Definition py_str (v : pyvalue) : string :=
  match v with
  | PyNone => "None"
  | PyBool true => "True"
  | PyBool false => "False"
  | PyInt z => pretty z
  | PyStr s => s
  | PyList _ => "[...]"
  | PyDict _ => "{...}"
  | PyObject _ text => text
  end.

(** [x.get(key, default)]: dicts have [get], the other values do not. *)
Definition get (x : pyvalue) (key : string) (default : pyvalue) : res pyvalue :=
  match x with
  | PyDict d => Ok (dict_get d key default)
  | other =>
      Raise (OtherException "AttributeError"
               ("'" ++ type_name other ++ "' object has no attribute 'get'"))
  end.

(** ** What [json.dumps] can encode

    [json.dumps] walks the document in order and raises [TypeError] at
    the first object of a class it has no encoding for: [unencodable]
    gives the class of that object, if there is one. *)
Fixpoint unencodable (v : pyvalue) : option string :=
  match v with
  | PyObject cls _ => Some cls
  | PyList items =>
      (fix first (l : list pyvalue) : option string :=
         match l with
         | [] => None
         | x :: rest =>
             match unencodable x with
             | Some cls => Some cls
             | None => first rest
             end
         end) items
  | PyDict entries =>
      (fix first (l : list (string * pyvalue)) : option string :=
         match l with
         | [] => None
         | (_, x) :: rest =>
             match unencodable x with
             | Some cls => Some cls
             | None => first rest
             end
         end) entries
  | _ => None
  end.

(** A JSON value: [json.dumps] encodes it. *)
Definition encodable (v : pyvalue) : bool :=
  match unencodable v with
  | None => true
  | Some _ => false
  end.

(** ** The engine *)

(** What the engine is seen to invoke: the hook of the [i]-th middleware
    of the chain, or the handler registered under a name. *)
Inductive event : Type :=
| BeforeCall (i : nat)
| HandlerCall (name : string)
| OnError (i : nat)
| AfterCall (i : nat).

Section Engine.

(** The state that hooks and handlers may read and write. *)
Variable W : Type.

(** [json.loads] (a [JSONDecodeError] on the left, carrying [str(e)])
    and the text [json.dumps] gives for a JSON value: the text codec is
    outside the engine. *)
Variable json_loads : string -> string + pyvalue.
Variable json_dumps : pyvalue -> string.

(** [json.dumps(v)]: the text of [v], or the [TypeError] raised at the
    first object that has no encoding. *)
Definition json_encode (v : pyvalue) : res string :=
  match unencodable v with
  | None => Ok (json_dumps v)
  | Some cls =>
      Raise (TypeError ("Object of type " ++ cls ++ " is not JSON serializable"))
  end.

(** A Python callable: runs on the world, returns or raises. *)
Definition Eff (A : Type) : Type := W -> res A * W.

(** What the bundled middleware reach in the world: the attributes
    attached to a request object beyond its declared fields (those of
    [request] in the world [w] are [attached w request]), and the clock,
    read by [mapping["start_time"] = datetime.now()] and by the
    bookkeeping of [TimingMiddleware.after_call], which appends the
    milliseconds elapsed since [start] to [self.timings[method]]. *)
Record heap : Type := mkHeap {
  attached : W -> RPCRequest -> list (string * pyvalue);
  set_start_time : pyvalue -> Eff unit;
  append_timing : pyvalue -> pyvalue -> Eff unit
}.

(** [@dataclass class RPCMethod].  The handler receives the positional
    and the keyword arguments of the call. *)
Record RPCMethod : Type := mkRPCMethod {
  method_name : string;
  method_handler : list pyvalue -> list (string * pyvalue) -> Eff pyvalue;
  method_description : string;
  method_params_schema : list (string * pyvalue);
  method_metadata : list (string * pyvalue)
}.

(** [class RPCMiddleware]: the three hooks. *)
Record RPCMiddleware : Type := mkRPCMiddleware {
  before_call : RPCRequest -> Eff RPCRequest;
  after_call : RPCRequest -> RPCResponse -> Eff RPCResponse;
  on_error : RPCRequest -> exn -> Eff (option RPCResponse)
}.

(** [class RPCServer] (the lock guards [methods] against concurrent
    mutation and has no sequential content). *)
Record RPCServer : Type := mkRPCServer {
  methods : gmap string RPCMethod;
  middleware : list RPCMiddleware
}.

(** [RPCServer.__init__] *)
Definition RPCServer_init : RPCServer :=
  {| methods := ∅; middleware := [] |}.

(** [RPCServer.add_middleware] *)
Definition add_middleware (mw : RPCMiddleware) (self : RPCServer) : RPCServer :=
  {| methods := methods self; middleware := middleware self ++ [mw] |}.

(** [RPCServer.register] *)
Definition register (name : string)
    (handler : list pyvalue -> list (string * pyvalue) -> Eff pyvalue)
    (description : string) (self : RPCServer) : RPCServer :=
  {| methods := <[name := {| method_name := name;
                             method_handler := handler;
                             method_description := description;
                             method_params_schema := [];
                             method_metadata := [] |}]> (methods self);
     middleware := middleware self |}.

(** [RPCServer.unregister]: the returned flag and the server left. *)
Definition unregister (name : string) (self : RPCServer) : bool * RPCServer :=
  match methods self !! name with
  | Some _ => (true, {| methods := delete name (methods self);
                        middleware := middleware self |})
  | None => (false, self)
  end.

(** [self.methods.get(name)] on a string *)
Definition lookup_method (name : string) (self : RPCServer) : option RPCMethod :=
  methods self !! name.

(** [self.methods.get(key)] on whatever the request carries as its
    method: registry keys are strings; lists and dicts cannot be
    hashed. *)
Definition methods_get (self : RPCServer) (key : pyvalue) : res (option RPCMethod) :=
  match key with
  | PyStr name => Ok (lookup_method name self)
  | PyList _ => Raise (TypeError "unhashable type: 'list'")
  | PyDict _ => Raise (TypeError "unhashable type: 'dict'")
  | PyNone | PyBool _ | PyInt _ | PyObject _ _ => Ok None
  end.

(** *** The engine's monad: world, journal, exceptions *)

Record machine : Type := mkMachine {
  world : W;
  journal : list event
}.

Definition M (A : Type) : Type := machine -> res A * machine.

Definition ret {A : Type} (a : A) : M A := fun s => (Ok a, s).

Definition raise {A : Type} (e : exn) : M A := fun s => (Raise e, s).

Definition bind {A B : Type} (m : M A) (k : A -> M B) : M B :=
  fun s =>
    match m s with
    | (Ok a, s') => k a s'
    | (Raise e, s') => (Raise e, s')
    end.

(** [try: m  except ... as e: h e] *)
Definition try_except {A : Type} (m : M A) (h : exn -> M A) : M A :=
  fun s =>
    match m s with
    | (Ok a, s') => (Ok a, s')
    | (Raise e, s') => h e s'
    end.

Definition lift {A : Type} (r : res A) : M A := fun s => (r, s).

(** Calling (and awaiting) a hook or a handler: noted in the journal,
    run on the world. *)
Definition invoke {A : Type} (ev : event) (f : Eff A) : M A :=
  fun s =>
    let '(r, w) := f (world s) in
    (r, {| world := w; journal := journal s ++ [ev] |}).

Local Notation "'do' x <- m ; k" := (bind m (fun x => k))
  (at level 10, x name, m at level 100, k at level 200).

(** *** Bundled middleware *)

(** The hooks inherited from [RPCMiddleware]. *)
Definition RPCMiddleware_base : RPCMiddleware :=
  {| before_call := fun request w => (Ok request, w);
     after_call := fun request response w => (Ok response, w);
     on_error := fun request error w => (Ok None, w) |}.

(** [class LoggingMiddleware]: writes to the logger, which is not part
    of the model, and hands its argument on. *)
Definition LoggingMiddleware : RPCMiddleware :=
  {| before_call := fun request w => (Ok request, w);
     after_call := fun request response w =>
       if truthy (resp_error response) then (Ok response, w) else (Ok response, w);
     on_error := on_error RPCMiddleware_base |}.

(** What evaluating [request.metadata] raises on a request that has no
    such attribute. *)
Definition no_metadata : exn :=
  OtherException "AttributeError" "'RPCRequest' object has no attribute 'metadata'".

(** The attributes and the clock that the bundled middleware find. *)
Variable h : heap.

(** [class TimingMiddleware] *)
Definition TimingMiddleware : RPCMiddleware :=
  {| before_call := fun request w =>
       match RPCRequest_getattr (attached h w request) request "metadata" with
       | None => (Raise no_metadata, w)
       | Some metadata =>
           match set_start_time h metadata w with
           | (Ok _, w') => (Ok request, w')
           | (Raise e, w') => (Raise e, w')
           end
       end;
     after_call := fun request response w =>
       match RPCRequest_getattr (attached h w request) request "metadata" with
       | None => (Raise no_metadata, w)
       | Some metadata =>
           match get metadata "start_time" PyNone with
           | Raise e => (Raise e, w)
           | Ok start =>
               if truthy start
               then match append_timing h start (req_method request) w with
                    | (Ok _, w') => (Ok response, w')
                    | (Raise e, w') => (Raise e, w')
                    end
               else (Ok response, w)
           end
       end;
     on_error := on_error RPCMiddleware_base |}.

(** [class AuthMiddleware] *)
Definition AuthMiddleware (validator : pyvalue -> bool) : RPCMiddleware :=
  {| before_call := fun request w =>
       match RPCRequest_getattr (attached h w request) request "metadata" with
       | None => (Raise no_metadata, w)
       | Some metadata =>
           match get metadata "auth_token" PyNone with
           | Raise e => (Raise e, w)
           | Ok token =>
               if negb (truthy token) || negb (validator token)
               then (Raise (RPCError_exn
                              {| code := -32001;
                                 message := "Authentication required";
                                 data := PyNone |}), w)
               else (Ok request, w)
           end
       end;
     after_call := after_call RPCMiddleware_base;
     on_error := on_error RPCMiddleware_base |}.

(** *** [RPCServer.call] *)

(** The [try] block of the before stage: the loop over the chain.
    Yields the local [request] as it stands when the block is left,
    with the exception in flight if a hook raised. *)
Fixpoint before_hooks (chain : list RPCMiddleware) (i : nat) (request : RPCRequest)
  : M (RPCRequest * option exn) :=
  match chain with
  | [] => ret (request, None)
  | mw :: rest =>
      fun s =>
        match invoke (BeforeCall i) (before_call mw request) s with
        | (Ok request', s') => before_hooks rest (S i) request' s'
        | (Raise e, s') => (Ok (request, Some e), s')
        end
  end.

(** The handler called with [params] unpacked as keyword arguments (a
    dict), as positional arguments (a list), or with no argument, and
    awaited when it is a coroutine. *)
Definition invoke_handler (method : RPCMethod) (params : pyvalue) : M pyvalue :=
  invoke (HandlerCall (method_name method))
    (match params with
     | PyDict kwargs => method_handler method [] kwargs
     | PyList args => method_handler method args []
     | _ => method_handler method [] []
     end).

(** The [for ... else] loop over [on_error]: the first response
    supplied, if any. *)
Fixpoint error_hooks (chain : list RPCMiddleware) (i : nat)
    (request : RPCRequest) (e : exn) : M (option RPCResponse) :=
  match chain with
  | [] => ret None
  | mw :: rest =>
      do mw_response <- invoke (OnError i) (on_error mw request e);
      match mw_response with
      | Some response => ret (Some response)
      | None => error_hooks rest (S i) request e
      end
  end.

(** The loop over [after_call]. *)
Fixpoint after_hooks (chain : list RPCMiddleware) (i : nat)
    (request : RPCRequest) (response : RPCResponse) : M RPCResponse :=
  match chain with
  | [] => ret response
  | mw :: rest =>
      do response' <- invoke (AfterCall i) (after_call mw request response);
      after_hooks rest (S i) request response'
  end.

(** The [try] statement around the handler. *)
Definition execute (self : RPCServer) (method : RPCMethod) (request : RPCRequest)
  : M RPCResponse :=
  try_except
    (do result <- invoke_handler method (req_params request);
     ret (RPCResponse_success result (req_id request)))
    (fun e =>
       match e with
       | RPCError_exn e => ret (RPCResponse_failure e (req_id request))
       | TypeError msg =>
           ret (RPCResponse_failure
                  {| code := INVALID_PARAMS; message := msg; data := PyNone |}
                  (req_id request))
       | OtherException cls msg =>
           do mw_response <- error_hooks (middleware self) 0 request e;
           match mw_response with
           | Some response => ret response
           | None =>
               ret (RPCResponse_failure
                      {| code := INTERNAL_ERROR; message := exn_str e; data := PyNone |}
                      (req_id request))
           end
       | BaseException cls msg => raise e
       end).

Definition call (self : RPCServer) (request : RPCRequest) : M (option RPCResponse) :=
  (* Apply before middleware *)
  do before <- before_hooks (middleware self) 0 request;
  let '(request, raised) := before in
  match raised with
  | Some (RPCError_exn e) => ret (Some (RPCResponse_failure e (req_id request)))
  | Some (BaseException cls msg) => raise (BaseException cls msg)
  | Some e =>
      ret (Some (RPCResponse_failure
                   {| code := INTERNAL_ERROR; message := exn_str e; data := PyNone |}
                   (req_id request)))
  | None =>
      (* Find method *)
      do method <- lift (methods_get self (req_method request));
      match method with
      | None =>
          ret (Some (RPCResponse_failure
                       {| code := METHOD_NOT_FOUND;
                          message := "Method not found: " ++ py_str (req_method request);
                          data := PyNone |}
                       (req_id request)))
      | Some method =>
          (* Execute method *)
          do response <- execute self method request;
          (* Apply after middleware *)
          do response <- after_hooks (middleware self) 0 request response;
          (* Don't return response for notifications *)
          if is_notification request then ret None else ret (Some response)
      end
  end.

(** *** [RPCServer.handle_json] *)

(** The loop over the items of a batch, [responses] being the list
    built so far. *)
Fixpoint batch_loop (self : RPCServer) (data : list pyvalue) (responses : list pyvalue)
  : M (list pyvalue) :=
  match data with
  | [] => ret responses
  | item :: rest =>
      do request <- lift (RPCRequest_from_value item);
      do response <- call self request;
      match response with
      | Some response =>
          batch_loop self rest (responses ++ [PyDict (RPCResponse_to_dict response)])
      | None => batch_loop self rest responses
      end
  end.

Definition handle_json (self : RPCServer) (json_str : string) : M string :=
  match json_loads json_str with
  | inl msg =>
      lift (json_encode (PyDict (RPCResponse_to_dict
              (RPCResponse_failure
                 {| code := PARSE_ERROR; message := msg; data := PyNone |} PyNone))))
  | inr (PyList data) =>
      (* Handle batch request *)
      match data with
      | [] =>
          lift (json_encode (PyDict (RPCResponse_to_dict
                  (RPCResponse_failure
                     {| code := INVALID_REQUEST; message := "Empty batch"; data := PyNone |}
                     PyNone))))
      | _ =>
          do responses <- batch_loop self data [];
          lift (json_encode (PyList responses))
      end
  | inr data =>
      (* Single request *)
      do request <- lift (RPCRequest_from_value data);
      do response <- call self request;
      match response with
      | Some response => lift (json_encode (PyDict (RPCResponse_to_dict response)))
      | None => ret ""
      end
  end.

End Engine.

Arguments Eff W A : clear implicits.
Arguments M W A : clear implicits.
Arguments mkRPCMethod {W}.
Arguments method_name {W}.
Arguments method_handler {W}.
Arguments method_description {W}.
Arguments method_params_schema {W}.
Arguments method_metadata {W}.
Arguments mkRPCMiddleware {W}.
Arguments before_call {W}.
Arguments after_call {W}.
Arguments on_error {W}.
Arguments mkRPCServer {W}.
Arguments methods {W}.
Arguments middleware {W}.
Arguments RPCServer_init {W}.
Arguments add_middleware {W}.
Arguments register {W}.
Arguments unregister {W}.
Arguments lookup_method {W}.
Arguments methods_get {W}.
Arguments mkMachine {W}.
Arguments world {W}.
Arguments journal {W}.
Arguments ret {W A}.
Arguments raise {W A}.
Arguments bind {W A B}.
Arguments try_except {W A}.
Arguments lift {W A}.
Arguments invoke {W A}.
Arguments RPCMiddleware_base {W}.
Arguments LoggingMiddleware {W}.
Arguments no_metadata : simpl never.
Arguments mkHeap {W}.
Arguments attached {W}.
Arguments set_start_time {W}.
Arguments append_timing {W}.
Arguments TimingMiddleware {W}.
Arguments AuthMiddleware {W}.
Arguments before_hooks {W}.
Arguments invoke_handler {W}.
Arguments error_hooks {W}.
Arguments after_hooks {W}.
Arguments execute {W}.
Arguments call {W}.
Arguments batch_loop {W}.
Arguments handle_json {W}.

(** ** Predicates used to state the properties *)

(** A value that can be a dict key. *)
Definition hashable (v : pyvalue) : bool :=
  match v with
  | PyList _ | PyDict _ => false
  | _ => true
  end.

(** The invariant of the data model on responses: either no error, or an
    error (a non-empty mapping) and no result. *)
Definition response_well_formed (r : RPCResponse) : bool :=
  is_None (resp_error r) || (truthy (resp_error r) && is_None (resp_result r)).

(** An item of a batch that decodes to a request the registry can look
    up: an object whose [method], if any, is hashable. *)
Definition request_object (item : pyvalue) : bool :=
  match item with
  | PyDict d => hashable (dict_get d "method" (PyStr ""))
  | _ => false
  end.

(** [PyDict (r.to_dict())] for every response of a list. *)
Definition encode_responses (rs : list RPCResponse) : list pyvalue :=
  map (fun r => PyDict (RPCResponse_to_dict r)) rs.

(** The responses among the outcomes of a sequence of calls, in order. *)
Fixpoint responses_of (outs : list (option RPCResponse)) : list RPCResponse :=
  match outs with
  | [] => []
  | Some r :: rest => r :: responses_of rest
  | None :: rest => responses_of rest
  end.

Section Runs.

Context {W : Type}.

(** The items of a batch decoded and dispatched one after the other,
    each call starting where the previous one stopped: [outs] lists
    what the calls returned, item by item. *)
Inductive batch_run (self : RPCServer W)
  : machine W -> list pyvalue -> list (option RPCResponse) -> machine W -> Prop :=
| batch_run_nil s : batch_run self s [] [] s
| batch_run_cons s d rest out s1 outs s2 :
    call self (RPCRequest_from_dict d) s = (Ok out, s1) ->
    batch_run self s1 rest outs s2 ->
    batch_run self s (PyDict d :: rest) (out :: outs) s2.

(** A middleware that keeps to the contract of its hooks: [before_call]
    hands on a request whose method can still be looked up, and raises
    nothing outside [Exception]; [after_call] and [on_error] do not
    raise. *)
Record hook_contract (mw : RPCMiddleware W) : Prop := {
  before_ok : forall r w,
      hashable (req_method r) = true ->
      match fst (before_call mw r w) with
      | Ok r' => hashable (req_method r') = true
      | Raise (BaseException _ _) => False
      | Raise _ => True
      end;
  after_ok : forall r p w, exists p', fst (after_call mw r p w) = Ok p';
  error_ok : forall r e w, exists o, fst (on_error mw r e w) = Ok o
}.

(** A server whose middleware keep to that contract and whose handlers
    raise nothing outside [Exception]. *)
Record disciplined (self : RPCServer W) : Prop := {
  hooks_ok : Forall hook_contract (middleware self);
  handler_ok : forall name m, methods self !! name = Some m ->
      forall args kwargs w cls msg,
        fst (method_handler m args kwargs w) <> Raise (BaseException cls msg)
}.

(** A middleware whose [before_call] never aborts with a protocol
    error (nor with an exception outside [Exception]). *)
Definition no_protocol_abort (mw : RPCMiddleware W) : Prop :=
  forall r w,
    match fst (before_call mw r w) with
    | Raise (RPCError_exn _) => False
    | Raise (BaseException _ _) => False
    | _ => True
    end.

End Runs.

(** ** A concrete setting

    A world that counts the handler invocations, handlers in the manner
    of [example_usage], a middleware that refuses every call and one
    that marks the responses it sees, and a text codec given on a handful
    of texts. *)

Module Sample.

(** [def add(a, b): return a + b], counting its invocations. *)
Definition add : list pyvalue -> list (string * pyvalue) -> Eff nat pyvalue :=
  fun args kwargs w =>
    match args, kwargs with
    | [PyInt a; PyInt b], [] => (Ok (PyInt (a + b)), S w)
    | [], [_; _] =>
        match dict_lookup kwargs "a", dict_lookup kwargs "b" with
        | Some (PyInt a), Some (PyInt b) => (Ok (PyInt (a + b)), S w)
        | _, _ => (Raise (TypeError "add() got an unexpected keyword argument"), w)
        end
    | _, _ => (Raise (TypeError "add() missing required positional arguments"), w)
    end.

(** [divide] of [example_usage]'s [MathService], on integers: raises
    the protocol error [-32001] on a zero divisor. *)
Definition divide : list pyvalue -> list (string * pyvalue) -> Eff nat pyvalue :=
  fun args kwargs w =>
    match args, kwargs with
    | [PyInt a; PyInt b], [] =>
        if b =? 0
        then (Raise (RPCError_exn {| code := -32001; message := "Division by zero";
                                    data := PyNone |}), S w)
        else (Ok (PyInt (a / b)), S w)
    | _, _ => (Raise (TypeError "divide() missing required positional arguments"), w)
    end.

(** A handler that fails with an exception of its own. *)
Definition crash : list pyvalue -> list (string * pyvalue) -> Eff nat pyvalue :=
  fun args kwargs w => (Raise (OtherException "RuntimeError" "boom"), S w).

(** A middleware whose [before_call] refuses every call. *)
Definition Deny : RPCMiddleware nat :=
  {| before_call := fun request w =>
       (Raise (RPCError_exn {| code := -32001; message := "Authentication required";
                               data := PyNone |}), w);
     after_call := after_call RPCMiddleware_base;
     on_error := on_error RPCMiddleware_base |}.

(** A middleware whose [after_call] marks the response as seen, in its
    [jsonrpc] field. *)
Definition Mark : RPCMiddleware nat :=
  {| before_call := before_call RPCMiddleware_base;
     after_call := fun request response w =>
       (Ok {| resp_result := resp_result response;
              resp_error := resp_error response;
              resp_id := resp_id response;
              resp_jsonrpc := PyStr "seen" |}, w);
     on_error := on_error RPCMiddleware_base |}.

(** A server with the three handlers registered and no middleware. *)
Definition server : RPCServer nat :=
  register "crash" crash ""
    (register "divide" divide ""
       (register "add" add "Add two numbers" RPCServer_init)).

Definition start : machine nat := {| world := 0%nat; journal := [] |}.

Definition request (method : string) (params : list pyvalue) (id : pyvalue) : RPCRequest :=
  {| req_method := PyStr method; req_params := PyList params; req_id := id;
     req_jsonrpc := PyStr "2.0" |}.

Definition quote : string := String (ascii_of_nat 34) EmptyString.

Definition join (sep : string) (parts : list string) : string :=
  match parts with
  | [] => ""
  | p :: ps => fold_left (fun acc x => acc ++ sep ++ x) ps p
  end.

(** The text [json.dumps] gives with its default separators, for
    strings that need no escape.  (An object of another class has no
    text: [json_encode] raises before asking for one.) *)
Fixpoint dumps (v : pyvalue) : string :=
  match v with
  | PyNone => "null"
  | PyBool true => "true"
  | PyBool false => "false"
  | PyInt z => pretty z
  | PyStr s => quote ++ s ++ quote
  | PyList items => "[" ++ join ", " (map dumps items) ++ "]"
  | PyDict entries =>
      "{" ++ join ", " (map (fun kv => quote ++ fst kv ++ quote ++ ": " ++ dumps (snd kv))
                            entries) ++ "}"
  | PyObject _ _ => ""
  end.

(** The request object
    [{"jsonrpc": "2.0", "method": ..., "params": [...], "id": ...}]. *)
Definition envelope (method : string) (params : list pyvalue) (id : pyvalue) : pyvalue :=
  PyDict [("jsonrpc", PyStr "2.0"); ("method", PyStr method);
          ("params", PyList params); ("id", id)].

(** The same without [id]: a notification. *)
Definition notice (method : string) (params : list pyvalue) : pyvalue :=
  PyDict [("jsonrpc", PyStr "2.0"); ("method", PyStr method);
          ("params", PyList params)].

(** A batch of three calls, the second of an unregistered method. *)
Definition batch123 : pyvalue :=
  PyList [envelope "add" [PyInt 1; PyInt 2] (PyInt 1);
          envelope "sub" [PyInt 5; PyInt 3] (PyInt 2);
          envelope "add" [PyInt 3; PyInt 4] (PyInt 3)].

(** A batch whose second element is not an object. *)
Definition batch_with_number : pyvalue :=
  PyList [envelope "add" [PyInt 1; PyInt 2] (PyInt 1); PyInt 5].

(** The JSON documents the codec below knows. *)
Definition corpus : list pyvalue :=
  [PyList []; PyInt 5; envelope "add" [PyInt 1; PyInt 2] (PyInt 1);
   notice "sub" []; batch123; batch_with_number].

(** [json.loads] on the texts of the documents of [corpus]; on any other
    text it reports what [json.loads] reports on the text [x]. *)
Definition loads (text : string) : string + pyvalue :=
  match List.find (fun v => String.eqb (dumps v) text) corpus with
  | Some v => inr v
  | None => inl "Expecting value: line 1 column 1 (char 0)"
  end.

End Sample.

(** ** The rest of the server, services and the manager *)

(** What [getattr(service, name)] gives for a name of [dir(service)]: a
    callable, usable as a handler, or any other value. *)
Inductive attribute (W : Type) : Type :=
| Callable (f : list pyvalue -> list (string * pyvalue) -> Eff W pyvalue)
| Data (v : pyvalue).
Arguments Callable {W} f.
Arguments Data {W} v.

Section Services.

Variable W : Type.
Variable json_loads : string -> string + pyvalue.
Variable json_dumps : pyvalue -> string.

(** [RPCServer.method], the decorator applied to a function [fn] whose
    [__name__] is [fn_name]: [name or fn.__name__] is the name
    registered. *)
Definition RPCServer_method (name : option string) (description : string)
    (fn_name : string)
    (fn : list pyvalue -> list (string * pyvalue) -> Eff W pyvalue)
    (self : RPCServer W) : RPCServer W :=
  let method_name :=
    match name with
    | Some n => if String.eqb n "" then fn_name else n
    | None => fn_name
    end in
  register method_name fn description self.

(** The entry of a method in the list of [list_methods]. *)
Definition listing_of (m : RPCMethod W) : pyvalue :=
  PyDict [("name", PyStr (method_name m));
          ("description", PyStr (method_description m))].

(** [RPCServer.list_methods].  The registry being a finite map, the
    entries come in the order of the map, not in the insertion order of
    the Python dict: only what does not depend on the order is stated of
    this list. *)
Definition list_methods (self : RPCServer W) : list pyvalue :=
  map listing_of (map snd (map_to_list (methods self))).

(** An [RPCService] instance as [get_methods] sees it: the names of
    [dir(self)], in that order, each with its attribute. *)
Definition RPCService : Type := list (string * attribute W).

(** [methods[name] = method] on the dict that [get_methods] builds. *)
Fixpoint methods_set
    (d : list (string * (list pyvalue -> list (string * pyvalue) -> Eff W pyvalue)))
    (k : string) (v : list pyvalue -> list (string * pyvalue) -> Eff W pyvalue)
  : list (string * (list pyvalue -> list (string * pyvalue) -> Eff W pyvalue)) :=
  match d with
  | [] => [(k, v)]
  | (k', v') :: rest =>
      if String.eqb k' k then (k', v) :: rest else (k', v') :: methods_set rest k v
  end.

(** The body of the loop of [get_methods] over [dir(self)]. *)
Definition get_methods_step
    (methods : list (string * (list pyvalue -> list (string * pyvalue) -> Eff W pyvalue)))
    (entry : string * attribute W)
  : list (string * (list pyvalue -> list (string * pyvalue) -> Eff W pyvalue)) :=
  let name := fst entry in
  if negb (String.prefix "_" name)
  then match snd entry with
       | Callable method =>
           if negb (String.prefix "get_" name)
           then methods_set methods name method
           else methods
       | Data _ => methods
       end
  else methods.

(** [RPCService.get_methods] *)
Definition get_methods (self : RPCService)
  : list (string * (list pyvalue -> list (string * pyvalue) -> Eff W pyvalue)) :=
  fold_left get_methods_step self [].

(** [class RPCManager] *)
Record RPCManager : Type := mkRPCManager {
  manager_server : RPCServer W;
  manager_services : gmap string RPCService
}.

(** [RPCManager.__init__] *)
Definition RPCManager_init : RPCManager :=
  {| manager_server := RPCServer_init; manager_services := ∅ |}.

(** The name [prefix.name] under which a service method is registered. *)
Definition full_name (prefix name : string) : string := prefix ++ "." ++ name.

(** [RPCManager.register_service] *)
Definition register_service (prefix : string) (service : RPCService)
    (self : RPCManager) : RPCManager :=
  {| manager_services := <[prefix := service]> (manager_services self);
     manager_server :=
       fold_left
         (fun server entry => register (full_name prefix (fst entry)) (snd entry) "" server)
         (get_methods service) (manager_server self) |}.

(** [RPCManager.unregister_service]: the returned flag and the manager
    left. *)
Definition unregister_service (prefix : string) (self : RPCManager)
  : bool * RPCManager :=
  match manager_services self !! prefix with
  | None => (false, self)
  | Some service =>
      (true,
       {| manager_services := delete prefix (manager_services self);
          manager_server :=
            fold_left
              (fun server entry => snd (unregister (full_name prefix (fst entry)) server))
              (get_methods service) (manager_server self) |})
  end.

(** [RPCManager.handle] *)
Definition RPCManager_handle (self : RPCManager) (json_str : string) : M W string :=
  handle_json json_loads json_dumps (manager_server self) json_str.

End Services.

Arguments RPCServer_method {W}.
Arguments listing_of {W}.
Arguments list_methods {W}.
Arguments methods_set {W}.
Arguments get_methods_step {W}.
Arguments get_methods {W}.
Arguments mkRPCManager {W}.
Arguments manager_server {W}.
Arguments manager_services {W}.
Arguments RPCManager_init {W}.
Arguments register_service {W}.
Arguments unregister_service {W}.
Arguments RPCManager_handle {W}.

(** A name that [get_methods] lets through: it starts neither with an
    underscore nor with [get_]. *)
Definition public (name : string) : bool :=
  negb (String.prefix "_" name) && negb (String.prefix "get_" name).

(** Every entry of the registry carries, as its name, the key it is
    stored under. *)
Definition registry_keyed {W : Type} (self : RPCServer W) : Prop :=
  forall key m, methods self !! key = Some m -> method_name m = key.

(** ** The client *)

(** [key in x], with [key] a string: a key of a dict, an element of a
    list, a substring of a string; other values are not iterable. *)
Definition contains (key : string) (x : pyvalue) : res bool :=
  match x with
  | PyDict d => Ok (match dict_lookup d key with Some _ => true | None => false end)
  | PyList items =>
      Ok (existsb (fun v => match v with PyStr s => String.eqb s key | _ => false end)
            items)
  | PyStr s => Ok (match String.index 0 key s with Some _ => true | None => false end)
  | other =>
      Raise (TypeError ("argument of type '" ++ type_name other ++ "' is not iterable"))
  end.

(** [x[key]], with [key] a string. *)
Definition getitem (x : pyvalue) (key : string) : res pyvalue :=
  match x with
  | PyDict d =>
      match dict_lookup d key with
      | Some v => Ok v
      | None => Raise (OtherException "KeyError" ("'" ++ key ++ "'"))
      end
  | PyList _ => Raise (TypeError "list indices must be integers or slices, not str")
  | PyStr _ => Raise (TypeError "string indices must be integers, not 'str'")
  | other =>
      Raise (TypeError ("'" ++ type_name other ++ "' object is not subscriptable"))
  end.

(** The one-character strings of a string, as [for c in s] yields them. *)
Fixpoint characters (s : string) : list pyvalue :=
  match s with
  | EmptyString => []
  | String c rest => PyStr (String c EmptyString) :: characters rest
  end.

(** What [for item in x] iterates over. *)
Definition iterate (x : pyvalue) : res (list pyvalue) :=
  match x with
  | PyList items => Ok items
  | PyDict d => Ok (map (fun entry => PyStr (fst entry)) d)
  | PyStr s => Ok (characters s)
  | other => Raise (TypeError ("'" ++ type_name other ++ "' object is not iterable"))
  end.

(** How a client operation ends: it returns, it raises the [RPCError]
    rebuilt from a response (whose code, message and data are whatever
    the response carried), or it raises another exception. *)
Inductive outcome (A : Type) : Type :=
| Returned (a : A)
| RaisedRPCError (code message data : pyvalue)
| Raised (e : exn).
Arguments Returned {A} a.
Arguments RaisedRPCError {A} code message data.
Arguments Raised {A} e.

(** An element of the list [RPCClient.batch] returns: an [RPCError]
    object made of a code and a message, or a result. *)
Inductive batch_result : Type :=
| ResultError (code message : pyvalue)
| ResultValue (v : pyvalue).

(** [ValueError(msg)] *)
Definition ValueError (msg : string) : exn := OtherException "ValueError" msg.

(** The tail of [RPCClient.call], from the decoded response on. *)
Definition read_response (response_data : pyvalue) : outcome pyvalue :=
  match contains "error" response_data with
  | Raise e => Raised e
  | Ok true =>
      match getitem response_data "error" with
      | Raise e => Raised e
      | Ok error =>
          match get error "code" (PyInt (-32000)) with
          | Raise e => Raised e
          | Ok code =>
              match get error "message" (PyStr "Unknown error") with
              | Raise e => Raised e
              | Ok message =>
                  match get error "data" PyNone with
                  | Raise e => Raised e
                  | Ok data => RaisedRPCError code message data
                  end
              end
          end
      end
  | Ok false =>
      match get response_data "result" PyNone with
      | Raise e => Raised e
      | Ok result => Returned result
      end
  end.

(** The body of the loop of [RPCClient.batch] over the responses. *)
Definition read_batch_response (response : pyvalue) : res batch_result :=
  match contains "error" response with
  | Raise e => Raise e
  | Ok true =>
      match getitem response "error" with
      | Raise e => Raise e
      | Ok error =>
          match get error "code" PyNone with
          | Raise e => Raise e
          | Ok code =>
              match get error "message" PyNone with
              | Raise e => Raise e
              | Ok message => Ok (ResultError code message)
              end
          end
      end
  | Ok false =>
      match get response "result" PyNone with
      | Raise e => Raise e
      | Ok result => Ok (ResultValue result)
      end
  end.

(** The loop of [RPCClient.batch] over the responses, [results] being
    the list built so far. *)
Fixpoint read_batch_responses (responses : list pyvalue) (results : list batch_result)
  : res (list batch_result) :=
  match responses with
  | [] => Ok results
  | response :: rest =>
      match read_batch_response response with
      | Raise e => Raise e
      | Ok result => read_batch_responses rest (results ++ [result])
      end
  end.

Section Client.

Variable W : Type.
Variable json_loads : string -> string + pyvalue.
Variable json_dumps : pyvalue -> string.

(** [class RPCClient] (the lock has no sequential content).  The
    transport is a callable from text to text. *)
Record RPCClient : Type := mkRPCClient {
  transport : option (string -> Eff W string);
  id_counter : Z
}.

(** [RPCClient.__init__] *)
Definition RPCClient_init (transport : option (string -> Eff W string)) : RPCClient :=
  {| transport := transport; id_counter := 0 |}.

(** [RPCClient._next_id]: the id returned and the client left. *)
Definition next_id (self : RPCClient) : Z * RPCClient :=
  (id_counter self + 1,
   {| transport := transport self; id_counter := id_counter self + 1 |}).

(** [list(args) if args else kwargs] *)
Definition call_params (args : list pyvalue) (kwargs : list (string * pyvalue)) : pyvalue :=
  match args with
  | [] => PyDict kwargs
  | _ => PyList args
  end.

(** [args and kwargs], as a condition. *)
Definition mixed (args : list pyvalue) (kwargs : list (string * pyvalue)) : bool :=
  match args, kwargs with
  | _ :: _, _ :: _ => true
  | _, _ => false
  end.

(** [RPCClient.call]: how it ends, the client and the world left. *)
Definition RPCClient_call (self : RPCClient) (method : string)
    (args : list pyvalue) (kwargs : list (string * pyvalue)) (w : W)
  : outcome pyvalue * RPCClient * W :=
  if mixed args kwargs
  then (Raised (ValueError "Cannot mix positional and keyword arguments"), self, w)
  else
    let '(id, self) := next_id self in
    let request := {| req_method := PyStr method;
                      req_params := call_params args kwargs;
                      req_id := PyInt id;
                      req_jsonrpc := PyStr "2.0" |} in
    match transport self with
    | None => (Raised (ValueError "No transport configured"), self, w)
    | Some send =>
        (* Send request *)
        match json_encode json_dumps (PyDict (RPCRequest_to_dict request)) with
        | Raise e => (Raised e, self, w)
        | Ok request_str =>
            match send request_str w with
            | (Raise e, w') => (Raised e, self, w')
            | (Ok response_str, w') =>
                if String.eqb response_str ""
                then (Returned PyNone, self, w')
                else
                  (* Parse response *)
                  match json_loads response_str with
                  | inl msg => (Raised (OtherException "JSONDecodeError" msg), self, w')
                  | inr response_data => (read_response response_data, self, w')
                  end
            end
        end
    end.

(** [RPCClient.notify] *)
Definition RPCClient_notify (self : RPCClient) (method : string)
    (args : list pyvalue) (kwargs : list (string * pyvalue)) (w : W)
  : outcome unit * RPCClient * W :=
  if mixed args kwargs
  then (Raised (ValueError "Cannot mix positional and keyword arguments"), self, w)
  else
    let request := {| req_method := PyStr method;
                      req_params := call_params args kwargs;
                      req_id := PyNone;
                      req_jsonrpc := PyStr "2.0" |} in
    match transport self with
    | Some send =>
        match json_encode json_dumps (PyDict (RPCRequest_to_dict request)) with
        | Raise e => (Raised e, self, w)
        | Ok request_str =>
            match send request_str w with
            | (Raise e, w') => (Raised e, self, w')
            | (Ok _, w') => (Returned tt, self, w')
            end
        end
    | None => (Returned tt, self, w)
    end.

(** The first loop of [RPCClient.batch]: the requests built so far and
    the client left. *)
Fixpoint batch_requests (calls : list (string * pyvalue)) (self : RPCClient)
    (requests : list pyvalue) : list pyvalue * RPCClient :=
  match calls with
  | [] => (requests, self)
  | (method, params) :: rest =>
      let '(id, self) := next_id self in
      let request := {| req_method := PyStr method;
                        req_params := match params with
                                      | PyList _ | PyDict _ => params
                                      | _ => PyList [params]
                                      end;
                        req_id := PyInt id;
                        req_jsonrpc := PyStr "2.0" |} in
      batch_requests rest self (requests ++ [PyDict (RPCRequest_to_dict request)])
  end.

(** [RPCClient.batch] *)
Definition RPCClient_batch (self : RPCClient) (calls : list (string * pyvalue)) (w : W)
  : outcome (list batch_result) * RPCClient * W :=
  let '(requests, self) := batch_requests calls self [] in
  match transport self with
  | None => (Raised (ValueError "No transport configured"), self, w)
  | Some send =>
      match json_encode json_dumps (PyList requests) with
      | Raise e => (Raised e, self, w)
      | Ok request_str =>
          match send request_str w with
          | (Raise e, w') => (Raised e, self, w')
          | (Ok response_str, w') =>
              match json_loads response_str with
              | inl msg => (Raised (OtherException "JSONDecodeError" msg), self, w')
              | inr responses =>
                  match iterate responses with
                  | Raise e => (Raised e, self, w')
                  | Ok items =>
                      match read_batch_responses items [] with
                      | Raise e => (Raised e, self, w')
                      | Ok results => (Returned results, self, w')
                      end
                  end
              end
          end
      end
  end.

(** The [transport] of [RPCManager.create_client]: the text goes to the
    server's [handle_json] and its output comes back.  (The event loop
    that drives the coroutine is not part of the model.) *)
Definition server_transport (server : RPCServer W) : string -> Eff W string :=
  fun request_str w =>
    let '(r, s) := handle_json json_loads json_dumps server request_str
                     {| world := w; journal := [] |} in
    (r, world s).

End Client.

Arguments mkRPCClient {W}.
Arguments transport {W}.
Arguments id_counter {W}.
Arguments RPCClient_init {W}.
Arguments next_id {W}.
Arguments RPCClient_call {W}.
Arguments RPCClient_notify {W}.
Arguments batch_requests {W}.
Arguments RPCClient_batch {W}.
Arguments server_transport {W}.

(** The [id] of an item of a batch, as [from_dict] reads it. *)
Definition item_id (item : pyvalue) : pyvalue :=
  match item with
  | PyDict d => dict_get d "id" PyNone
  | _ => PyNone
  end.

(** An item of a batch that is a notification of a registered method. *)
Definition registered_notification {W : Type} (self : RPCServer W) (item : pyvalue) : Prop :=
  exists d name method,
    item = PyDict d
    /\ dict_get d "id" PyNone = PyNone
    /\ dict_get d "method" (PyStr "") = PyStr name
    /\ lookup_method name self = Some method.

(** A middleware whose [on_error] declines: it supplies no response and
    does nothing. *)
Definition on_error_declines {W : Type} (mw : RPCMiddleware W) : Prop :=
  forall request e w, on_error mw request e w = (Ok None, w).

(** A document that the text codec carries over unchanged: [json.dumps]
    encodes it, as a text that is not empty, and [json.loads] gives it
    back. *)
Definition carried (json_loads : string -> string + pyvalue)
    (json_dumps : pyvalue -> string) (v : pyvalue) : Prop :=
  encodable v = true /\ json_loads (json_dumps v) = inr v /\ json_dumps v <> "".

(** What [RPCClient.batch] makes of a response of the engine: an error
    object with the code and message of the error, or the result. *)
Definition result_of_response (r : RPCResponse) : batch_result :=
  if truthy (resp_error r)
  then match resp_error r with
       | PyDict error =>
           ResultError (dict_get error "code" PyNone) (dict_get error "message" PyNone)
       | _ => ResultValue PyNone
       end
  else ResultValue (resp_result r).

(** A response built by one of the two constructors of the engine. *)
Definition engine_made (r : RPCResponse) : Prop :=
  (exists result id, r = RPCResponse_success result id)
  \/ (exists e id, r = RPCResponse_failure e id).


(** ** Further concrete values *)

Module Fixture.

(** A service in the manner of [MathService], as [dir] and [getattr]
    show it: two public methods, a private one, the inherited
    [get_methods], and an attribute that is not callable. *)
Definition MathService : RPCService nat :=
  [("__init__", Callable Sample.crash);
   ("_secret", Callable Sample.crash);
   ("add", Callable Sample.add);
   ("divide", Callable Sample.divide);
   ("get_methods", Callable Sample.crash);
   ("precision", Data (PyInt 2))].

(** A later version of the service, without [add]. *)
Definition MathService2 : RPCService nat :=
  [("__init__", Callable Sample.crash);
   ("divide", Callable Sample.divide);
   ("get_methods", Callable Sample.crash)].

(** A middleware whose [on_error] answers every failure with a response
    of its own. *)
Definition Recover : RPCMiddleware nat :=
  {| before_call := before_call RPCMiddleware_base;
     after_call := after_call RPCMiddleware_base;
     on_error := fun request e w =>
       (Ok (Some (RPCResponse_failure
                    {| code := SERVER_ERROR; message := exn_str e; data := PyNone |}
                    (req_id request))), w) |}.

(** A middleware whose [after_call] fails. *)
Definition Faulty : RPCMiddleware nat :=
  {| before_call := before_call RPCMiddleware_base;
     after_call := fun request response w =>
       (Raise (OtherException "KeyError" "'start_time'"), w);
     on_error := on_error RPCMiddleware_base |}.

(** The response object of a success and of a failure. *)
Definition success_doc (id result : pyvalue) : pyvalue :=
  PyDict [("jsonrpc", PyStr "2.0"); ("id", id); ("result", result)].

Definition failure_doc (id : pyvalue) (code : Z) (message : string) : pyvalue :=
  PyDict [("jsonrpc", PyStr "2.0"); ("id", id);
          ("error", PyDict [("code", PyInt code); ("message", PyStr message)])].

(** The request of a call without arguments: its params are the empty
    dict. *)
Definition bare_envelope (method : string) (id : pyvalue) : pyvalue :=
  PyDict [("jsonrpc", PyStr "2.0"); ("method", PyStr method);
          ("params", PyDict []); ("id", id)].

(** A request object whose method is a list. *)
Definition list_method_doc : pyvalue :=
  PyDict [("method", PyList []); ("id", PyInt 1)].

(** A batch of two notifications of [add]. *)
Definition notices : list pyvalue :=
  [Sample.notice "add" [PyInt 1; PyInt 2]; Sample.notice "add" [PyInt 3; PyInt 4]].

(** The requests and the responses of a batch of three calls, the second
    of an unregistered method with a bare number as params. *)
Definition three_requests : list pyvalue :=
  [Sample.envelope "add" [PyInt 1; PyInt 2] (PyInt 1);
   Sample.envelope "sub" [PyInt 5] (PyInt 2);
   Sample.envelope "add" [PyInt 3; PyInt 4] (PyInt 3)].

Definition three_responses : list pyvalue :=
  [success_doc (PyInt 1) (PyInt 3);
   failure_doc (PyInt 2) METHOD_NOT_FOUND "Method not found: sub";
   success_doc (PyInt 3) (PyInt 7)].

(** The JSON documents the codec below knows. *)
Definition corpus : list pyvalue :=
  [PyList [];
   failure_doc PyNone INVALID_REQUEST "Empty batch";
   Sample.envelope "add" [PyInt 1; PyInt 2] (PyInt 1);
   success_doc (PyInt 1) (PyInt 3);
   Sample.envelope "divide" [PyInt 1; PyInt 0] (PyInt 1);
   failure_doc (PyInt 1) (-32001) "Division by zero";
   bare_envelope "sub" (PyInt 1);
   failure_doc (PyInt 1) METHOD_NOT_FOUND "Method not found: sub";
   list_method_doc;
   PyList notices;
   PyList three_requests;
   PyList three_responses].

(** [json.loads] on the texts of the documents of [corpus]; on any other
    text it reports what [json.loads] reports on the text [x]. *)
Definition loads (text : string) : string + pyvalue :=
  match List.find (fun v => String.eqb (Sample.dumps v) text) corpus with
  | Some v => inr v
  | None => inl "Expecting value: line 1 column 1 (char 0)"
  end.

(** A middleware whose [before_call] refuses every call with a protocol
    error that carries data. *)
Definition Refuse : RPCMiddleware nat :=
  {| before_call := fun request w =>
       (Raise (RPCError_exn {| code := -32001; message := "Authentication required";
                               data := PyDict [("realm", PyStr "rpc")] |}), w);
     after_call := after_call RPCMiddleware_base;
     on_error := on_error RPCMiddleware_base |}.

(** The counting world keeps no attribute on any request. *)
Definition bare : heap nat :=
  {| attached := fun w request => [];
     set_start_time := fun mapping w => (Ok tt, w);
     append_timing := fun start method w => (Ok tt, w) |}.

(** [def now(): return datetime.now()]: its result is no JSON value. *)
Definition now : list pyvalue -> list (string * pyvalue) -> Eff nat pyvalue :=
  fun args kwargs w => (Ok (PyObject "datetime" "2026-01-01 00:00:00"), S w).

(** The sample server with [now] registered besides. *)
Definition clock_server : RPCServer nat :=
  register "now" now "" Sample.server.

(** A batch of two calls, the second of [now]. *)
Definition batch_with_now : pyvalue :=
  PyList [Sample.envelope "add" [PyInt 1; PyInt 2] (PyInt 1);
          Sample.envelope "now" [] (PyInt 2)].

(** [json.loads] on the text of that batch and on the text of a single
    call of [now]; on any other text, as [loads]. *)
Definition loads_clock (text : string) : string + pyvalue :=
  match List.find (fun v => String.eqb (Sample.dumps v) text)
          [batch_with_now; Sample.envelope "now" [] (PyInt 1)] with
  | Some v => inr v
  | None => loads text
  end.

(** A client at its first call, wired to the sample server. *)
Definition client : RPCClient nat :=
  RPCClient_init (Some (server_transport loads Sample.dumps Sample.server)).

End Fixture.

(** ** A world with request attributes

    A world that is the instance dictionary of the request in flight,
    beyond the declared fields; the clock stands still. *)

Module Annotated.

Definition store : heap (list (string * pyvalue)) :=
  {| attached := fun w request => w;
     set_start_time := fun mapping w =>
       match mapping with
       | PyDict d =>
           (Ok tt,
            dict_set w "metadata"
              (PyDict (dict_set d "start_time" (PyObject "datetime" "2026-01-01 00:00:00"))))
       | other =>
           (Raise (TypeError ("'" ++ type_name other
                              ++ "' object does not support item assignment")), w)
       end;
     append_timing := fun start method w => (Ok tt, w) |}.

(** A middleware whose [before_call] does [request.metadata = {}] and
    hands the request on. *)
Definition Attach : RPCMiddleware (list (string * pyvalue)) :=
  {| before_call := fun request w => (Ok request, dict_set w "metadata" (PyDict []));
     after_call := after_call RPCMiddleware_base;
     on_error := on_error RPCMiddleware_base |}.

(** [def add(a, b): return a + b] *)
Definition add
  : list pyvalue -> list (string * pyvalue) -> Eff (list (string * pyvalue)) pyvalue :=
  fun args kwargs w =>
    match args, kwargs with
    | [PyInt a; PyInt b], [] => (Ok (PyInt (a + b)), w)
    | _, _ => (Raise (TypeError "add() missing required positional arguments"), w)
    end.

(** A validator that accepts one token. *)
Definition validator (token : pyvalue) : bool :=
  match token with
  | PyStr t => String.eqb t "secret"
  | _ => false
  end.

Definition server : RPCServer (list (string * pyvalue)) :=
  register "add" add "Add two numbers" RPCServer_init.

(** A request that nothing has been attached to. *)
Definition start : machine (list (string * pyvalue)) :=
  {| world := []; journal := [] |}.

(** A request that its caller has given [metadata = {"auth_token": token}]. *)
Definition with_token (token : string) : machine (list (string * pyvalue)) :=
  {| world := [("metadata", PyDict [("auth_token", PyStr token)])]; journal := [] |}.

End Annotated.

(** * Properties *)

Local Open Scope list_scope.

(** ** Message model *)

Lemma RPCError_to_dict_truthy (e : RPCError) :
  exists d, RPCError_to_dict e = PyDict d /\ truthy (PyDict d) = true.
Proof.
  unfold RPCError_to_dict.
  destruct (negb (is_None (data e))); eexists; split; reflexivity.
Qed.

(** Every response built by the engine's two constructors satisfies the
    invariant of the data model. *)
Lemma success_well_formed (result id : pyvalue) :
  response_well_formed (RPCResponse_success result id) = true.
Proof. reflexivity. Qed.

Lemma failure_well_formed (e : RPCError) (id : pyvalue) :
  response_well_formed (RPCResponse_failure e id) = true.
Proof.
  unfold response_well_formed; cbn.
  destruct (RPCError_to_dict_truthy e) as (d & -> & Ht).
  now rewrite Ht.
Qed.

(** Decoding the encoding of a request gives the request back, for every
    request. *)
Lemma request_round_trip (r : RPCRequest) :
  RPCRequest_from_dict (RPCRequest_to_dict r) = r.
Proof.
  destruct r as [m p i j].
  unfold RPCRequest_to_dict, RPCRequest_from_dict; cbn.
  destruct i; reflexivity.
Qed.

Lemma request_round_trip_value (r : RPCRequest) :
  RPCRequest_from_value (PyDict (RPCRequest_to_dict r)) = Ok r.
Proof. cbn. now rewrite request_round_trip. Qed.

(** The encoding of a response tells well-formed responses apart. *)
Lemma response_to_dict_injective (p q : RPCResponse) :
  response_well_formed p = true ->
  response_well_formed q = true ->
  RPCResponse_to_dict p = RPCResponse_to_dict q ->
  p = q.
Proof.
  destruct p as [pr pe pi pj], q as [qr qe qi qj].
  unfold response_well_formed, RPCResponse_to_dict; cbn.
  intros Hp Hq.
  destruct (truthy pe) eqn:Tp, (truthy qe) eqn:Tq; cbn; intros H;
    inversion H; subst; clear H.
  - destruct qe; try discriminate; cbn in Hp, Hq; rewrite ?Tq in *; cbn in Hp, Hq;
      destruct pr; try discriminate; destruct qr; try discriminate; reflexivity.
  - destruct pe, qe; cbn in *; try discriminate; reflexivity.
Qed.

(** C9 (as amended).  Decoding the encoding of a request reproduces it,
    for every request: [RPCRequest.from_dict(r.to_dict()) == r].  The
    code has no decoder for responses; the encoding of a response
    determines the response among those that satisfy the data-model
    invariant (no error, or a non-empty error and no result), so that
    such a response can be recovered from its encoding. *)
Theorem round_trip_request_and_well_formed_response
    (r : RPCRequest) (p q : RPCResponse) :
  response_well_formed p = true ->
  response_well_formed q = true ->
  RPCRequest_from_dict (RPCRequest_to_dict r) = r /\
  (RPCResponse_to_dict p = RPCResponse_to_dict q <-> p = q).
Proof.
  intros Hp Hq. split.
  - apply request_round_trip.
  - split.
    + now apply response_to_dict_injective.
    + now intros ->.
Qed.

Lemma round_trip_request_and_well_formed_response_witness :
  let r := Sample.request "add" [PyInt 1; PyInt 2] (PyInt 1) in
  let p := RPCResponse_success (PyInt 3) (PyInt 1) in
  let q := RPCResponse_failure
             {| code := METHOD_NOT_FOUND; message := "Method not found: sub";
                data := PyNone |} (PyInt 5) in
  response_well_formed p = true /\
  response_well_formed q = true /\
  RPCRequest_from_dict (RPCRequest_to_dict r) = r /\
  (RPCResponse_to_dict p = RPCResponse_to_dict q <-> p = q).
Proof.
  intros r p q.
  split; [reflexivity | split; [reflexivity |]].
  apply (round_trip_request_and_well_formed_response r p q); reflexivity.
Defined.

(** C9, against the claim as stated: no decoder whatever gives back
    every response from its encoding.  A response carrying both an error
    and a result is encoded without its result, so two such responses
    that differ in the result only have one and the same encoding. *)
Lemma response_round_trip_fails :
  ~ exists decode : list (string * pyvalue) -> RPCResponse,
      forall r : RPCResponse, decode (RPCResponse_to_dict r) = r.
Proof.
  intros [decode Hdecode].
  set (err := PyDict [("code", PyInt SERVER_ERROR); ("message", PyStr "failed")]).
  pose proof (Hdecode {| resp_result := PyInt 1; resp_error := err;
                         resp_id := PyInt 7; resp_jsonrpc := PyStr "2.0" |}) as H1.
  pose proof (Hdecode {| resp_result := PyInt 2; resp_error := err;
                         resp_id := PyInt 7; resp_jsonrpc := PyStr "2.0" |}) as H2.
  cbn in H1, H2. rewrite H1 in H2. discriminate H2.
Qed.

(** ** Method registry *)

Section Registry.

Context {W : Type}.
Implicit Types (self : RPCServer W) (name : string).

Lemma lookup_register self name h description :
  lookup_method name (register name h description self)
  = Some {| method_name := name; method_handler := h;
            method_description := description;
            method_params_schema := []; method_metadata := [] |}.
Proof. unfold lookup_method, register; cbn. apply lookup_insert_eq. Qed.

Lemma lookup_register_other self name name' h description :
  name <> name' ->
  lookup_method name' (register name h description self) = lookup_method name' self.
Proof. intros Hne. unfold lookup_method, register; cbn. now apply lookup_insert_ne. Qed.

Lemma lookup_unregister self name :
  lookup_method name (snd (unregister name self)) = None.
Proof.
  unfold lookup_method, unregister.
  destruct (methods self !! name) eqn:E; cbn.
  - apply lookup_delete_eq.
  - exact E.
Qed.

Lemma unregister_absent self name :
  lookup_method name self = None -> unregister name self = (false, self).
Proof. unfold lookup_method, unregister. now intros ->. Qed.

Lemma unregister_present self name m :
  lookup_method name self = Some m -> fst (unregister name self) = true.
Proof. unfold lookup_method, unregister. now intros ->. Qed.

Lemma unregister_twice self name :
  unregister name (snd (unregister name self)) = (false, snd (unregister name self)).
Proof. apply unregister_absent, lookup_unregister. Qed.

(** C8.  [register(name, h)] followed by a lookup of [name] returns an
    entry whose handler is [h]; [unregister(name)] followed by a lookup
    of [name] finds nothing; [unregister] of a name that has no entry
    returns [False] (and leaves the registry as it is); a second
    [unregister] of the same name returns [False] and leaves the
    registry unchanged. *)
Theorem registry_register_lookup_unregister
    self name h description (absent : string) :
  lookup_method absent self = None ->
  (exists m, lookup_method name (register name h description self) = Some m
             /\ method_handler m = h)
  /\ lookup_method name (snd (unregister name self)) = None
  /\ unregister absent self = (false, self)
  /\ unregister name (snd (unregister name self))
     = (false, snd (unregister name self)).
Proof.
  intros Habsent. repeat split.
  - eexists. split; [apply lookup_register | reflexivity].
  - apply lookup_unregister.
  - now apply unregister_absent.
  - apply unregister_twice.
Qed.

End Registry.

Lemma registry_register_lookup_unregister_witness :
  lookup_method "sub" Sample.server = None /\
  ((exists m, lookup_method "add" (register "add" Sample.add "" Sample.server) = Some m
              /\ method_handler m = Sample.add)
   /\ lookup_method "add" (snd (unregister "add" Sample.server)) = None
   /\ unregister "sub" Sample.server = (false, Sample.server)
   /\ unregister "add" (snd (unregister "add" Sample.server))
      = (false, snd (unregister "add" Sample.server))).
Proof.
  split.
  - reflexivity.
  - apply (registry_register_lookup_unregister
             Sample.server "add" Sample.add "" "sub").
    reflexivity.
Defined.

(** ** The single call *)

Section Dispatch.

Context {W : Type}.
Implicit Types (self : RPCServer W) (chain pre post : list (RPCMiddleware W))
  (mw : RPCMiddleware W) (s : machine W) (request current : RPCRequest) (response : RPCResponse).

(** *** The before stage *)

Lemma before_hooks_cons mw chain i request s :
  before_hooks (mw :: chain) i request s
  = match before_call mw request (world s) with
    | (Ok request', w) =>
        before_hooks chain (S i) request'
          {| world := w; journal := journal s ++ [BeforeCall i] |}
    | (Raise e, w) =>
        (Ok (request, Some e), {| world := w; journal := journal s ++ [BeforeCall i] |})
    end.
Proof.
  cbn. unfold invoke.
  destruct (before_call mw request (world s)) as [[request' | e] w]; reflexivity.
Qed.

Lemma before_hooks_never_raises chain i request s :
  exists current raised s', before_hooks chain i request s = (Ok (current, raised), s').
Proof.
  revert i request s.
  induction chain as [| mw chain IH]; intros i request s.
  - now exists request, None, s.
  - rewrite before_hooks_cons.
    destruct (before_call mw request (world s)) as [[request' | e] w].
    + apply IH.
    + now eexists _, _, _.
Qed.

(** A chain runs as its first part followed, when that part let the
    request through, by the rest. *)
Lemma before_hooks_app pre post i request s :
  before_hooks (pre ++ post) i request s
  = match before_hooks pre i request s with
    | (Ok (current, None), s1) => before_hooks post (i + length pre) current s1
    | stopped => stopped
    end.
Proof.
  revert i request s.
  induction pre as [| mw pre IH]; intros i request s.
  - cbn. unfold ret. now rewrite Nat.add_0_r.
  - rewrite <- app_comm_cons, !before_hooks_cons.
    destruct (before_call mw request (world s)) as [[request' | e] w].
    + rewrite IH. cbn [length]. now rewrite Nat.add_succ_r.
    + reflexivity.
Qed.

(** The before stage invokes [before_call] hooks only, from the first
    hook on, in registration order, and all of them when none raised. *)
Lemma before_hooks_journal chain i request s current raised s' :
  before_hooks chain i request s = (Ok (current, raised), s') ->
  exists k, (k <= length chain)%nat
            /\ journal s' = journal s ++ map BeforeCall (seq i k)
            /\ (raised = None -> k = length chain).
Proof.
  revert i request s.
  induction chain as [| mw chain IH]; intros i request s H.
  - cbn in H. injection H as <- <- <-.
    exists 0%nat. cbn. now rewrite app_nil_r.
  - rewrite before_hooks_cons in H.
    destruct (before_call mw request (world s)) as [[request' | e] w].
    + apply IH in H as (k & Hk & Hj & Hall). cbn [journal] in Hj.
      exists (S k). cbn [length seq map]. repeat split.
      * lia.
      * now rewrite Hj, <- app_assoc.
      * intros Hr. now rewrite (Hall Hr).
    + injection H as <- <- <-.
      exists 1%nat. cbn. repeat split; [lia | discriminate].
Qed.

(** *** The stages of [call], one equation each *)

Lemma call_before_protocol_error self request s current e s1 :
  before_hooks (middleware self) 0 request s
  = (Ok (current, Some (RPCError_exn e)), s1) ->
  call self request s = (Ok (Some (RPCResponse_failure e (req_id current))), s1).
Proof. intros H. unfold call, bind. now rewrite H. Qed.

Lemma call_before_exception self request s current e s1 :
  before_hooks (middleware self) 0 request s = (Ok (current, Some e), s1) ->
  match e with
  | TypeError _ | OtherException _ _ => True
  | _ => False
  end ->
  call self request s
  = (Ok (Some (RPCResponse_failure
                 {| code := INTERNAL_ERROR; message := exn_str e; data := PyNone |}
                 (req_id current))), s1).
Proof.
  intros H He. unfold call, bind. rewrite H.
  destruct e; try contradiction; reflexivity.
Qed.

Lemma call_method_not_found self request s current s1 :
  before_hooks (middleware self) 0 request s = (Ok (current, None), s1) ->
  methods_get self (req_method current) = Ok None ->
  call self request s
  = (Ok (Some (RPCResponse_failure
                 {| code := METHOD_NOT_FOUND;
                    message := "Method not found: " ++ py_str (req_method current);
                    data := PyNone |}
                 (req_id current))), s1).
Proof.
  intros H Hm. unfold call, bind, lift. now rewrite H, Hm.
Qed.

Lemma call_unhashable_method self request s current s1 e :
  before_hooks (middleware self) 0 request s = (Ok (current, None), s1) ->
  methods_get self (req_method current) = Raise e ->
  call self request s = (Raise e, s1).
Proof.
  intros H Hm. unfold call, bind, lift. now rewrite H, Hm.
Qed.

Lemma call_dispatched self request s current s1 method :
  before_hooks (middleware self) 0 request s = (Ok (current, None), s1) ->
  methods_get self (req_method current) = Ok (Some method) ->
  call self request s
  = match execute self method current s1 with
    | (Ok response, s2) =>
        match after_hooks (middleware self) 0 current response s2 with
        | (Ok response', s3) =>
            (Ok (if is_notification current then None else Some response'), s3)
        | (Raise e, s3) => (Raise e, s3)
        end
    | (Raise e, s2) => (Raise e, s2)
    end.
Proof.
  intros H Hm. unfold call, bind, lift. rewrite H, Hm.
  destruct (execute self method current s1) as [[response | e] s2]; [| reflexivity].
  destruct (after_hooks (middleware self) 0 current response s2) as [[response' | e] s3];
    [| reflexivity].
  unfold ret. now destruct (is_notification current).
Qed.

(** The dict of a protocol error, entry by entry. *)
Lemma RPCError_to_dict_entries e :
  RPCError_to_dict e
  = PyDict (("code", PyInt (code e)) :: ("message", PyStr (message e))
            :: (if is_None (data e) then [] else [("data", data e)])).
Proof. destruct e as [c m d]. now destruct d. Qed.

(** C5.  When some [before_call] hook raises a protocol error -- the
    hooks registered ahead of it having let the request through -- the
    pipeline stops there: the call yields the failure response whose
    error object holds the code and the message of the raised error and,
    unless it is [None], its data, with the id of the request as the
    earlier hooks left it, and the engine has invoked nothing but the
    [before_call] hooks up to the one that raised: no handler, no
    [on_error], no [after_call]. *)
Theorem before_call_error_short_circuits
    self pre mw post request s current s1 e w2 :
  middleware self = pre ++ mw :: post ->
  before_hooks pre 0 request s = (Ok (current, None), s1) ->
  before_call mw current (world s1) = (Raise (RPCError_exn e), w2) ->
  call self request s
  = (Ok (Some {| resp_result := PyNone;
                 resp_error :=
                   PyDict (("code", PyInt (code e)) :: ("message", PyStr (message e))
                           :: (if is_None (data e) then [] else [("data", data e)]));
                 resp_id := req_id current;
                 resp_jsonrpc := PyStr "2.0" |}),
     {| world := w2;
        journal := journal s ++ map BeforeCall (seq 0 (S (length pre))) |}).
Proof.
  intros Hchain Hpre Hmw.
  pose proof (before_hooks_journal _ _ _ _ _ _ _ Hpre) as (k & _ & Hj & Hall).
  rewrite (Hall eq_refl) in Hj.
  erewrite call_before_protocol_error.
  - unfold RPCResponse_failure. now rewrite RPCError_to_dict_entries.
  - rewrite Hchain, before_hooks_app, Hpre, before_hooks_cons, Hmw.
    rewrite Hj, seq_S, map_app, <- app_assoc. reflexivity.
Qed.

(** C7.  When the method of the request that leaves the before stage has
    no registry entry, the call yields the failure response with code
    -32601, the message "Method not found: " followed by the method name,
    and the request's id -- whatever the params are, and without any
    hook or handler being invoked after the before stage. *)
Theorem unknown_method_yields_method_not_found
    self request s current s1 (name : string) :
  before_hooks (middleware self) 0 request s = (Ok (current, None), s1) ->
  req_method current = PyStr name ->
  lookup_method name self = None ->
  call self request s
  = (Ok (Some {| resp_result := PyNone;
                 resp_error := PyDict [("code", PyInt (-32601));
                                       ("message", PyStr ("Method not found: " ++ name))];
                 resp_id := req_id current;
                 resp_jsonrpc := PyStr "2.0" |}), s1).
Proof.
  intros Hbefore Hname Habsent.
  erewrite call_method_not_found; [| exact Hbefore |].
  - now rewrite Hname.
  - rewrite Hname. cbn. now rewrite Habsent.
Qed.

(** *** [TimingMiddleware] *)

Variable h : heap W.

(** [metadata] is no declared field: [request.metadata] finds what has
    been attached under that name, if anything. *)
Lemma RPCRequest_getattr_metadata attrs request :
  RPCRequest_getattr attrs request "metadata" = dict_lookup attrs "metadata".
Proof. reflexivity. Qed.

Lemma TimingMiddleware_before_call_raises request (w : W) :
  RPCRequest_getattr (attached h w request) request "metadata" = None ->
  before_call (TimingMiddleware h) request w = (Raise no_metadata, w).
Proof. intros H. cbn [TimingMiddleware before_call]. now rewrite H. Qed.

Lemma AuthMiddleware_before_call_raises validator request (w : W) :
  RPCRequest_getattr (attached h w request) request "metadata" = None ->
  before_call (AuthMiddleware h validator) request w = (Raise no_metadata, w).
Proof. intros H. cbn [AuthMiddleware before_call]. now rewrite H. Qed.

Lemma LoggingMiddleware_no_protocol_abort : no_protocol_abort (W := W) LoggingMiddleware.
Proof. intros r w. exact I. Qed.

(** Hooks that never abort with a protocol error leave the before stage
    with no exception, or with one that maps to [INTERNAL_ERROR]. *)
Lemma before_hooks_no_protocol_abort chain i request s current raised s' :
  Forall no_protocol_abort chain ->
  before_hooks chain i request s = (Ok (current, raised), s') ->
  match raised with
  | None | Some (TypeError _) | Some (OtherException _ _) => True
  | _ => False
  end.
Proof.
  intros Hchain. revert i request s.
  induction Hchain as [| mw chain Hmw _ IH]; intros i request s H.
  - cbn in H. now injection H as <- <- <-.
  - rewrite before_hooks_cons in H.
    specialize (Hmw request (world s)).
    destruct (before_call mw request (world s)) as [[request' | e] w]; cbn in Hmw.
    + exact (IH _ _ _ H).
    + injection H as <- <- <-. now destruct e.
Qed.

(** C10 (as amended).  The [before_call] hooks of [TimingMiddleware]
    and of [AuthMiddleware] evaluate [request.metadata], which is no
    field of [RPCRequest], and so raise [AttributeError] on every request
    that has not been given such an attribute since it was made.
    Consequently, on a server with [TimingMiddleware] installed, provided
    no middleware registered ahead of it aborts with a protocol error (or
    with an exception outside [Exception]) and the request comes to
    [TimingMiddleware] without a [metadata] attribute, every call returns
    a failure response with code -32603 out of the before stage, and the
    engine has invoked [before_call] hooks only: no handler is invoked. *)
Theorem timing_middleware_blocks_every_call self pre post request s :
  middleware self = pre ++ TimingMiddleware h :: post ->
  Forall no_protocol_abort pre ->
  (forall current s1,
      before_hooks pre 0 request s = (Ok (current, None), s1) ->
      RPCRequest_getattr (attached h (world s1) current) current "metadata" = None) ->
  (forall r (w : W),
      RPCRequest_getattr (attached h w r) r "metadata" = None ->
      before_call (TimingMiddleware h) r w = (Raise no_metadata, w))
  /\ (forall validator r (w : W),
        RPCRequest_getattr (attached h w r) r "metadata" = None ->
        before_call (AuthMiddleware h validator) r w = (Raise no_metadata, w))
  /\ exists current msg k w',
       (k <= S (length pre))%nat /\
       call self request s
       = (Ok (Some {| resp_result := PyNone;
                      resp_error := PyDict [("code", PyInt (-32603));
                                            ("message", PyStr msg)];
                      resp_id := req_id current;
                      resp_jsonrpc := PyStr "2.0" |}),
          {| world := w'; journal := journal s ++ map BeforeCall (seq 0 k) |}).
Proof.
  intros Hchain Hpre Hbare.
  split; [exact TimingMiddleware_before_call_raises |].
  split; [exact AuthMiddleware_before_call_raises |].
  destruct (before_hooks_never_raises pre 0 request s) as (current & raised & s1 & Hb).
  pose proof (before_hooks_journal _ _ _ _ _ _ _ Hb) as (k & Hk & Hj & Hall).
  pose proof (before_hooks_no_protocol_abort _ _ _ _ _ _ _ Hpre Hb) as Hraised.
  destruct raised as [e |].
  - exists current, (exn_str e), k, (world s1). split; [lia |].
    erewrite call_before_exception with (e := e) (current := current) (s1 := s1).
    + destruct s1 as [w1 j1]. cbn in Hj |- *. now rewrite Hj.
    + now rewrite Hchain, before_hooks_app, Hb.
    + destruct e; try contradiction; exact I.
  - exists current, (exn_str no_metadata), (S k), (world s1).
    rewrite (Hall eq_refl) in *. split; [lia |].
    erewrite call_before_exception with (e := no_metadata) (current := current).
    + reflexivity.
    + rewrite Hchain, before_hooks_app, Hb, before_hooks_cons.
      rewrite (TimingMiddleware_before_call_raises _ _ (Hbare _ _ Hb)).
      rewrite Hj, seq_S, map_app, <- app_assoc. reflexivity.
    + exact I.
Qed.

(** With [TimingMiddleware] registered first, a request that has no
    [metadata] attribute gets the [AttributeError] turned into an
    internal error, for its id. *)
Lemma timing_middleware_first self post request s :
  middleware self = TimingMiddleware h :: post ->
  RPCRequest_getattr (attached h (world s) request) request "metadata" = None ->
  call self request s
  = (Ok (Some (RPCResponse_failure
                 {| code := INTERNAL_ERROR;
                    message := "'RPCRequest' object has no attribute 'metadata'";
                    data := PyNone |}
                 (req_id request))),
     {| world := world s; journal := journal s ++ [BeforeCall 0] |}).
Proof.
  intros Hchain Hbare.
  erewrite call_before_exception with (e := no_metadata) (current := request).
  - reflexivity.
  - now rewrite Hchain, before_hooks_cons, TimingMiddleware_before_call_raises.
  - exact I.
Qed.

(** A call of a method that is not registered invokes nothing after the
    before stage: in particular no [after_call] hook. *)
Lemma unknown_method_skips_after_hooks self request s current s1 out s' :
  before_hooks (middleware self) 0 request s = (Ok (current, None), s1) ->
  methods_get self (req_method current) = Ok None ->
  call self request s = (out, s') ->
  journal s' = journal s ++ map BeforeCall (seq 0 (length (middleware self))).
Proof.
  intros Hb Hm. erewrite call_method_not_found by eassumption.
  intros [= _ <-].
  pose proof (before_hooks_journal _ _ _ _ _ _ _ Hb) as (k & _ & Hj & Hall).
  now rewrite Hj, (Hall eq_refl).
Qed.

(** *** The after stage *)

Lemma after_hooks_cons mw chain i request response s :
  after_hooks (mw :: chain) i request response s
  = match after_call mw request response (world s) with
    | (Ok response', w) =>
        after_hooks chain (S i) request response'
          {| world := w; journal := journal s ++ [AfterCall i] |}
    | (Raise e, w) => (Raise e, {| world := w; journal := journal s ++ [AfterCall i] |})
    end.
Proof.
  cbn. unfold bind, invoke.
  destruct (after_call mw request response (world s)) as [[response' | e] w]; reflexivity.
Qed.

(** When the after stage returns, every [after_call] hook of the chain
    has been invoked, once, in registration order. *)
Lemma after_hooks_journal chain i request response s response' s' :
  after_hooks chain i request response s = (Ok response', s') ->
  journal s' = journal s ++ map AfterCall (seq i (length chain)).
Proof.
  revert i response s.
  induction chain as [| mw chain IH]; intros i response s H.
  - cbn in H. injection H as <- <-. cbn. now rewrite app_nil_r.
  - rewrite after_hooks_cons in H.
    destruct (after_call mw request response (world s)) as [[response1 | e] w];
      [| discriminate].
    apply IH in H. cbn [journal] in H.
    cbn [length seq map]. now rewrite H, <- app_assoc.
Qed.

(** The response that leaves the after stage is the running response
    passed through the hooks from first to last. *)
Lemma after_hooks_app pre post i request response s :
  after_hooks (pre ++ post) i request response s
  = match after_hooks pre i request response s with
    | (Ok response', s1) => after_hooks post (i + length pre) request response' s1
    | stopped => stopped
    end.
Proof.
  revert i response s.
  induction pre as [| mw pre IH]; intros i response s.
  - cbn. unfold ret. now rewrite Nat.add_0_r.
  - rewrite <- app_comm_cons, !after_hooks_cons.
    destruct (after_call mw request response (world s)) as [[response1 | e] w].
    + rewrite IH. cbn [length]. now rewrite Nat.add_succ_r.
    + reflexivity.
Qed.

(** The part of C2 that holds: once a method has been found, whatever
    the handler did -- returned, raised a protocol error, a [TypeError]
    or another exception -- the response goes through every [after_call]
    hook in registration order before it is returned. *)
Lemma after_hooks_run_once_dispatched
    self request s current s1 method response s2 response' s3 :
  before_hooks (middleware self) 0 request s = (Ok (current, None), s1) ->
  methods_get self (req_method current) = Ok (Some method) ->
  execute self method current s1 = (Ok response, s2) ->
  after_hooks (middleware self) 0 current response s2 = (Ok response', s3) ->
  call self request s
  = (Ok (if is_notification current then None else Some response'), s3)
  /\ journal s3
     = journal s2 ++ map AfterCall (seq 0 (length (middleware self))).
Proof.
  intros Hb Hm He Ha. split.
  - erewrite call_dispatched by eassumption. now rewrite He, Ha.
  - eapply after_hooks_journal, Ha.
Qed.

(** The part of C1 that holds: once a method has been found, a
    notification that returns returns nothing. *)
Lemma notification_dispatched_yields_nothing
    self request s current s1 method out s' :
  before_hooks (middleware self) 0 request s = (Ok (current, None), s1) ->
  methods_get self (req_method current) = Ok (Some method) ->
  is_notification current = true ->
  call self request s = (Ok out, s') ->
  out = None.
Proof.
  intros Hb Hm Hn. erewrite call_dispatched by eassumption. rewrite Hn.
  destruct (execute self method current s1) as [[response | e] s2]; [| discriminate].
  destruct (after_hooks (middleware self) 0 current response s2) as [[r | e] s3];
    [| discriminate].
  now intros [= <- _].
Qed.

(** *** Calls that return *)

Lemma error_hooks_returns chain i request e s :
  Forall hook_contract chain ->
  exists o s', error_hooks chain i request e s = (Ok o, s').
Proof.
  intros Hok. revert i s.
  induction Hok as [| mw chain Hmw _ IH]; intros i s.
  - now eexists _, _.
  - cbn. unfold bind, invoke.
    destruct (error_ok _ Hmw request e (world s)) as [o Ho].
    destruct (on_error mw request e (world s)) as [r w]. cbn in Ho. subst r.
    destruct o as [response |].
    + now eexists _, _.
    + apply IH.
Qed.

Lemma after_hooks_returns chain i request response s :
  Forall hook_contract chain ->
  exists response' s', after_hooks chain i request response s = (Ok response', s').
Proof.
  intros Hok. revert i response s.
  induction Hok as [| mw chain Hmw _ IH]; intros i response s.
  - now eexists _, _.
  - rewrite after_hooks_cons.
    destruct (after_ok _ Hmw request response (world s)) as [p' Hp].
    destruct (after_call mw request response (world s)) as [r w]. cbn in Hp. subst r.
    apply IH.
Qed.

Lemma before_hooks_disciplined chain i request s current raised s' :
  Forall hook_contract chain ->
  hashable (req_method request) = true ->
  before_hooks chain i request s = (Ok (current, raised), s') ->
  hashable (req_method current) = true
  /\ forall cls msg, raised <> Some (BaseException cls msg).
Proof.
  intros Hok. revert i request s.
  induction Hok as [| mw chain Hmw _ IH]; intros i request s Hh H.
  - cbn in H. injection H as <- <- <-. now split.
  - rewrite before_hooks_cons in H.
    pose proof (before_ok _ Hmw request (world s) Hh) as Hb.
    destruct (before_call mw request (world s)) as [[request' | e] w]; cbn in Hb.
    + eapply IH; [exact Hb | exact H].
    + injection H as <- <- <-. split; [exact Hh |].
      intros cls msg [= ->]. exact Hb.
Qed.

Lemma methods_get_hashable self (key : pyvalue) :
  hashable key = true -> exists found, methods_get self key = Ok found.
Proof. destruct key; try discriminate; intros _; now eexists. Qed.

Lemma methods_get_found self (key : pyvalue) method :
  methods_get self key = Ok (Some method) ->
  exists name, key = PyStr name /\ methods self !! name = Some method.
Proof.
  destruct key; try discriminate. cbn. unfold lookup_method.
  intros [= H]. now eexists.
Qed.

Lemma execute_returns self method request s (name : string) :
  disciplined self ->
  methods self !! name = Some method ->
  exists response s', execute self method request s = (Ok response, s').
Proof.
  intros Hd Hm.
  unfold execute, try_except, bind, invoke_handler, invoke.
  set (f := match req_params request with
            | PyDict kwargs => method_handler method [] kwargs
            | PyList args => method_handler method args []
            | _ => method_handler method [] []
            end).
  assert (Hf : forall cls msg, fst (f (world s)) <> Raise (BaseException cls msg)).
  { intros cls msg. subst f.
    destruct (req_params request); eapply (handler_ok _ Hd); exact Hm. }
  destruct (f (world s)) as [[result | e] w]; cbn in Hf.
  - now eexists _, _.
  - destruct e as [e | msg | cls msg | cls msg].
    + now eexists _, _.
    + now eexists _, _.
    + match goal with
      | |- context [error_hooks ?c ?i ?r ?e ?st] =>
          destruct (error_hooks_returns c i r e st (hooks_ok _ Hd)) as (o & s' & ->)
      end.
      destruct o; now eexists _, _.
    + now destruct (Hf cls msg).
Qed.

(** On a disciplined server a call returns: no exception reaches the
    caller. *)
Lemma call_returns self request s :
  disciplined self ->
  hashable (req_method request) = true ->
  exists out s', call self request s = (Ok out, s').
Proof.
  intros Hd Hh.
  destruct (before_hooks_never_raises (middleware self) 0 request s)
    as (current & raised & s1 & Hb).
  destruct (before_hooks_disciplined _ _ _ _ _ _ _ (hooks_ok _ Hd) Hh Hb)
    as [Hcur Hbase].
  destruct raised as [e |].
  - destruct e as [e | msg | cls msg | cls msg].
    + erewrite call_before_protocol_error by exact Hb. now eexists _, _.
    + erewrite call_before_exception by (exact Hb || exact I). now eexists _, _.
    + erewrite call_before_exception by (exact Hb || exact I). now eexists _, _.
    + now destruct (Hbase cls msg).
  - destruct (methods_get_hashable self _ Hcur) as [[method |] Hm].
    + erewrite call_dispatched by eassumption.
      destruct (methods_get_found _ _ _ Hm) as (name & _ & Hname).
      destruct (execute_returns self method current s1 name Hd Hname)
        as (response & s2 & ->).
      destruct (after_hooks_returns (middleware self) 0 current response s2
                  (hooks_ok _ Hd)) as (response' & s3 & ->).
      now eexists _, _.
    + erewrite call_method_not_found by eassumption. now eexists _, _.
Qed.

End Dispatch.

(** ** Text in, text out: [handle_json] *)

Section HandleJson.

Context {W : Type}.
Variable json_loads : string -> string + pyvalue.
Variable json_dumps : pyvalue -> string.
Implicit Types (self : RPCServer W) (s : machine W) (data : list pyvalue)
  (outs : list (option RPCResponse)).

Lemma batch_run_length self s data outs s' :
  batch_run self s data outs s' -> length outs = length data.
Proof. induction 1; cbn; congruence. Qed.

(** The loop appends, to the responses built so far, the encodings of
    the responses the calls return, in the order of the items. *)
Lemma batch_loop_run self s data outs s' :
  batch_run self s data outs s' ->
  forall acc,
    batch_loop self data acc s
    = (Ok (acc ++ encode_responses (responses_of outs)), s').
Proof.
  induction 1 as [s | s d rest out s1 outs s2 Hcall _ IH]; intros acc.
  - cbn. unfold ret. now rewrite app_nil_r.
  - cbn. unfold bind, lift. rewrite Hcall.
    destruct out as [response |]; rewrite IH; cbn.
    + now rewrite <- app_assoc.
    + reflexivity.
Qed.

(** An item that is not an object stops the loop with the exception of
    its decoding, whatever the earlier items produced. *)
Lemma batch_loop_aborts self s pre outs s1 item post e :
  batch_run self s pre outs s1 ->
  RPCRequest_from_value item = Raise e ->
  forall acc, batch_loop self (pre ++ item :: post) acc s = (Raise e, s1).
Proof.
  induction 1 as [s | s d rest out s1 outs s2 Hcall _ IH]; intros Hitem acc.
  - cbn. unfold bind, lift. now rewrite Hitem.
  - cbn. unfold bind, lift. rewrite Hcall.
    destruct out as [response |]; now rewrite IH.
Qed.


(** [json.dumps] on a JSON value gives its text. *)
Lemma json_encode_encodable (v : pyvalue) :
  encodable v = true -> json_encode json_dumps v = Ok (json_dumps v).
Proof. unfold encodable, json_encode. now destruct (unencodable v). Qed.

(** The batch has run to its end: [handle_json] hands the list of the
    encoded responses to [json.dumps]. *)
Lemma handle_json_batch self text data s outs s' :
  json_loads text = inr (PyList data) ->
  data <> [] ->
  batch_run self s data outs s' ->
  handle_json json_loads json_dumps self text s
  = (json_encode json_dumps (PyList (encode_responses (responses_of outs))), s').
Proof.
  intros Htext Hne Hrun.
  unfold handle_json. rewrite Htext.
  destruct data as [| item rest]; [congruence |].
  unfold bind. now rewrite (batch_loop_run _ _ _ _ _ Hrun []).
Qed.

(** A response that holds an object of a class [json.dumps] has no
    encoding for -- a handler result, say -- is not output, and neither
    are the other responses of the batch: [json.dumps] raises, and
    nothing catches it. *)
Lemma unencodable_response_loses_the_batch self text data s outs s' cls :
  json_loads text = inr (PyList data) ->
  data <> [] ->
  batch_run self s data outs s' ->
  unencodable (PyList (encode_responses (responses_of outs))) = Some cls ->
  handle_json json_loads json_dumps self text s
  = (Raise (TypeError ("Object of type " ++ cls ++ " is not JSON serializable")), s').
Proof.
  intros Htext Hne Hrun Hcls.
  rewrite (handle_json_batch _ _ _ _ _ _ Htext Hne Hrun).
  unfold json_encode. now rewrite Hcls.
Qed.


(** C4 (as amended).  For every input text that cannot be decoded,
    [handle_json] returns -- it does not raise -- the encoding of a
    single response with the code -32700, the decoder's message, and a
    null id; nothing is invoked. *)
Theorem undecodable_text_yields_parse_error self text msg s :
  json_loads text = inl msg ->
  handle_json json_loads json_dumps self text s
  = (Ok (json_dumps
           (PyDict [("jsonrpc", PyStr "2.0"); ("id", PyNone);
                    ("error", PyDict [("code", PyInt (-32700));
                                      ("message", PyStr msg)])])), s).
Proof. intros Htext. unfold handle_json. now rewrite Htext. Qed.

(** The text decodes to something that is neither a list nor an object:
    [handle_json] raises the [AttributeError] of [data.get]. *)
Lemma scalar_text_raises self text (v : pyvalue) s :
  json_loads text = inr v ->
  match v with PyList _ | PyDict _ => False | _ => True end ->
  handle_json json_loads json_dumps self text s
  = (Raise (OtherException "AttributeError"
              ("'" ++ type_name v ++ "' object has no attribute 'get'")), s).
Proof.
  intros Htext Hv. unfold handle_json. rewrite Htext.
  destruct v; try contradiction; reflexivity.
Qed.

(** C6.  For the empty batch, [handle_json] returns the encoding of a
    single response object -- a dict, not a list -- with the code -32600,
    the message "Empty batch" and a null id. *)
Theorem empty_batch_yields_invalid_request self text s :
  json_loads text = inr (PyList []) ->
  handle_json json_loads json_dumps self text s
  = (Ok (json_dumps
           (PyDict [("jsonrpc", PyStr "2.0"); ("id", PyNone);
                    ("error", PyDict [("code", PyInt (-32600));
                                      ("message", PyStr "Empty batch")])])), s).
Proof. intros Htext. unfold handle_json. now rewrite Htext. Qed.

End HandleJson.

(** ** The properties at concrete inputs *)




Lemma before_call_error_short_circuits_witness :
  let self := add_middleware Sample.Mark
                (add_middleware Fixture.Refuse
                   (add_middleware LoggingMiddleware Sample.server)) in
  let request := Sample.request "add" [PyInt 1; PyInt 2] (PyInt 1) in
  let s1 := {| world := 0%nat; journal := [BeforeCall 0] |} in
  let e := {| code := -32001; message := "Authentication required";
              data := PyDict [("realm", PyStr "rpc")] |} in
  middleware self = [LoggingMiddleware] ++ Fixture.Refuse :: [Sample.Mark]
  /\ before_hooks [LoggingMiddleware] 0 request Sample.start = (Ok (request, None), s1)
  /\ before_call Fixture.Refuse request (world s1) = (Raise (RPCError_exn e), 0%nat)
  /\ call self request Sample.start
     = (Ok (Some {| resp_result := PyNone;
                    resp_error := PyDict [("code", PyInt (-32001));
                                          ("message", PyStr "Authentication required");
                                          ("data", PyDict [("realm", PyStr "rpc")])];
                    resp_id := PyInt 1;
                    resp_jsonrpc := PyStr "2.0" |}),
        {| world := 0%nat; journal := [BeforeCall 0; BeforeCall 1] |}).
Proof.
  intros self request s1 e.
  split; [reflexivity | split; [reflexivity | split; [reflexivity |]]].
  apply (before_call_error_short_circuits self [LoggingMiddleware] Fixture.Refuse
           [Sample.Mark] request Sample.start request s1 e 0%nat);
    reflexivity.
Defined.

(** The same with an error that carries no data: the error object has
    the code and the message only. *)
Example before_call_error_without_data :
  call (add_middleware Sample.Mark
          (add_middleware Sample.Deny (add_middleware LoggingMiddleware Sample.server)))
    (Sample.request "add" [PyInt 1; PyInt 2] (PyInt 1)) Sample.start
  = (Ok (Some {| resp_result := PyNone;
                 resp_error := PyDict [("code", PyInt (-32001));
                                       ("message", PyStr "Authentication required")];
                 resp_id := PyInt 1;
                 resp_jsonrpc := PyStr "2.0" |}),
     {| world := 0%nat; journal := [BeforeCall 0; BeforeCall 1] |}).
Proof. vm_compute. reflexivity. Qed.

Lemma unknown_method_yields_method_not_found_witness :
  let request := Sample.request "sub" [PyInt 5; PyInt 3] (PyInt 5) in
  before_hooks (middleware Sample.server) 0 request Sample.start
  = (Ok (request, None), Sample.start)
  /\ req_method request = PyStr "sub"
  /\ lookup_method "sub" Sample.server = None
  /\ call Sample.server request Sample.start
     = (Ok (Some {| resp_result := PyNone;
                    resp_error := PyDict [("code", PyInt (-32601));
                                          ("message", PyStr "Method not found: sub")];
                    resp_id := PyInt 5;
                    resp_jsonrpc := PyStr "2.0" |}), Sample.start).
Proof.
  intros request.
  split; [reflexivity | split; [reflexivity | split; [reflexivity |]]].
  apply (unknown_method_yields_method_not_found Sample.server request Sample.start
           request Sample.start "sub"); reflexivity.
Defined.

Lemma timing_middleware_blocks_every_call_witness :
  let self := add_middleware (TimingMiddleware Fixture.bare)
                (add_middleware LoggingMiddleware Sample.server) in
  let request := Sample.request "add" [PyInt 1; PyInt 2] (PyInt 1) in
  middleware self = [LoggingMiddleware] ++ TimingMiddleware Fixture.bare :: []
  /\ Forall no_protocol_abort [LoggingMiddleware (W := nat)]
  /\ (forall current s1,
        before_hooks [LoggingMiddleware] 0 request Sample.start = (Ok (current, None), s1) ->
        RPCRequest_getattr (attached Fixture.bare (world s1) current) current "metadata"
        = None)
  /\ (forall r (w : nat),
        RPCRequest_getattr (attached Fixture.bare w r) r "metadata" = None ->
        before_call (TimingMiddleware Fixture.bare) r w = (Raise no_metadata, w))
  /\ (forall validator r (w : nat),
        RPCRequest_getattr (attached Fixture.bare w r) r "metadata" = None ->
        before_call (AuthMiddleware Fixture.bare validator) r w = (Raise no_metadata, w))
  /\ exists current msg k w',
       (k <= S (length [LoggingMiddleware (W := nat)]))%nat /\
       call self request Sample.start
       = (Ok (Some {| resp_result := PyNone;
                      resp_error := PyDict [("code", PyInt (-32603));
                                            ("message", PyStr msg)];
                      resp_id := req_id current;
                      resp_jsonrpc := PyStr "2.0" |}),
          {| world := w';
             journal := journal Sample.start ++ map BeforeCall (seq 0 k) |}).
Proof.
  intros self request.
  assert (Hpre : Forall no_protocol_abort [LoggingMiddleware (W := nat)]).
  { constructor; [intros r w; exact I | constructor]. }
  assert (Hbare : forall current s1,
             before_hooks [LoggingMiddleware] 0 request Sample.start
             = (Ok (current, None), s1) ->
             RPCRequest_getattr (attached Fixture.bare (world s1) current) current
               "metadata" = None).
  { intros current s1 _. reflexivity. }
  split; [reflexivity | split; [exact Hpre | split; [exact Hbare |]]].
  apply (timing_middleware_blocks_every_call Fixture.bare self [LoggingMiddleware] []
           request Sample.start); [reflexivity | exact Hpre | exact Hbare].
Defined.

(** The configuration of [example_usage], logging then timing: the call
    of [add] is answered with the internal error and [add] does not
    run. *)
Example example_usage_call :
  call (add_middleware (TimingMiddleware Fixture.bare)
          (add_middleware LoggingMiddleware Sample.server))
    (Sample.request "add" [PyInt 1; PyInt 2] (PyInt 1)) Sample.start
  = (Ok (Some {| resp_result := PyNone;
                 resp_error :=
                   PyDict [("code", PyInt (-32603));
                           ("message",
                            PyStr "'RPCRequest' object has no attribute 'metadata'")];
                 resp_id := PyInt 1;
                 resp_jsonrpc := PyStr "2.0" |}),
     {| world := 0%nat; journal := [BeforeCall 0; BeforeCall 1] |}).
Proof. vm_compute. reflexivity. Qed.

(** C10, against the claim as stated.  With a middleware that refuses
    the call registered ahead of [TimingMiddleware], the call returns
    that middleware's protocol error, code -32001, not -32603.  And with
    a middleware ahead of it that does [request.metadata = {}], the hooks
    of [TimingMiddleware] find the attribute: the handler runs, the call
    succeeds, and the start time is in the metadata. *)
Lemma timing_middleware_behind_protocol_error :
  let refusing := add_middleware (TimingMiddleware Fixture.bare)
                    (add_middleware Sample.Deny Sample.server) in
  let attaching := add_middleware (TimingMiddleware Annotated.store)
                     (add_middleware Annotated.Attach Annotated.server) in
  (In (TimingMiddleware Fixture.bare) (middleware refusing)
   /\ call refusing (Sample.request "add" [PyInt 1; PyInt 2] (PyInt 1)) Sample.start
      = (Ok (Some {| resp_result := PyNone;
                     resp_error := PyDict [("code", PyInt (-32001));
                                           ("message", PyStr "Authentication required")];
                     resp_id := PyInt 1;
                     resp_jsonrpc := PyStr "2.0" |}),
         {| world := 0%nat; journal := [BeforeCall 0] |}))
  /\ (In (TimingMiddleware Annotated.store) (middleware attaching)
      /\ call attaching (Sample.request "add" [PyInt 1; PyInt 2] (PyInt 1))
           Annotated.start
         = (Ok (Some {| resp_result := PyInt 3;
                        resp_error := PyNone;
                        resp_id := PyInt 1;
                        resp_jsonrpc := PyStr "2.0" |}),
            {| world := [("metadata",
                          PyDict [("start_time",
                                   PyObject "datetime" "2026-01-01 00:00:00")])];
               journal := [BeforeCall 0; BeforeCall 1; HandlerCall "add";
                           AfterCall 0; AfterCall 1] |})).
Proof.
  split; (split; [right; left; reflexivity | vm_compute; reflexivity]).
Qed.

(** C1, at inputs where the code fails it.  A notification of a method
    that is not registered is answered: [call] returns the
    method-not-found response, with a null id, and [handle_json] emits
    it.  So is a notification refused by a [before_call] hook.  (A
    notification whose method is found is not answered, even when the
    handler fails.) *)
Theorem notification_failures_are_answered :
  call Sample.server (Sample.request "sub" [] PyNone) Sample.start
  = (Ok (Some {| resp_result := PyNone;
                 resp_error := PyDict [("code", PyInt (-32601));
                                       ("message", PyStr "Method not found: sub")];
                 resp_id := PyNone;
                 resp_jsonrpc := PyStr "2.0" |}), Sample.start)
  /\ handle_json Sample.loads Sample.dumps Sample.server
       (Sample.dumps (Sample.notice "sub" [])) Sample.start
     = (Ok (Sample.dumps
              (PyDict [("jsonrpc", PyStr "2.0"); ("id", PyNone);
                       ("error", PyDict [("code", PyInt (-32601));
                                         ("message", PyStr "Method not found: sub")])])),
        Sample.start)
  /\ call (add_middleware Sample.Deny Sample.server)
       (Sample.request "add" [PyInt 1; PyInt 2] PyNone) Sample.start
     = (Ok (Some {| resp_result := PyNone;
                    resp_error := PyDict [("code", PyInt (-32001));
                                          ("message", PyStr "Authentication required")];
                    resp_id := PyNone;
                    resp_jsonrpc := PyStr "2.0" |}),
        {| world := 0%nat; journal := [BeforeCall 0] |})
  /\ call Sample.server (Sample.request "crash" [] PyNone) Sample.start
     = (Ok None, {| world := 1%nat; journal := [HandlerCall "crash"] |}).
Proof. repeat split; vm_compute; reflexivity. Qed.

(** C2, at an input where the code fails it.  With a middleware whose
    [after_call] marks the responses it sees, the response to a call of
    an unregistered method comes back unmarked, and the journal shows no
    [after_call]: the hook did not run.  The response to a call whose
    handler fails comes back marked. *)
Theorem after_hooks_skipped_on_unknown_method :
  call (add_middleware Sample.Mark Sample.server)
    (Sample.request "sub" [PyInt 5; PyInt 3] (PyInt 5)) Sample.start
  = (Ok (Some {| resp_result := PyNone;
                 resp_error := PyDict [("code", PyInt (-32601));
                                       ("message", PyStr "Method not found: sub")];
                 resp_id := PyInt 5;
                 resp_jsonrpc := PyStr "2.0" |}),
     {| world := 0%nat; journal := [BeforeCall 0] |})
  /\ call (add_middleware Sample.Mark Sample.server)
       (Sample.request "crash" [] (PyInt 6)) Sample.start
     = (Ok (Some {| resp_result := PyNone;
                    resp_error := PyDict [("code", PyInt (-32603));
                                          ("message", PyStr "boom")];
                    resp_id := PyInt 6;
                    resp_jsonrpc := PyStr "seen" |}),
        {| world := 1%nat;
           journal := [BeforeCall 0; HandlerCall "crash"; OnError 0; AfterCall 0] |}).
Proof. split; vm_compute; reflexivity. Qed.


(** The scenario of the batch of ids 1, 2, 3 whose second method is
    unknown: success, method-not-found, success, in that order. *)
Example batch_order_scenario :
  handle_json Sample.loads Sample.dumps Sample.server
    (Sample.dumps Sample.batch123) Sample.start
  = (Ok (Sample.dumps
           (PyList
              [PyDict [("jsonrpc", PyStr "2.0"); ("id", PyInt 1); ("result", PyInt 3)];
               PyDict [("jsonrpc", PyStr "2.0"); ("id", PyInt 2);
                       ("error", PyDict [("code", PyInt (-32601));
                                         ("message", PyStr "Method not found: sub")])];
               PyDict [("jsonrpc", PyStr "2.0"); ("id", PyInt 3); ("result", PyInt 7)]])),
     {| world := 2%nat; journal := [HandlerCall "add"; HandlerCall "add"] |}).
Proof. vm_compute. reflexivity. Qed.

(** A batch one of whose handlers returns an object that [json.dumps]
    cannot encode: both handlers run, then [json.dumps] raises
    [TypeError] out of [handle_json] and no response is output, that of
    the first call included.  The same happens to a single call. *)
Example batch_lost_on_unencodable_result :
  handle_json Fixture.loads_clock Sample.dumps Fixture.clock_server
    (Sample.dumps Fixture.batch_with_now) Sample.start
  = (Raise (TypeError "Object of type datetime is not JSON serializable"),
     {| world := 2%nat; journal := [HandlerCall "add"; HandlerCall "now"] |})
  /\ handle_json Fixture.loads_clock Sample.dumps Fixture.clock_server
       (Sample.dumps (Sample.envelope "now" [] (PyInt 1))) Sample.start
     = (Raise (TypeError "Object of type datetime is not JSON serializable"),
        {| world := 1%nat; journal := [HandlerCall "now"] |}).
Proof. split; vm_compute; reflexivity. Qed.


Lemma undecodable_text_yields_parse_error_witness :
  let msg := "Expecting value: line 1 column 1 (char 0)" in
  Sample.loads "x" = inl msg
  /\ handle_json Sample.loads Sample.dumps Sample.server "x" Sample.start
     = (Ok (Sample.dumps
              (PyDict [("jsonrpc", PyStr "2.0"); ("id", PyNone);
                       ("error", PyDict [("code", PyInt (-32700));
                                         ("message", PyStr msg)])])), Sample.start).
Proof.
  intros msg. split; [vm_compute; reflexivity |].
  apply (undecodable_text_yields_parse_error Sample.loads Sample.dumps Sample.server
           "x" msg Sample.start).
  vm_compute; reflexivity.
Defined.

(** C4, against the claim as stated: the text [5] decodes to a number,
    neither a list nor an object, and [handle_json] raises
    [AttributeError] to its caller instead of returning a parse-error
    response. *)
Lemma scalar_text_raises_attribute_error :
  Sample.loads "5" = inr (PyInt 5)
  /\ handle_json Sample.loads Sample.dumps Sample.server "5" Sample.start
     = (Raise (OtherException "AttributeError" "'int' object has no attribute 'get'"),
        Sample.start).
Proof. split; vm_compute; reflexivity. Qed.

Lemma empty_batch_yields_invalid_request_witness :
  Sample.loads "[]" = inr (PyList [])
  /\ handle_json Sample.loads Sample.dumps Sample.server "[]" Sample.start
     = (Ok (Sample.dumps
              (PyDict [("jsonrpc", PyStr "2.0"); ("id", PyNone);
                       ("error", PyDict [("code", PyInt (-32600));
                                         ("message", PyStr "Empty batch")])])),
        Sample.start).
Proof.
  split; [vm_compute; reflexivity |].
  apply (empty_batch_yields_invalid_request Sample.loads Sample.dumps Sample.server
           "[]" Sample.start).
  vm_compute; reflexivity.
Defined.

(** * Further properties of the code *)

(** ** Message model and registry *)

(** X1.  What the client rebuilds from the encoding of a response made
    by the engine is what the engine put in: the result of a success, and
    the code, message and data of a failure (a missing data read back as
    [None]). *)
Theorem client_reads_back_engine_responses
    (result id : pyvalue) (e : RPCError) :
  read_response (PyDict (RPCResponse_to_dict (RPCResponse_success result id)))
  = Returned result
  /\ read_response (PyDict (RPCResponse_to_dict (RPCResponse_failure e id)))
     = RaisedRPCError (PyInt (code e)) (PyStr (message e)) (data e).
Proof.
  split; [reflexivity |].
  destruct e as [c m d]. unfold RPCResponse_failure, RPCResponse_to_dict; cbn.
  destruct d; reflexivity.
Qed.

(** X2.  On the wire a notification is a request without [id]: the
    encoding of a request has the key [id] exactly when the request is
    not a notification; and an object decodes to a notification exactly
    when it has no [id] or a null [id]. *)
Theorem notification_is_absent_or_null_id
    (r : RPCRequest) (d : list (string * pyvalue)) :
  (dict_lookup (RPCRequest_to_dict r) "id" = None <-> is_notification r = true)
  /\ (is_notification (RPCRequest_from_dict d) = true
      <-> dict_lookup d "id" = None \/ dict_lookup d "id" = Some PyNone).
Proof.
  split.
  - destruct r as [m p i j]. unfold RPCRequest_to_dict, is_notification; cbn.
    destruct i; cbn; split; congruence.
  - unfold is_notification, RPCRequest_from_dict, dict_get; cbn.
    destruct (dict_lookup d "id") as [[] |]; cbn; split; intros H;
      try discriminate; try (destruct H; discriminate); auto.
Qed.

Section RegistryAlgebra.

Context {W : Type}.
Implicit Types (self : RPCServer W) (name : string).

Lemma server_eta self :
  {| methods := methods self; middleware := middleware self |} = self.
Proof. now destruct self. Qed.

(** X3.  Registering is an overwrite: of two registrations of one name
    the second alone counts; and registering a free name then
    unregistering it gives back the server as it was, with the flag
    [True]. *)
Theorem register_overwrites_and_unregister_undoes
    self name h1 d1 h2 d2 :
  lookup_method name self = None ->
  register name h2 d2 (register name h1 d1 self) = register name h2 d2 self
  /\ unregister name (register name h1 d1 self) = (true, self).
Proof.
  intros Hfree. split.
  - unfold register; cbn. now rewrite insert_insert_eq.
  - unfold lookup_method in Hfree. unfold unregister, register; cbn.
    rewrite lookup_insert_eq, delete_insert_eq, delete_id by exact Hfree.
    now rewrite server_eta.
Qed.

(** X4.  [register] and [unregister] touch the entry they name only:
    every other name looks up as before, and the middleware chain is
    left as it is. *)
Theorem registry_operations_are_local self name other h description :
  name <> other ->
  lookup_method other (register name h description self) = lookup_method other self
  /\ lookup_method other (snd (unregister name self)) = lookup_method other self
  /\ middleware (register name h description self) = middleware self
  /\ middleware (snd (unregister name self)) = middleware self.
Proof.
  intros Hne. repeat split.
  - now apply lookup_register_other.
  - unfold lookup_method, unregister.
    destruct (methods self !! name); cbn; [now apply lookup_delete_ne | reflexivity].
  - unfold unregister. now destruct (methods self !! name).
Qed.

Lemma registry_keyed_init : registry_keyed (W := W) RPCServer_init.
Proof. intros key m H. cbn in H. now rewrite lookup_empty in H. Qed.

Lemma registry_keyed_register self name h description :
  registry_keyed self -> registry_keyed (register name h description self).
Proof.
  intros Hk key m. unfold register; cbn.
  intros [[<- <-] | [_ H]]%lookup_insert_Some; [reflexivity | now apply Hk].
Qed.

Lemma registry_keyed_unregister self name :
  registry_keyed self -> registry_keyed (snd (unregister name self)).
Proof.
  intros Hk key m. unfold unregister.
  destruct (methods self !! name); cbn; [| now apply Hk].
  intros [_ H]%lookup_delete_Some. now apply Hk.
Qed.

Lemma registry_keyed_add_middleware self mw :
  registry_keyed self -> registry_keyed (add_middleware mw self).
Proof. intros Hk key m H. now apply Hk. Qed.

(** X5.  The operations of the server keep every method filed under its
    own name: this holds of a new server, and [register], [unregister]
    and [add_middleware] preserve it.  So the method that a call finds
    under a name is the method of that name. *)
Theorem registry_stays_keyed self name h description mw :
  registry_keyed self ->
  registry_keyed (W := W) RPCServer_init
  /\ registry_keyed (register name h description self)
  /\ registry_keyed (snd (unregister name self))
  /\ registry_keyed (add_middleware mw self)
  /\ forall found, methods_get self (PyStr name) = Ok (Some found) ->
                   method_name found = name.
Proof.
  intros Hk. repeat split.
  - apply registry_keyed_init.
  - now apply registry_keyed_register.
  - now apply registry_keyed_unregister.
  - now apply registry_keyed_add_middleware.
  - cbn. unfold lookup_method. intros found [= H]. now apply Hk.
Qed.

End RegistryAlgebra.

Lemma sample_server_keyed : registry_keyed Sample.server.
Proof.
  unfold Sample.server.
  repeat apply registry_keyed_register. apply registry_keyed_init.
Qed.

Lemma register_overwrites_and_unregister_undoes_witness :
  lookup_method "sub" Sample.server = None
  /\ register "sub" Sample.add "second" (register "sub" Sample.divide "first" Sample.server)
     = register "sub" Sample.add "second" Sample.server
  /\ unregister "sub" (register "sub" Sample.divide "first" Sample.server)
     = (true, Sample.server).
Proof.
  split; [reflexivity |].
  apply (register_overwrites_and_unregister_undoes
           Sample.server "sub" Sample.divide "first" Sample.add "second").
  reflexivity.
Defined.

Lemma registry_operations_are_local_witness :
  "sub" <> "add"
  /\ lookup_method "add" (register "sub" Sample.crash "" Sample.server)
     = lookup_method "add" Sample.server
  /\ lookup_method "add" (snd (unregister "sub" Sample.server))
     = lookup_method "add" Sample.server
  /\ middleware (register "sub" Sample.crash "" Sample.server)
     = middleware Sample.server
  /\ middleware (snd (unregister "sub" Sample.server)) = middleware Sample.server.
Proof.
  split; [discriminate |].
  apply (registry_operations_are_local Sample.server "sub" "add" Sample.crash "").
  discriminate.
Defined.

Lemma registry_stays_keyed_witness :
  registry_keyed Sample.server
  /\ registry_keyed (W := nat) RPCServer_init
  /\ registry_keyed (register "add" Sample.crash "" Sample.server)
  /\ registry_keyed (snd (unregister "add" Sample.server))
  /\ registry_keyed (add_middleware Sample.Mark Sample.server)
  /\ forall found, methods_get Sample.server (PyStr "add") = Ok (Some found) ->
                   method_name found = "add".
Proof.
  split; [exact sample_server_keyed |].
  apply (registry_stays_keyed Sample.server "add" Sample.crash "" Sample.Mark).
  exact sample_server_keyed.
Defined.

(** ** Listing, services and the manager *)

Section Listing.

Context {W : Type}.
Implicit Types (self : RPCServer W) (name : string).

Lemma list_methods_fmap self :
  list_methods self = listing_of <$> (map_to_list (methods self)).*2.
Proof.
  unfold list_methods.
  generalize (map_to_list (methods self)) as l.
  induction l as [| x l IH]; cbn; [reflexivity | now rewrite IH].
Qed.

(** X6.  On a server whose methods are filed under their names,
    [list_methods] has one entry for each registered method and no
    other: as many entries as the registry has, no entry twice, and the
    pair of a name and a description is listed exactly when the name is
    registered with that description. *)
Theorem list_methods_lists_the_registry self name description :
  registry_keyed self ->
  length (list_methods self) = size (methods self)
  /\ NoDup (list_methods self)
  /\ (In (PyDict [("name", PyStr name); ("description", PyStr description)])
         (list_methods self)
      <-> exists m, lookup_method name self = Some m
                    /\ method_description m = description).
Proof.
  intros Hk. rewrite list_methods_fmap. repeat split.
  - now rewrite !length_fmap, length_map_to_list.
  - rewrite <- list_fmap_compose.
    apply NoDup_fmap_2_strong; [| apply NoDup_map_to_list].
    intros [k1 m1] [k2 m2] H1%elem_of_map_to_list H2%elem_of_map_to_list Heq.
    cbn in Heq. unfold listing_of in Heq. injection Heq as Hn _.
    rewrite (Hk _ _ H1), (Hk _ _ H2) in Hn. subst k2.
    rewrite H1 in H2. now injection H2 as ->.
  - intros Hin. apply list_elem_of_In in Hin.
    apply list_elem_of_fmap in Hin as (m & Heq & Hm).
    apply list_elem_of_fmap in Hm as ([k m'] & -> & Hkm).
    apply elem_of_map_to_list in Hkm. cbn in Heq.
    injection Heq as Hn Hd. exists m'.
    rewrite <- (Hk _ _ Hkm) in Hkm. rewrite <- Hn in Hkm. split; [exact Hkm | now symmetry].
  - intros (m & Hm & Hd). apply list_elem_of_In.
    apply list_elem_of_fmap. exists m. split.
    + unfold listing_of. now rewrite (Hk _ _ Hm), Hd.
    + apply list_elem_of_fmap. exists (name, m). split; [reflexivity |].
      now apply elem_of_map_to_list.
Qed.

End Listing.

Lemma list_methods_lists_the_registry_witness :
  registry_keyed Sample.server
  /\ length (list_methods Sample.server) = size (methods Sample.server)
  /\ NoDup (list_methods Sample.server)
  /\ (In (PyDict [("name", PyStr "add"); ("description", PyStr "Add two numbers")])
         (list_methods Sample.server)
      <-> exists m, lookup_method "add" Sample.server = Some m
                    /\ method_description m = "Add two numbers").
Proof.
  split; [exact sample_server_keyed |].
  apply (list_methods_lists_the_registry Sample.server "add" "Add two numbers").
  exact sample_server_keyed.
Defined.

Section ServiceProps.

Context {W : Type}.
Implicit Types (service : RPCService W) (self : RPCManager W) (server : RPCServer W)
  (prefix name key : string)
  (l : list (string * (list pyvalue -> list (string * pyvalue) -> Eff W pyvalue))).

Lemma methods_set_name_in l k f name :
  name ∈ (methods_set l k f).*1 <-> name ∈ l.*1 \/ name = k.
Proof.
  induction l as [| [k' v] l IH]; cbn.
  - rewrite list_elem_of_singleton.
    split; [now right | intros [H | H]; [now apply elem_of_nil in H | exact H]].
  - destruct (String.eqb_spec k' k) as [-> | Hne]; cbn.
    + rewrite elem_of_cons. tauto.
    + rewrite !elem_of_cons, IH. tauto.
Qed.

Lemma methods_set_fresh l k f :
  k ∉ l.*1 -> methods_set l k f = l ++ [(k, f)].
Proof.
  induction l as [| [k' v] l IH]; cbn; intros Hk; [reflexivity |].
  destruct (String.eqb_spec k' k) as [-> | Hne].
  - destruct Hk. now left.
  - rewrite IH; [reflexivity |]. intros H. apply Hk. now right.
Qed.

Lemma methods_set_NoDup l k f :
  NoDup l.*1 -> NoDup (methods_set l k f).*1.
Proof.
  induction l as [| [k' v] l IH]; cbn; intros Hnd.
  - apply NoDup_singleton.
  - destruct (String.eqb_spec k' k) as [-> | Hne]; cbn; [exact Hnd |].
    apply NoDup_cons in Hnd as [Hk' Hnd]. apply NoDup_cons. split; [| now apply IH].
    rewrite methods_set_name_in. intros [H | H]; [contradiction | congruence].
Qed.

Lemma get_methods_step_name_in l k (a : attribute W) name :
  name ∈ (get_methods_step l (k, a)).*1
  <-> name ∈ l.*1 \/ (name = k /\ public k = true /\ exists f, a = Callable f).
Proof.
  unfold get_methods_step, public; cbn [fst snd].
  destruct (String.prefix "_" k); cbn [negb andb].
  - split; [now left | intros [H | (_ & [=] & _)]; exact H].
  - destruct a as [f | v].
    + destruct (String.prefix "get_" k); cbn [negb].
      * split; [now left | intros [H | (_ & [=] & _)]; exact H].
      * rewrite methods_set_name_in. split.
        -- intros [H | ->]; [now left | right; eauto].
        -- intros [H | (-> & _)]; [now left | now right].
    + split; [now left | intros [H | (_ & _ & f & [=])]; exact H].
Qed.

Lemma get_methods_step_NoDup l (entry : string * attribute W) :
  NoDup l.*1 -> NoDup (get_methods_step l entry).*1.
Proof.
  intros Hnd. unfold get_methods_step.
  destruct (negb _); [| exact Hnd].
  destruct (snd entry); [| exact Hnd].
  destruct (negb _); [| exact Hnd].
  now apply methods_set_NoDup.
Qed.

Lemma fold_get_methods_name_in service l name :
  name ∈ (fold_left get_methods_step service l).*1
  <-> name ∈ l.*1 \/ (public name = true /\ exists f, (name, Callable f) ∈ service).
Proof.
  revert l. induction service as [| [k a] service IH]; intros l; cbn [fold_left].
  - split; [now left | intros [H | (_ & f & H)]; [exact H | now apply elem_of_nil in H]].
  - rewrite IH, get_methods_step_name_in. split.
    + intros [[H | (-> & Hp & f & ->)] | (Hp & f & H)].
      * now left.
      * right. split; [exact Hp |]. exists f. now left.
      * right. split; [exact Hp |]. exists f. now right.
    + intros [H | (Hp & f & [H | H]%elem_of_cons)].
      * left. now left.
      * injection H as -> <-. left. right. eauto.
      * right. eauto.
Qed.

Lemma fold_get_methods_NoDup service l :
  NoDup l.*1 -> NoDup (fold_left get_methods_step service l).*1.
Proof.
  revert l. induction service as [| entry service IH]; intros l Hnd; cbn [fold_left].
  - exact Hnd.
  - now apply IH, get_methods_step_NoDup.
Qed.

(** With each name once in [dir], the handler kept for a name is the
    attribute of that name. *)
Lemma fold_get_methods_pair_in service l name f :
  NoDup service.*1 ->
  (forall k, k ∈ l.*1 -> k ∉ service.*1) ->
  (name, f) ∈ fold_left get_methods_step service l
  <-> (name, f) ∈ l \/ (public name = true /\ (name, Callable f) ∈ service).
Proof.
  revert l. induction service as [| [k a] service IH]; intros l Hnd Hl; cbn [fold_left].
  - split; [now left | intros [H | (_ & H)]; [exact H | now apply elem_of_nil in H]].
  - cbn in Hnd. apply NoDup_cons in Hnd as [Hk Hnd].
    assert (Hkl : k ∉ l.*1).
    { intros Hin. apply (Hl _ Hin). cbn. now left. }
    rewrite IH; [| exact Hnd |].
    + unfold get_methods_step, public; cbn [fst snd].
      destruct (String.prefix "_" k) eqn:Hp; cbn [negb andb].
      * split; intros [H | (Hpub & H)]; try (now left).
        -- right. split; [exact Hpub | now right].
        -- apply elem_of_cons in H as [[= -> _] | H];
             [rewrite Hp in Hpub; discriminate | right; now split].
      * destruct a as [g | v].
        -- destruct (String.prefix "get_" k) eqn:Hg; cbn [negb].
           ++ split; intros [H | (Hpub & H)]; try (now left).
              ** right. split; [exact Hpub | now right].
              ** apply elem_of_cons in H as [[= -> _] | H];
                   [rewrite Hp, Hg in Hpub; discriminate | right; now split].
           ++ rewrite (methods_set_fresh _ _ _ Hkl), elem_of_app, list_elem_of_singleton.
              split.
              ** intros [[H | [= -> ->]] | (Hpub & H)].
                 --- now left.
                 --- right. rewrite Hp, Hg. split; [reflexivity | now left].
                 --- right. split; [exact Hpub | now right].
              ** intros [H | (Hpub & [[= -> ->] | H]%elem_of_cons)].
                 --- left. now left.
                 --- left. now right.
                 --- right. now split.
        -- split; intros [H | (Hpub & H)]; try (now left).
           ++ right. split; [exact Hpub | now right].
           ++ apply elem_of_cons in H as [[=] | H]. right. now split.
    + intros k' Hk'. apply get_methods_step_name_in in Hk' as [Hk' | (-> & _)].
      * intros Hin. apply (Hl _ Hk'). cbn. now right.
      * exact Hk.
Qed.

(** X7.  [get_methods] exposes the callable attributes whose name
    starts neither with an underscore nor with [get_], and nothing else;
    it lists no name twice. *)
Theorem get_methods_exposes_public_callables service name :
  NoDup (map fst (get_methods service))
  /\ (In name (map fst (get_methods service))
      <-> public name = true /\ exists f, In (name, Callable f) service).
Proof.
  split.
  - apply (fold_get_methods_NoDup service []). constructor.
  - rewrite <- list_elem_of_In. unfold get_methods.
    rewrite fold_get_methods_name_in. split.
    + intros [H | (Hp & f & H)]; [now apply elem_of_nil in H |].
      split; [exact Hp |]. exists f. now apply list_elem_of_In.
    + intros (Hp & f & H). right. split; [exact Hp |]. exists f.
      now apply list_elem_of_In.
Qed.

Lemma get_methods_pair_in service name f :
  NoDup service.*1 ->
  (name, f) ∈ get_methods service
  <-> public name = true /\ (name, Callable f) ∈ service.
Proof.
  intros Hnd. unfold get_methods.
  rewrite fold_get_methods_pair_in; [| exact Hnd | intros k H; now apply elem_of_nil in H].
  split; [intros [H | H]; [now apply elem_of_nil in H | exact H] | now right].
Qed.

(** *** Registering and unregistering the methods of a service *)

Lemma full_name_injective prefix name name' :
  full_name prefix name = full_name prefix name' -> name = name'.
Proof.
  unfold full_name. induction prefix as [| c prefix IH]; cbn.
  - now intros [= H].
  - intros [= H]. now apply IH.
Qed.

Lemma fold_register_middleware prefix l server :
  middleware (fold_left (fun server entry =>
                register (full_name prefix (fst entry)) (snd entry) "" server) l server)
  = middleware server.
Proof.
  revert server. induction l as [| e l IH]; intros server; cbn; [reflexivity |].
  now rewrite IH.
Qed.

Lemma fold_register_lookup_other prefix l server key :
  (forall name, name ∈ l.*1 -> key <> full_name prefix name) ->
  lookup_method key (fold_left (fun server entry =>
                       register (full_name prefix (fst entry)) (snd entry) "" server)
                       l server)
  = lookup_method key server.
Proof.
  revert server. induction l as [| [k f] l IH]; intros server Hkey; cbn; [reflexivity |].
  rewrite IH.
  - apply lookup_register_other. intros Heq. apply (Hkey k); [now left | now symmetry].
  - intros name Hin. apply Hkey. now right.
Qed.

Lemma fold_register_lookup_in prefix l server name f :
  NoDup l.*1 ->
  (name, f) ∈ l ->
  lookup_method (full_name prefix name)
    (fold_left (fun server entry =>
                  register (full_name prefix (fst entry)) (snd entry) "" server) l server)
  = Some {| method_name := full_name prefix name; method_handler := f;
            method_description := ""; method_params_schema := [];
            method_metadata := [] |}.
Proof.
  revert server. induction l as [| [k g] l IH]; intros server Hnd Hin; cbn.
  - now apply elem_of_nil in Hin.
  - cbn in Hnd. apply NoDup_cons in Hnd as [Hk Hnd].
    apply elem_of_cons in Hin as [[= -> ->] | Hin].
    + rewrite fold_register_lookup_other; [apply lookup_register |].
      intros name' Hin' Heq. apply full_name_injective in Heq. now subst.
    + now apply IH.
Qed.

Lemma fold_unregister_middleware prefix l server :
  middleware (fold_left (fun server entry =>
                snd (unregister (full_name prefix (fst entry)) server)) l server)
  = middleware server.
Proof.
  revert server. induction l as [| e l IH]; intros server; cbn; [reflexivity |].
  rewrite IH. unfold unregister. now destruct (methods server !! _).
Qed.

Lemma lookup_unregister_other server name key :
  key <> name ->
  lookup_method key (snd (unregister name server)) = lookup_method key server.
Proof.
  intros Hne. unfold lookup_method, unregister.
  destruct (methods server !! name); cbn; [now apply lookup_delete_ne | reflexivity].
Qed.

Lemma fold_unregister_lookup_other prefix l server key :
  (forall name, name ∈ l.*1 -> key <> full_name prefix name) ->
  lookup_method key (fold_left (fun server entry =>
                       snd (unregister (full_name prefix (fst entry)) server)) l server)
  = lookup_method key server.
Proof.
  revert server. induction l as [| [k f] l IH]; intros server Hkey; cbn; [reflexivity |].
  rewrite IH.
  - apply lookup_unregister_other. apply Hkey. now left.
  - intros name Hin. apply Hkey. now right.
Qed.

Lemma fold_unregister_lookup_gone prefix l server key :
  lookup_method key server = None ->
  lookup_method key (fold_left (fun server entry =>
                       snd (unregister (full_name prefix (fst entry)) server)) l server)
  = None.
Proof.
  revert server. induction l as [| [k f] l IH]; intros server Hgone; cbn; [exact Hgone |].
  apply IH. cbn.
  destruct (decide (key = full_name prefix k)) as [-> | Hne].
  - apply lookup_unregister.
  - now rewrite lookup_unregister_other.
Qed.

Lemma fold_unregister_lookup_in prefix l server name :
  name ∈ l.*1 ->
  lookup_method (full_name prefix name)
    (fold_left (fun server entry =>
                  snd (unregister (full_name prefix (fst entry)) server)) l server)
  = None.
Proof.
  revert server. induction l as [| [k f] l IH]; intros server Hin; cbn.
  - now apply elem_of_nil in Hin.
  - cbn in Hin. apply elem_of_cons in Hin as [-> | Hin].
    + apply fold_unregister_lookup_gone, lookup_unregister.
    + now apply IH.
Qed.

Lemma server_ext (s1 s2 : RPCServer W) :
  (forall key, lookup_method key s1 = lookup_method key s2) ->
  middleware s1 = middleware s2 ->
  s1 = s2.
Proof.
  destruct s1 as [m1 c1], s2 as [m2 c2]. unfold lookup_method; cbn.
  intros Hm ->. f_equal. now apply map_eq.
Qed.

(** X8.  [register_service] files every public callable attribute of
    the service under [prefix.name], with the attribute as handler and an
    empty description, records the service under the prefix, and leaves
    the middleware chain alone. *)
Theorem register_service_registers_public_methods self prefix service name f :
  NoDup (map fst service) ->
  In (name, Callable f) service ->
  public name = true ->
  lookup_method (full_name prefix name)
    (manager_server (register_service prefix service self))
  = Some {| method_name := full_name prefix name; method_handler := f;
            method_description := ""; method_params_schema := [];
            method_metadata := [] |}
  /\ manager_services (register_service prefix service self) !! prefix = Some service
  /\ middleware (manager_server (register_service prefix service self))
     = middleware (manager_server self).
Proof.
  intros Hnd Hin Hpub. unfold register_service; cbn. repeat split.
  - apply fold_register_lookup_in.
    + apply (fold_get_methods_NoDup service []). constructor.
    + apply get_methods_pair_in; [exact Hnd |]. split; [exact Hpub |].
      now apply list_elem_of_In.
  - apply lookup_insert_eq.
  - apply fold_register_middleware.
Qed.

(** X9.  [register_service] exposes nothing else of the service: under
    the prefix, a name that starts with an underscore or with [get_], or
    that is not a callable attribute, looks up as before. *)
Theorem register_service_hides_private_names self prefix service name :
  public name = false \/ (forall f, ~ In (name, Callable f) service) ->
  lookup_method (full_name prefix name)
    (manager_server (register_service prefix service self))
  = lookup_method (full_name prefix name) (manager_server self).
Proof.
  intros Hhidden. unfold register_service; cbn.
  apply fold_register_lookup_other.
  intros name' Hin Heq. apply full_name_injective in Heq. subst name'.
  apply fold_get_methods_name_in in Hin as [Hin | (Hpub & f & Hf)].
  - now apply elem_of_nil in Hin.
  - destruct Hhidden as [Hp | Hnone]; [congruence |].
    apply (Hnone f). now apply list_elem_of_In.
Qed.

(** X10.  [unregister_service] of a prefix that names no service
    returns [False] and changes nothing; after [register_service] on
    free names it returns [True] and gives back the manager as it was. *)
Theorem unregister_service_undoes_register_service self prefix service :
  manager_services self !! prefix = None ->
  (forall name, In name (map fst (get_methods service)) ->
                lookup_method (full_name prefix name) (manager_server self) = None) ->
  unregister_service prefix self = (false, self)
  /\ unregister_service prefix (register_service prefix service self) = (true, self).
Proof.
  intros Hfree Hnames. split.
  - unfold unregister_service. now rewrite Hfree.
  - unfold unregister_service, register_service; cbn.
    rewrite lookup_insert_eq, delete_insert_eq, delete_id by exact Hfree.
    destruct self as [server services]; cbn in *. do 2 f_equal.
    apply server_ext.
    + intros key.
      destruct (decide (key ∈ (full_name prefix <$> (get_methods service).*1)))
        as [Hin | Hout].
      * apply list_elem_of_fmap in Hin as (name & -> & Hin).
        rewrite fold_unregister_lookup_in by exact Hin.
        symmetry. apply Hnames. now apply list_elem_of_In.
      * assert (Hother : forall name, name ∈ (get_methods service).*1 ->
                                      key <> full_name prefix name).
        { intros name Hin ->. apply Hout. apply list_elem_of_fmap. now exists name. }
        rewrite fold_unregister_lookup_other, fold_register_lookup_other
          by exact Hother.
        reflexivity.
    + now rewrite fold_unregister_middleware, fold_register_middleware.
Qed.

(** X11.  [unregister_service] removes the methods of the service last
    registered under the prefix, not those of an earlier one: a method
    that only the first of two services registered under one prefix had
    is still registered, with its handler, after [unregister_service],
    when no service is recorded under the prefix any more. *)
Theorem reregistered_service_leaves_stale_methods
    self prefix service1 service2 name f :
  NoDup (map fst service1) ->
  In (name, Callable f) service1 ->
  public name = true ->
  ~ In name (map fst (get_methods service2)) ->
  let left_over :=
    snd (unregister_service prefix
           (register_service prefix service2
              (register_service prefix service1 self))) in
  manager_services left_over !! prefix = None
  /\ lookup_method (full_name prefix name) (manager_server left_over)
     = Some {| method_name := full_name prefix name; method_handler := f;
               method_description := ""; method_params_schema := [];
               method_metadata := [] |}.
Proof.
  intros Hnd Hin Hpub Hnot left_over. subst left_over.
  assert (Hother : forall name', name' ∈ (get_methods service2).*1 ->
                                 full_name prefix name <> full_name prefix name').
  { intros name' Hin' Heq. apply full_name_injective in Heq. subst name'.
    apply Hnot. now apply list_elem_of_In. }
  unfold unregister_service. cbn [register_service manager_services].
  rewrite lookup_insert_eq. cbn. split.
  - apply lookup_delete_eq.
  - rewrite fold_unregister_lookup_other, fold_register_lookup_other by exact Hother.
    apply fold_register_lookup_in.
    + apply (fold_get_methods_NoDup service1 []). constructor.
    + apply get_methods_pair_in; [exact Hnd |]. split; [exact Hpub |].
      now apply list_elem_of_In.
Qed.

End ServiceProps.

Lemma MathService_names : NoDup (map fst Fixture.MathService).
Proof.
  apply (bool_decide_unpack (NoDup (map fst Fixture.MathService))).
  vm_compute. reflexivity.
Qed.

Lemma register_service_registers_public_methods_witness :
  NoDup (map fst Fixture.MathService)
  /\ In ("divide", Callable Sample.divide) Fixture.MathService
  /\ public "divide" = true
  /\ lookup_method (full_name "math" "divide")
       (manager_server (register_service "math" Fixture.MathService RPCManager_init))
     = Some {| method_name := full_name "math" "divide";
               method_handler := Sample.divide;
               method_description := ""; method_params_schema := [];
               method_metadata := [] |}
  /\ manager_services (register_service "math" Fixture.MathService RPCManager_init)
       !! "math" = Some Fixture.MathService
  /\ middleware (manager_server
                   (register_service "math" Fixture.MathService RPCManager_init))
     = middleware (manager_server (W := nat) RPCManager_init).
Proof.
  assert (Hin : In ("divide", Callable Sample.divide) Fixture.MathService).
  { cbn. tauto. }
  split; [exact MathService_names | split; [exact Hin | split; [reflexivity |]]].
  apply (register_service_registers_public_methods RPCManager_init "math"
           Fixture.MathService "divide" Sample.divide);
    [exact MathService_names | exact Hin | reflexivity].
Defined.

Lemma register_service_hides_private_names_witness :
  (public "_secret" = false
   \/ (forall f, ~ In ("_secret", Callable f) Fixture.MathService))
  /\ lookup_method (full_name "math" "_secret")
       (manager_server (register_service "math" Fixture.MathService RPCManager_init))
     = lookup_method (full_name "math" "_secret")
         (manager_server (W := nat) RPCManager_init).
Proof.
  split; [left; reflexivity |].
  apply (register_service_hides_private_names RPCManager_init "math"
           Fixture.MathService "_secret").
  left; reflexivity.
Defined.

Lemma unregister_service_undoes_register_service_witness :
  manager_services (W := nat) RPCManager_init !! "math" = None
  /\ (forall name, In name (map fst (get_methods Fixture.MathService)) ->
                   lookup_method (full_name "math" name)
                     (manager_server (W := nat) RPCManager_init) = None)
  /\ unregister_service "math" (RPCManager_init (W := nat)) = (false, RPCManager_init)
  /\ unregister_service "math"
       (register_service "math" Fixture.MathService RPCManager_init)
     = (true, RPCManager_init).
Proof.
  assert (Hfree : forall name, In name (map fst (get_methods Fixture.MathService)) ->
                    lookup_method (full_name "math" name)
                      (manager_server (W := nat) RPCManager_init) = None).
  { intros name _. reflexivity. }
  split; [reflexivity | split; [exact Hfree |]].
  apply (unregister_service_undoes_register_service RPCManager_init "math"
           Fixture.MathService); [reflexivity | exact Hfree].
Defined.

Lemma reregistered_service_leaves_stale_methods_witness :
  NoDup (map fst Fixture.MathService)
  /\ In ("add", Callable Sample.add) Fixture.MathService
  /\ public "add" = true
  /\ ~ In "add" (map fst (get_methods Fixture.MathService2))
  /\ let left_over :=
       snd (unregister_service "math"
              (register_service "math" Fixture.MathService2
                 (register_service "math" Fixture.MathService RPCManager_init))) in
     manager_services left_over !! "math" = None
     /\ lookup_method (full_name "math" "add") (manager_server left_over)
        = Some {| method_name := full_name "math" "add"; method_handler := Sample.add;
                  method_description := ""; method_params_schema := [];
                  method_metadata := [] |}.
Proof.
  assert (Hin : In ("add", Callable Sample.add) Fixture.MathService).
  { cbn. tauto. }
  assert (Hnot : ~ In "add" (map fst (get_methods Fixture.MathService2))).
  { cbn. intros [H | []]. discriminate H. }
  split; [exact MathService_names | split; [exact Hin | split; [reflexivity |]]].
  split; [exact Hnot |].
  apply (reregistered_service_leaves_stale_methods RPCManager_init "math"
           Fixture.MathService Fixture.MathService2 "add" Sample.add);
    [exact MathService_names | exact Hin | reflexivity | exact Hnot].
Defined.

(** ** More on the single call *)

Section CallProps.

Context {W : Type}.
Implicit Types (self : RPCServer W) (chain pre post : list (RPCMiddleware W))
  (mw : RPCMiddleware W) (s : machine W) (request current : RPCRequest)
  (response : RPCResponse) (method : RPCMethod W).

Lemma error_hooks_cons mw chain i request e s :
  error_hooks (mw :: chain) i request e s
  = match on_error mw request e (world s) with
    | (Ok (Some response), w) =>
        (Ok (Some response), {| world := w; journal := journal s ++ [OnError i] |})
    | (Ok None, w) =>
        error_hooks chain (S i) request e
          {| world := w; journal := journal s ++ [OnError i] |}
    | (Raise e', w) => (Raise e', {| world := w; journal := journal s ++ [OnError i] |})
    end.
Proof.
  cbn. unfold bind, invoke.
  destruct (on_error mw request e (world s)) as [[[response |] | e'] w]; reflexivity.
Qed.

Lemma error_hooks_app pre post i request e s :
  error_hooks (pre ++ post) i request e s
  = match error_hooks pre i request e s with
    | (Ok None, s1) => error_hooks post (i + length pre) request e s1
    | stopped => stopped
    end.
Proof.
  revert i s. induction pre as [| mw pre IH]; intros i s.
  - cbn. unfold ret. now rewrite Nat.add_0_r.
  - rewrite <- app_comm_cons, !error_hooks_cons.
    destruct (on_error mw request e (world s)) as [[[response |] | e'] w];
      try reflexivity.
    rewrite IH. cbn [length]. now rewrite Nat.add_succ_r.
Qed.

(** Hooks that all decline are all consulted, in registration order. *)
Lemma error_hooks_declined_journal chain i request e s s' :
  error_hooks chain i request e s = (Ok None, s') ->
  journal s' = journal s ++ map OnError (seq i (length chain)).
Proof.
  revert i s. induction chain as [| mw chain IH]; intros i s H.
  - cbn in H. injection H as <-. cbn. now rewrite app_nil_r.
  - rewrite error_hooks_cons in H.
    destruct (on_error mw request e (world s)) as [[[response |] | e'] w];
      try discriminate.
    apply IH in H. cbn [journal] in H. cbn [length seq map].
    now rewrite H, <- app_assoc.
Qed.

Lemma error_hooks_all_decline chain i request e s :
  Forall on_error_declines chain ->
  error_hooks chain i request e s
  = (Ok None, {| world := world s;
                 journal := journal s ++ map OnError (seq i (length chain)) |}).
Proof.
  intros Hall. revert i s.
  induction Hall as [| mw chain Hmw _ IH]; intros i s.
  - cbn. unfold ret. rewrite app_nil_r. now destruct s.
  - rewrite error_hooks_cons, (Hmw request e (world s)), IH. cbn.
    now rewrite <- app_assoc.
Qed.

Lemma execute_handler_exception self method request s cls msg s0 :
  invoke_handler method (req_params request) s = (Raise (OtherException cls msg), s0) ->
  execute self method request s
  = match error_hooks (middleware self) 0 request (OtherException cls msg) s0 with
    | (Ok (Some response), s1) => (Ok response, s1)
    | (Ok None, s1) =>
        (Ok (RPCResponse_failure
               {| code := INTERNAL_ERROR; message := msg; data := PyNone |}
               (req_id request)), s1)
    | (Raise e, s1) => (Raise e, s1)
    end.
Proof.
  intros H. unfold execute, try_except, bind. rewrite H.
  destruct (error_hooks _ _ _ _ _) as [[[response |] | e] s1]; reflexivity.
Qed.

(** X12.  When a handler fails with an exception that is neither a
    protocol error nor a [TypeError], the [on_error] hooks are consulted
    in registration order and the first response supplied is the
    response of the dispatch: the hooks registered after the one that
    answered are not consulted. *)
Theorem first_on_error_response_wins
    self pre mw post method request s cls msg s0 s1 response w2 :
  middleware self = pre ++ mw :: post ->
  invoke_handler method (req_params request) s = (Raise (OtherException cls msg), s0) ->
  error_hooks pre 0 request (OtherException cls msg) s0 = (Ok None, s1) ->
  on_error mw request (OtherException cls msg) (world s1) = (Ok (Some response), w2) ->
  execute self method request s
  = (Ok response,
     {| world := w2;
        journal := journal s0 ++ map OnError (seq 0 (S (length pre))) |}).
Proof.
  intros Hchain Hh Hpre Hmw.
  rewrite (execute_handler_exception _ _ _ _ _ _ _ Hh).
  rewrite Hchain, error_hooks_app, Hpre, error_hooks_cons, Hmw.
  rewrite (error_hooks_declined_journal _ _ _ _ _ _ Hpre).
  now rewrite seq_S, map_app, <- app_assoc.
Qed.

(** X13.  When every [on_error] hook declines -- as those of the base
    class and of the bundled middleware do -- a handler's unexpected
    exception becomes the failure response with code -32603 and the
    exception's text as message, for the request's id, every hook having
    been consulted once, in registration order. *)
Theorem unexpected_exception_becomes_internal_error
    self method request s cls msg s0 :
  Forall on_error_declines (middleware self) ->
  invoke_handler method (req_params request) s = (Raise (OtherException cls msg), s0) ->
  execute self method request s
  = (Ok {| resp_result := PyNone;
           resp_error := PyDict [("code", PyInt (-32603)); ("message", PyStr msg)];
           resp_id := req_id request;
           resp_jsonrpc := PyStr "2.0" |},
     {| world := world s0;
        journal := journal s0
                   ++ map OnError (seq 0 (length (middleware self))) |}).
Proof.
  intros Hall Hh.
  rewrite (execute_handler_exception _ _ _ _ _ _ _ Hh).
  now rewrite (error_hooks_all_decline _ _ _ _ _ Hall).
Qed.

Lemma bundled_on_error_declines (h : heap W) validator :
  on_error_declines (W := W) RPCMiddleware_base
  /\ on_error_declines (W := W) LoggingMiddleware
  /\ on_error_declines (TimingMiddleware h)
  /\ on_error_declines (AuthMiddleware h validator).
Proof. repeat split. Qed.

Lemma before_hooks_nil request s :
  before_hooks (W := W) [] 0 request s = (Ok (request, None), s).
Proof. reflexivity. Qed.


Lemma execute_without_middleware self method request s response s' :
  middleware self = [] ->
  execute self method request s = (Ok response, s') ->
  engine_made response /\ resp_id response = req_id request.
Proof.
  intros Hchain. unfold execute, try_except, bind. rewrite Hchain.
  destruct (invoke_handler method (req_params request) s) as [[result | e] s0].
  - intros [= <- _]. split; [left; now eexists _, _ | reflexivity].
  - destruct e as [e | msg | cls msg | cls msg]; cbn; unfold ret, raise;
      try discriminate; intros [= <- _]; (split; [right; now eexists _, _ | reflexivity]).
Qed.

(** What a call returns on a server without middleware: nothing, for a
    notification whose method was found, or a response that one of the
    engine's constructors built for the id of the request. *)
Lemma call_without_middleware_cases self request s out s' :
  middleware self = [] ->
  call self request s = (Ok out, s') ->
  (out = None
   /\ is_notification request = true
   /\ exists method, methods_get self (req_method request) = Ok (Some method))
  \/ (exists response,
        out = Some response
        /\ engine_made response
        /\ resp_id response = req_id request).
Proof.
  intros Hchain.
  assert (Hb : before_hooks (middleware self) 0 request s = (Ok (request, None), s)).
  { now rewrite Hchain. }
  destruct (methods_get self (req_method request)) as [[method |] | e] eqn:Hm.
  - erewrite call_dispatched by eassumption. rewrite Hchain.
    destruct (execute self method request s) as [[response | e] s2] eqn:He;
      [| discriminate].
    cbn. unfold ret.
    destruct (execute_without_middleware _ _ _ _ _ _ Hchain He) as [Hmade Hecho].
    destruct (is_notification request) eqn:Hn; intros [= <- _].
    + left. split; [reflexivity | split; [reflexivity | now exists method]].
    + right. now exists response.
  - erewrite call_method_not_found by eassumption. intros [= <- _].
    right. eexists. split; [reflexivity |]. split; [right; now eexists _, _ | reflexivity].
  - erewrite call_unhashable_method by eassumption. discriminate.
Qed.

Lemma engine_made_shape response :
  engine_made response ->
  resp_jsonrpc response = PyStr "2.0" /\ response_well_formed response = true.
Proof.
  intros [(result & id & ->) | (e & id & ->)].
  - split; reflexivity.
  - split; [reflexivity | apply failure_well_formed].
Qed.

(** X15.  On a server without middleware, a response returned by a call
    echoes the id of the request, is marked "2.0", and carries either a
    result alone or a non-empty error alone; and a call returns nothing
    only for a notification whose method was found. *)
Theorem call_without_middleware_answers_in_shape self request s out s' :
  middleware self = [] ->
  call self request s = (Ok out, s') ->
  match out with
  | Some response =>
      resp_id response = req_id request
      /\ resp_jsonrpc response = PyStr "2.0"
      /\ response_well_formed response = true
  | None =>
      is_notification request = true
      /\ exists method, methods_get self (req_method request) = Ok (Some method)
  end.
Proof.
  intros Hchain Hcall.
  destruct (call_without_middleware_cases _ _ _ _ _ Hchain Hcall)
    as [(-> & Hn & Hfound) | (response & -> & Hmade & Hecho)].
  - now split.
  - destruct (engine_made_shape _ Hmade) as [Hj Hw]. now repeat split.
Qed.

(** On a server without middleware a request with an id, if the call
    returns, gets a response of the engine that echoes the id. *)
Lemma call_without_middleware_with_id self request s out s' :
  middleware self = [] ->
  is_notification request = false ->
  call self request s = (Ok out, s') ->
  exists response,
    out = Some response /\ engine_made response /\ resp_id response = req_id request.
Proof.
  intros Hchain Hid Hcall.
  destruct (call_without_middleware_cases _ _ _ _ _ Hchain Hcall)
    as [(_ & Hn & _) | H]; [congruence | exact H].
Qed.

(** X16.  An exception raised by an [after_call] hook reaches the caller
    of [call]: the response built so far is lost, for notifications too,
    and the hooks registered after the failing one do not run. *)
Theorem after_call_exception_reaches_the_caller
    self pre mw post request s current s1 method response s2 response1 s3 e w4 :
  middleware self = pre ++ mw :: post ->
  before_hooks (middleware self) 0 request s = (Ok (current, None), s1) ->
  methods_get self (req_method current) = Ok (Some method) ->
  execute self method current s1 = (Ok response, s2) ->
  after_hooks pre 0 current response s2 = (Ok response1, s3) ->
  after_call mw current response1 (world s3) = (Raise e, w4) ->
  call self request s
  = (Raise e,
     {| world := w4;
        journal := journal s2 ++ map AfterCall (seq 0 (S (length pre))) |}).
Proof.
  intros Hchain Hb Hm He Hpre Hmw.
  erewrite call_dispatched by eassumption. rewrite He.
  rewrite Hchain at 1. rewrite after_hooks_app, Hpre, after_hooks_cons, Hmw.
  rewrite (after_hooks_journal _ _ _ _ _ _ _ Hpre).
  now rewrite seq_S, map_app, <- app_assoc.
Qed.

(** X17.  With [AuthMiddleware] registered first, a call is refused in
    the before stage, and no handler runs, in two cases.  A request that
    has no [metadata] attribute -- [RPCRequest] declares none -- gets the
    internal error of the missing attribute, code -32603, whatever the
    validator, which is not consulted.  A request whose [metadata] is a
    dict with no [auth_token], a false one, or one the validator rejects
    gets the "Authentication required" error, code -32001. *)
Theorem auth_middleware_refuses_unauthenticated_calls
    (h : heap W) self validator post request s :
  middleware self = AuthMiddleware h validator :: post ->
  (RPCRequest_getattr (attached h (world s) request) request "metadata" = None ->
   call self request s
   = (Ok (Some {| resp_result := PyNone;
                  resp_error :=
                    PyDict [("code", PyInt (-32603));
                            ("message",
                             PyStr "'RPCRequest' object has no attribute 'metadata'")];
                  resp_id := req_id request;
                  resp_jsonrpc := PyStr "2.0" |}),
      {| world := world s; journal := journal s ++ [BeforeCall 0] |}))
  /\ (forall metadata,
        RPCRequest_getattr (attached h (world s) request) request "metadata"
        = Some (PyDict metadata) ->
        negb (truthy (dict_get metadata "auth_token" PyNone))
        || negb (validator (dict_get metadata "auth_token" PyNone)) = true ->
        call self request s
        = (Ok (Some {| resp_result := PyNone;
                       resp_error :=
                         PyDict [("code", PyInt (-32001));
                                 ("message", PyStr "Authentication required")];
                       resp_id := req_id request;
                       resp_jsonrpc := PyStr "2.0" |}),
           {| world := world s; journal := journal s ++ [BeforeCall 0] |})).
Proof.
  intros Hchain. split.
  - intros Hbare.
    erewrite call_before_exception with (e := no_metadata) (current := request).
    + reflexivity.
    + rewrite Hchain, before_hooks_cons.
      cbn [AuthMiddleware before_call]. now rewrite Hbare.
    + exact I.
  - intros metadata Hmeta Htoken.
    erewrite call_before_protocol_error
      with (e := {| code := -32001; message := "Authentication required";
                    data := PyNone |}) (current := request).
    + reflexivity.
    + rewrite Hchain, before_hooks_cons.
      cbn [AuthMiddleware before_call]. rewrite Hmeta. cbn [get].
      now rewrite Htoken.
Qed.

End CallProps.

Lemma first_on_error_response_wins_witness :
  let self := add_middleware Sample.Mark
                (add_middleware Fixture.Recover
                   (add_middleware LoggingMiddleware Sample.server)) in
  let method := {| method_name := "crash"; method_handler := Sample.crash;
                   method_description := ""; method_params_schema := [];
                   method_metadata := [] |} in
  let request := Sample.request "crash" [] (PyInt 6) in
  let s0 := {| world := 1%nat; journal := [HandlerCall "crash"] |} in
  let s1 := {| world := 1%nat; journal := [HandlerCall "crash"; OnError 0] |} in
  let response := RPCResponse_failure
                    {| code := SERVER_ERROR; message := "boom"; data := PyNone |}
                    (PyInt 6) in
  middleware self = [LoggingMiddleware] ++ Fixture.Recover :: [Sample.Mark]
  /\ invoke_handler method (req_params request) Sample.start
     = (Raise (OtherException "RuntimeError" "boom"), s0)
  /\ error_hooks [LoggingMiddleware] 0 request (OtherException "RuntimeError" "boom") s0
     = (Ok None, s1)
  /\ on_error Fixture.Recover request (OtherException "RuntimeError" "boom") (world s1)
     = (Ok (Some response), 1%nat)
  /\ execute self method request Sample.start
     = (Ok response,
        {| world := 1%nat;
           journal := journal s0 ++ map OnError (seq 0 (S (length [LoggingMiddleware (W := nat)]))) |}).
Proof.
  intros self method request s0 s1 response.
  split; [reflexivity | split; [reflexivity | split; [reflexivity | split; [reflexivity |]]]].
  apply (first_on_error_response_wins self [LoggingMiddleware] Fixture.Recover
           [Sample.Mark] method request Sample.start "RuntimeError" "boom" s0 s1
           response 1%nat); reflexivity.
Defined.

Lemma unexpected_exception_becomes_internal_error_witness :
  let self := add_middleware Sample.Mark
                (add_middleware LoggingMiddleware Sample.server) in
  let method := {| method_name := "crash"; method_handler := Sample.crash;
                   method_description := ""; method_params_schema := [];
                   method_metadata := [] |} in
  let request := Sample.request "crash" [] (PyInt 6) in
  let s0 := {| world := 1%nat; journal := [HandlerCall "crash"] |} in
  Forall on_error_declines (middleware self)
  /\ invoke_handler method (req_params request) Sample.start
     = (Raise (OtherException "RuntimeError" "boom"), s0)
  /\ execute self method request Sample.start
     = (Ok {| resp_result := PyNone;
              resp_error := PyDict [("code", PyInt (-32603)); ("message", PyStr "boom")];
              resp_id := req_id request;
              resp_jsonrpc := PyStr "2.0" |},
        {| world := world s0;
           journal := journal s0 ++ map OnError (seq 0 (length (middleware self))) |}).
Proof.
  intros self method request s0.
  assert (Hall : Forall on_error_declines (middleware self)).
  { cbn. repeat constructor. }
  split; [exact Hall | split; [reflexivity |]].
  apply (unexpected_exception_becomes_internal_error self method request Sample.start
           "RuntimeError" "boom" s0); [exact Hall | reflexivity].
Defined.


Lemma call_without_middleware_answers_in_shape_witness :
  let request := Sample.request "add" [PyInt 1; PyInt 2] (PyInt 1) in
  let out := Some (RPCResponse_success (PyInt 3) (PyInt 1)) in
  let s' := {| world := 1%nat; journal := [HandlerCall "add"] |} in
  middleware Sample.server = []
  /\ call Sample.server request Sample.start = (Ok out, s')
  /\ match out with
     | Some response =>
         resp_id response = req_id request
         /\ resp_jsonrpc response = PyStr "2.0"
         /\ response_well_formed response = true
     | None =>
         is_notification request = true
         /\ exists method, methods_get Sample.server (req_method request)
                           = Ok (Some method)
     end.
Proof.
  intros request out s'.
  split; [reflexivity | split; [reflexivity |]].
  apply (call_without_middleware_answers_in_shape Sample.server request Sample.start
           out s'); reflexivity.
Defined.

Lemma after_call_exception_reaches_the_caller_witness :
  let self := add_middleware Sample.Mark
                (add_middleware Fixture.Faulty
                   (add_middleware LoggingMiddleware Sample.server)) in
  let method := {| method_name := "add"; method_handler := Sample.add;
                   method_description := "Add two numbers"; method_params_schema := [];
                   method_metadata := [] |} in
  let request := Sample.request "add" [PyInt 1; PyInt 2] (PyInt 1) in
  let s1 := {| world := 0%nat; journal := [BeforeCall 0; BeforeCall 1; BeforeCall 2] |} in
  let s2 := {| world := 1%nat;
               journal := [BeforeCall 0; BeforeCall 1; BeforeCall 2; HandlerCall "add"] |} in
  let s3 := {| world := 1%nat;
               journal := [BeforeCall 0; BeforeCall 1; BeforeCall 2; HandlerCall "add";
                           AfterCall 0] |} in
  let response := RPCResponse_success (PyInt 3) (PyInt 1) in
  let e := OtherException "KeyError" "'start_time'" in
  middleware self = [LoggingMiddleware] ++ Fixture.Faulty :: [Sample.Mark]
  /\ before_hooks (middleware self) 0 request Sample.start = (Ok (request, None), s1)
  /\ methods_get self (req_method request) = Ok (Some method)
  /\ execute self method request s1 = (Ok response, s2)
  /\ after_hooks [LoggingMiddleware] 0 request response s2 = (Ok response, s3)
  /\ after_call Fixture.Faulty request response (world s3) = (Raise e, 1%nat)
  /\ call self request Sample.start
     = (Raise e,
        {| world := 1%nat;
           journal := journal s2
                      ++ map AfterCall (seq 0 (S (length [LoggingMiddleware (W := nat)]))) |}).
Proof.
  intros self method request s1 s2 s3 response e.
  split; [reflexivity | split; [reflexivity | split; [reflexivity |]]].
  split; [reflexivity | split; [reflexivity | split; [reflexivity |]]].
  apply (after_call_exception_reaches_the_caller self [LoggingMiddleware] Fixture.Faulty
           [Sample.Mark] request Sample.start request s1 method response s2 response s3
           e 1%nat); reflexivity.
Defined.

Lemma auth_middleware_refuses_unauthenticated_calls_witness :
  let self := add_middleware (AuthMiddleware Annotated.store Annotated.validator)
                Annotated.server in
  let request := Sample.request "add" [PyInt 1; PyInt 2] (PyInt 1) in
  middleware self = AuthMiddleware Annotated.store Annotated.validator :: []
  /\ call self request Annotated.start
     = (Ok (Some {| resp_result := PyNone;
                    resp_error :=
                      PyDict [("code", PyInt (-32603));
                              ("message",
                               PyStr "'RPCRequest' object has no attribute 'metadata'")];
                    resp_id := PyInt 1;
                    resp_jsonrpc := PyStr "2.0" |}),
        {| world := []; journal := [BeforeCall 0] |})
  /\ call self request (Annotated.with_token "guess")
     = (Ok (Some {| resp_result := PyNone;
                    resp_error :=
                      PyDict [("code", PyInt (-32001));
                              ("message", PyStr "Authentication required")];
                    resp_id := PyInt 1;
                    resp_jsonrpc := PyStr "2.0" |}),
        {| world := [("metadata", PyDict [("auth_token", PyStr "guess")])];
           journal := [BeforeCall 0] |}).
Proof.
  intros self request.
  split; [reflexivity |].
  split.
  - apply (auth_middleware_refuses_unauthenticated_calls Annotated.store self
             Annotated.validator [] request Annotated.start);
      reflexivity.
  - apply (proj2 (auth_middleware_refuses_unauthenticated_calls Annotated.store self
                    Annotated.validator [] request (Annotated.with_token "guess")
                    eq_refl)
             [("auth_token", PyStr "guess")]);
      reflexivity.
Defined.

(** A request that its caller has given the accepted token passes
    [AuthMiddleware], and the handler runs. *)
Example auth_middleware_admits_the_token :
  call (add_middleware (AuthMiddleware Annotated.store Annotated.validator)
          Annotated.server)
    (Sample.request "add" [PyInt 1; PyInt 2] (PyInt 1)) (Annotated.with_token "secret")
  = (Ok (Some {| resp_result := PyInt 3;
                 resp_error := PyNone;
                 resp_id := PyInt 1;
                 resp_jsonrpc := PyStr "2.0" |}),
     {| world := [("metadata", PyDict [("auth_token", PyStr "secret")])];
        journal := [BeforeCall 0; HandlerCall "add"; AfterCall 0] |}).
Proof. vm_compute. reflexivity. Qed.

(** ** More on [handle_json] *)

Section BatchProps.

Context {W : Type}.
Variable json_loads : string -> string + pyvalue.
Variable json_dumps : pyvalue -> string.
Implicit Types (self : RPCServer W) (s : machine W) (data : list pyvalue)
  (outs : list (option RPCResponse)).

(** X18.  A request object whose [method] is a list or an object is not
    answered: on a server without middleware [handle_json] raises the
    [TypeError] of the registry lookup to its caller. *)
Theorem unhashable_method_raises_type_error self text d s :
  json_loads text = inr (PyDict d) ->
  middleware self = [] ->
  hashable (dict_get d "method" (PyStr "")) = false ->
  exists msg,
    handle_json json_loads json_dumps self text s = (Raise (TypeError msg), s).
Proof.
  intros Htext Hchain Hm. unfold handle_json. rewrite Htext.
  unfold bind, lift; cbn [RPCRequest_from_value].
  assert (Hb : before_hooks (middleware self) 0 (RPCRequest_from_dict d) s
               = (Ok (RPCRequest_from_dict d, None), s)) by now rewrite Hchain.
  cbn [RPCRequest_from_dict req_method] in *.
  destruct (dict_get d "method" (PyStr "")) eqn:Hmethod; try discriminate.
  - eexists. erewrite call_unhashable_method; [reflexivity | exact Hb |].
    cbn. now rewrite Hmethod.
  - eexists. erewrite call_unhashable_method; [reflexivity | exact Hb |].
    cbn. now rewrite Hmethod.
Qed.

Lemma registered_notification_call self item s :
  middleware self = [] ->
  disciplined self ->
  registered_notification self item ->
  exists d s', item = PyDict d /\ call self (RPCRequest_from_dict d) s = (Ok None, s').
Proof.
  intros Hchain Hd (d & name & method & -> & Hid & Hname & Hm).
  set (request := RPCRequest_from_dict d).
  assert (Hmeth : req_method request = PyStr name) by exact Hname.
  assert (Hb : before_hooks (middleware self) 0 request s = (Ok (request, None), s))
    by now rewrite Hchain.
  assert (Hg : methods_get self (req_method request) = Ok (Some method)).
  { rewrite Hmeth. cbn. now rewrite Hm. }
  destruct (call_returns self request s Hd) as (out & s' & Hcall).
  { now rewrite Hmeth. }
  assert (Hnone : out = None).
  { eapply notification_dispatched_yields_nothing; try eassumption.
    unfold is_notification, request; cbn. now rewrite Hid. }
  subst out. exists d, s'. split; [reflexivity | exact Hcall].
Qed.

(** X19.  A batch made of notifications of registered methods only is
    answered with the encoding of the empty list, not with empty
    output. *)
Theorem batch_of_notifications_yields_empty_list self text data s :
  json_loads text = inr (PyList data) ->
  data <> [] ->
  middleware self = [] ->
  disciplined self ->
  Forall (registered_notification self) data ->
  exists s',
    handle_json json_loads json_dumps self text s = (Ok (json_dumps (PyList [])), s').
Proof.
  intros Htext Hne Hchain Hd Hdata.
  assert (Hrun : exists outs s', batch_run self s data outs s' /\ responses_of outs = []).
  { clear Htext Hne. revert s.
    induction Hdata as [| item data Hitem _ IH]; intros s.
    - exists [], s. split; [constructor | reflexivity].
    - destruct (registered_notification_call self item s Hchain Hd Hitem)
        as (d & s1 & -> & Hcall).
      destruct (IH s1) as (outs & s2 & Hrun & Hnone).
      exists (None :: outs), s2. split; [econstructor; eassumption | exact Hnone]. }
  destruct Hrun as (outs & s' & Hrun & Hnone).
  exists s'. unfold handle_json. rewrite Htext.
  destruct data as [| item rest]; [congruence |].
  unfold bind. rewrite (batch_loop_run _ _ _ _ _ Hrun []), Hnone. reflexivity.
Qed.

(** *** What the engine hands to [json.dumps] *)






End BatchProps.

(** ** The client *)

Section ClientProps.

Context {W : Type}.
Variable json_loads : string -> string + pyvalue.
Variable json_dumps : pyvalue -> string.
Implicit Types (client : RPCClient W) (server : RPCServer W)
  (calls : list (string * pyvalue)) (method : string)
  (args : list pyvalue) (kwargs : list (string * pyvalue)) (w : W).

Lemma batch_requests_client calls client requests :
  snd (batch_requests calls client requests)
  = {| transport := transport client;
       id_counter := id_counter client + Z.of_nat (length calls) |}.
Proof.
  revert client requests.
  induction calls as [| [method params] calls IH]; intros client requests.
  - cbn. rewrite Z.add_0_r. now destruct client.
  - cbn [batch_requests next_id length]. rewrite IH. cbn. f_equal. lia.
Qed.

(** X21.  The id counter moves with the requests built, whatever comes
    of them: [call] advances it by one unless it rejects mixed
    arguments, in which case it is left alone; [notify] never touches
    the client; [batch] advances it by the number of calls; and none of
    them replaces the transport. *)
Theorem client_id_accounting client method args kwargs calls w :
  id_counter (snd (fst (RPCClient_call json_loads json_dumps client method args kwargs w)))
  = (if mixed args kwargs then id_counter client else id_counter client + 1)
  /\ transport (snd (fst (RPCClient_call json_loads json_dumps client method
                            args kwargs w)))
     = transport client
  /\ snd (fst (RPCClient_notify json_dumps client method args kwargs w)) = client
  /\ snd (fst (RPCClient_batch json_loads json_dumps client calls w))
     = {| transport := transport client;
          id_counter := id_counter client + Z.of_nat (length calls) |}.
Proof.
  repeat split.
  - unfold RPCClient_call. destruct (mixed args kwargs); [reflexivity |].
    cbn. destruct (transport client) as [send |]; [| reflexivity].
    destruct (json_encode json_dumps _) as [request_str | e]; [| reflexivity].
    destruct (send _ w) as [[response_str | e] w']; [| reflexivity].
    destruct (String.eqb response_str ""); [reflexivity |].
    now destruct (json_loads response_str).
  - unfold RPCClient_call. destruct (mixed args kwargs); [reflexivity |].
    cbn. destruct (transport client) as [send |]; [| reflexivity].
    destruct (json_encode json_dumps _) as [request_str | e]; [| reflexivity].
    destruct (send _ w) as [[response_str | e] w']; [| reflexivity].
    destruct (String.eqb response_str ""); [reflexivity |].
    now destruct (json_loads response_str).
  - unfold RPCClient_notify. destruct (mixed args kwargs); [reflexivity |].
    destruct (transport client) as [send |]; [| reflexivity].
    destruct (json_encode json_dumps _) as [request_str | e]; [| reflexivity].
    now destruct (send _ w) as [[response_str | e] w'].
  - unfold RPCClient_batch.
    pose proof (batch_requests_client calls client []) as Hc.
    destruct (batch_requests calls client []) as [requests client']. cbn in Hc.
    subst client'. cbn [transport].
    destruct (transport client) as [send |]; [| reflexivity].
    destruct (json_encode json_dumps _) as [request_str | e]; [| reflexivity].
    destruct (send _ w) as [[response_str | e] w']; [| reflexivity].
    destruct (json_loads response_str) as [msg | responses]; [reflexivity |].
    destruct (iterate responses) as [items | e]; [| reflexivity].
    now destruct (read_batch_responses items []).
Qed.

Lemma batch_requests_app calls client requests :
  fst (batch_requests calls client requests)
  = requests ++ fst (batch_requests calls client []).
Proof.
  revert client requests.
  induction calls as [| [method params] calls IH]; intros client requests.
  - cbn. now rewrite app_nil_r.
  - cbn [batch_requests next_id].
    rewrite IH. rewrite (IH _ ([] ++ _)). cbn. now rewrite <- app_assoc.
Qed.

(** The ids of the requests that [batch] builds. *)
Lemma batch_requests_id_list client calls :
  map item_id (fst (batch_requests calls client []))
  = map (fun i => PyInt (id_counter client + 1 + Z.of_nat i)) (seq 0 (length calls)).
Proof.
  revert client.
  induction calls as [| [method params] calls IH]; intros client; [reflexivity |].
  cbn [batch_requests next_id]. rewrite batch_requests_app.
  rewrite map_app, IH. cbn -[Z.add Z.of_nat]. f_equal; [f_equal; lia |].
  rewrite <- seq_shift, map_map. apply map_ext. intros i. f_equal. lia.
Qed.

(** Each of them is a request object that carries an id. *)
Lemma batch_requests_objects client calls :
  Forall (fun doc => request_object doc = true /\ is_None (item_id doc) = false)
    (fst (batch_requests calls client [])).
Proof.
  revert client.
  induction calls as [| [method params] calls IH]; intros client; [constructor |].
  cbn [batch_requests next_id]. rewrite batch_requests_app.
  apply Forall_app. split; [| apply IH].
  constructor; [| constructor]. now split.
Qed.

(** X22.  [batch] builds one request object for each call, in the order
    of the calls, with the ids that follow the counter, one after the
    other: each request carries an id, no two the same. *)
Theorem batch_requests_carry_consecutive_ids client calls :
  map item_id (fst (batch_requests calls client []))
  = map (fun i => PyInt (id_counter client + 1 + Z.of_nat i)) (seq 0 (length calls))
  /\ Forall (fun doc => request_object doc = true /\ is_None (item_id doc) = false)
       (fst (batch_requests calls client []))
  /\ NoDup (map item_id (fst (batch_requests calls client []))).
Proof.
  split; [apply batch_requests_id_list | split; [apply batch_requests_objects |]].
  rewrite batch_requests_id_list.
  apply NoDup_fmap_2_strong; [| apply NoDup_seq].
  intros i j _ _ [= H]. lia.
Qed.

(** X23.  Without a transport [call] raises [ValueError], after it has
    taken an id; [notify] returns without a word; [batch] raises
    [ValueError], after it has taken an id for each call.  Nothing is
    sent and the world is as it was. *)
Theorem client_without_transport client method args kwargs calls w :
  transport client = None ->
  mixed args kwargs = false ->
  RPCClient_call json_loads json_dumps client method args kwargs w
  = (Raised (ValueError "No transport configured"),
     {| transport := None; id_counter := id_counter client + 1 |}, w)
  /\ RPCClient_notify json_dumps client method args kwargs w = (Returned tt, client, w)
  /\ RPCClient_batch json_loads json_dumps client calls w
     = (Raised (ValueError "No transport configured"),
        {| transport := None;
           id_counter := id_counter client + Z.of_nat (length calls) |}, w).
Proof.
  intros Ht Hm. repeat split.
  - unfold RPCClient_call. rewrite Hm. cbn. now rewrite Ht.
  - unfold RPCClient_notify. now rewrite Hm, Ht.
  - unfold RPCClient_batch.
    pose proof (batch_requests_client calls client []) as Hc.
    destruct (batch_requests calls client []) as [requests client']. cbn in Hc.
    subst client'. cbn [transport]. now rewrite Ht.
Qed.

(** *** The client in front of the server *)

Lemma handle_json_single server text d (s : machine W) :
  json_loads text = inr (PyDict d) ->
  handle_json json_loads json_dumps server text s
  = match call server (RPCRequest_from_dict d) s with
    | (Ok (Some response), s') =>
        (json_encode json_dumps (PyDict (RPCResponse_to_dict response)), s')
    | (Ok None, s') => (Ok "", s')
    | (Raise e, s') => (Raise e, s')
    end.
Proof.
  intros Htext. unfold handle_json. rewrite Htext. unfold bind, lift; cbn.
  destruct (call server (RPCRequest_from_dict d) s) as [[[response |] | e] s'];
    reflexivity.
Qed.

Lemma eqb_empty_false (text : string) : text <> "" -> String.eqb text "" = false.
Proof. intros H. now apply String.eqb_neq. Qed.

(** A call that the server answers: the client reads the answer. *)
Lemma client_call_through_server client server method args kwargs w response s' :
  transport client = Some (server_transport json_loads json_dumps server) ->
  mixed args kwargs = false ->
  let request := {| req_method := PyStr method;
                    req_params := call_params args kwargs;
                    req_id := PyInt (id_counter client + 1);
                    req_jsonrpc := PyStr "2.0" |} in
  carried json_loads json_dumps (PyDict (RPCRequest_to_dict request)) ->
  call server request {| world := w; journal := [] |} = (Ok (Some response), s') ->
  carried json_loads json_dumps (PyDict (RPCResponse_to_dict response)) ->
  RPCClient_call json_loads json_dumps client method args kwargs w
  = (read_response (PyDict (RPCResponse_to_dict response)),
     {| transport := transport client; id_counter := id_counter client + 1 |},
     world s').
Proof.
  intros Ht Hm request (Hsent & Hreq & _) Hcall (Hback & Hresp & Hne).
  unfold RPCClient_call. rewrite Hm. cbn [next_id fst snd transport id_counter].
  rewrite Ht. fold request. rewrite (json_encode_encodable _ _ Hsent).
  unfold server_transport.
  rewrite (handle_json_single _ _ _ _ Hreq), request_round_trip, Hcall.
  rewrite (json_encode_encodable _ _ Hback).
  now rewrite (eqb_empty_false _ Hne), Hresp.
Qed.

Lemma call_without_middleware_dispatch server request (s : machine W) name m :
  middleware server = [] ->
  req_method request = PyStr name ->
  lookup_method name server = Some m ->
  call server request s
  = match method_handler m
            match req_params request with PyList args => args | _ => [] end
            match req_params request with PyDict kwargs => kwargs | _ => [] end
            (world s) with
    | (outcome, w') =>
        let s' := {| world := w'; journal := journal s ++ [HandlerCall (method_name m)] |} in
        match outcome with
        | Ok result =>
            (Ok (if is_notification request then None
                 else Some (RPCResponse_success result (req_id request))), s')
        | Raise (RPCError_exn e) =>
            (Ok (if is_notification request then None
                 else Some (RPCResponse_failure e (req_id request))), s')
        | Raise (TypeError msg) =>
            (Ok (if is_notification request then None
                 else Some (RPCResponse_failure
                              {| code := INVALID_PARAMS; message := msg; data := PyNone |}
                              (req_id request))), s')
        | Raise (OtherException cls msg) =>
            (Ok (if is_notification request then None
                 else Some (RPCResponse_failure
                              {| code := INTERNAL_ERROR; message := msg; data := PyNone |}
                              (req_id request))), s')
        | Raise (BaseException cls msg) => (Raise (BaseException cls msg), s')
        end
    end.
Proof.
  intros Hchain Hname Hm.
  erewrite call_dispatched with (current := request) (s1 := s) (method := m).
  - unfold execute, try_except, bind, invoke_handler, invoke. rewrite Hchain.
    destruct (req_params request) as [| b | z | str | items | entries | ocls otext];
      match goal with
      | |- context [method_handler m ?a ?k (world s)] =>
          destruct (method_handler m a k (world s)) as [[result | [e | msg | cls msg | cls msg]] w']
      end; reflexivity.
  - now rewrite Hchain.
  - rewrite Hname. cbn. now rewrite Hm.
Qed.

Lemma call_params_handler args kwargs :
  mixed args kwargs = false ->
  match call_params args kwargs with PyList a => a | _ => [] end = args
  /\ match call_params args kwargs with PyDict k => k | _ => [] end = kwargs.
Proof. destruct args, kwargs; cbn; intros H; try discriminate; now split. Qed.

Lemma read_response_of_failure (e : RPCError) (id : pyvalue) :
  read_response (PyDict (RPCResponse_to_dict (RPCResponse_failure e id)))
  = RaisedRPCError (PyInt (code e)) (PyStr (message e)) (data e).
Proof.
  destruct e as [c m d]. unfold RPCResponse_failure, RPCResponse_to_dict; cbn.
  destruct d; reflexivity.
Qed.

(** X24.  Through a transport that hands the text to a server without
    middleware, [call] returns what the handler of the method returns for
    the arguments given, positional or named, and leaves the world as the
    handler left it. *)
Theorem client_call_returns_handler_result
    client server method args kwargs w m result w' :
  transport client = Some (server_transport json_loads json_dumps server) ->
  mixed args kwargs = false ->
  middleware server = [] ->
  lookup_method method server = Some m ->
  method_handler m args kwargs w = (Ok result, w') ->
  carried json_loads json_dumps
    (PyDict (RPCRequest_to_dict
               {| req_method := PyStr method; req_params := call_params args kwargs;
                  req_id := PyInt (id_counter client + 1);
                  req_jsonrpc := PyStr "2.0" |})) ->
  carried json_loads json_dumps
    (PyDict [("jsonrpc", PyStr "2.0"); ("id", PyInt (id_counter client + 1));
             ("result", result)]) ->
  RPCClient_call json_loads json_dumps client method args kwargs w
  = (Returned result,
     {| transport := transport client; id_counter := id_counter client + 1 |}, w').
Proof.
  intros Ht Hmixed Hchain Hm Hh Hreq Hresp.
  destruct (call_params_handler args kwargs Hmixed) as [Ha Hk].
  erewrite client_call_through_server
    with (response := RPCResponse_success result (PyInt (id_counter client + 1)))
         (s' := {| world := w'; journal := [] ++ [HandlerCall (method_name m)] |});
    try eassumption.
  - reflexivity.
  - erewrite call_without_middleware_dispatch; [| exact Hchain | reflexivity | exact Hm].
    cbn [req_params world]. rewrite Ha, Hk, Hh. reflexivity.
Qed.

(** X25.  Through such a transport, a protocol error raised by the
    handler comes out of [call] as an [RPCError] with the same code,
    message and data. *)
Theorem client_call_raises_handler_error
    client server method args kwargs w m e w' :
  transport client = Some (server_transport json_loads json_dumps server) ->
  mixed args kwargs = false ->
  middleware server = [] ->
  lookup_method method server = Some m ->
  method_handler m args kwargs w = (Raise (RPCError_exn e), w') ->
  carried json_loads json_dumps
    (PyDict (RPCRequest_to_dict
               {| req_method := PyStr method; req_params := call_params args kwargs;
                  req_id := PyInt (id_counter client + 1);
                  req_jsonrpc := PyStr "2.0" |})) ->
  carried json_loads json_dumps
    (PyDict [("jsonrpc", PyStr "2.0"); ("id", PyInt (id_counter client + 1));
             ("error", RPCError_to_dict e)]) ->
  RPCClient_call json_loads json_dumps client method args kwargs w
  = (RaisedRPCError (PyInt (code e)) (PyStr (message e)) (data e),
     {| transport := transport client; id_counter := id_counter client + 1 |}, w').
Proof.
  intros Ht Hmixed Hchain Hm Hh Hreq Hresp.
  destruct (call_params_handler args kwargs Hmixed) as [Ha Hk].
  assert (Hdoc : PyDict (RPCResponse_to_dict
                           (RPCResponse_failure e (PyInt (id_counter client + 1))))
                 = PyDict [("jsonrpc", PyStr "2.0"); ("id", PyInt (id_counter client + 1));
                           ("error", RPCError_to_dict e)]).
  { unfold RPCResponse_to_dict, RPCResponse_failure; cbn.
    destruct (RPCError_to_dict_truthy e) as (d & -> & ->). reflexivity. }
  erewrite client_call_through_server
    with (response := RPCResponse_failure e (PyInt (id_counter client + 1)))
         (s' := {| world := w'; journal := [] ++ [HandlerCall (method_name m)] |});
    try eassumption.
  - now rewrite read_response_of_failure.
  - erewrite call_without_middleware_dispatch; [| exact Hchain | reflexivity | exact Hm].
    cbn [req_params world]. rewrite Ha, Hk, Hh. reflexivity.
  - now rewrite Hdoc.
Qed.

(** X26.  Through such a transport, [call] of a method that the server
    does not have raises the [RPCError] with code -32601 and the message
    "Method not found: " followed by the name; the world is untouched. *)
Theorem client_call_of_unknown_method_raises
    client server method args kwargs w :
  transport client = Some (server_transport json_loads json_dumps server) ->
  mixed args kwargs = false ->
  middleware server = [] ->
  lookup_method method server = None ->
  carried json_loads json_dumps
    (PyDict (RPCRequest_to_dict
               {| req_method := PyStr method; req_params := call_params args kwargs;
                  req_id := PyInt (id_counter client + 1);
                  req_jsonrpc := PyStr "2.0" |})) ->
  carried json_loads json_dumps
    (PyDict [("jsonrpc", PyStr "2.0"); ("id", PyInt (id_counter client + 1));
             ("error", PyDict [("code", PyInt (-32601));
                               ("message", PyStr ("Method not found: " ++ method))])]) ->
  RPCClient_call json_loads json_dumps client method args kwargs w
  = (RaisedRPCError (PyInt (-32601)) (PyStr ("Method not found: " ++ method)) PyNone,
     {| transport := transport client; id_counter := id_counter client + 1 |}, w).
Proof.
  intros Ht Hmixed Hchain Hm Hreq Hresp.
  erewrite client_call_through_server
    with (response := RPCResponse_failure
                        {| code := METHOD_NOT_FOUND;
                           message := "Method not found: " ++ method; data := PyNone |}
                        (PyInt (id_counter client + 1)))
         (s' := {| world := w; journal := [] |});
    try eassumption.
  - reflexivity.
  - match goal with
    | |- call server ?r ?s = _ =>
        rewrite (call_method_not_found server r s r s);
          [reflexivity | now rewrite Hchain | cbn; now rewrite Hm]
    end.
Qed.

(** X27.  Through such a transport, [batch] of no call at all does not
    return the empty list: the server answers the empty batch with a
    single error object, whose keys the client then takes for responses,
    and [batch] raises [AttributeError]. *)
Theorem client_batch_of_nothing_raises client server w :
  transport client = Some (server_transport json_loads json_dumps server) ->
  carried json_loads json_dumps (PyList []) ->
  carried json_loads json_dumps
    (PyDict [("jsonrpc", PyStr "2.0"); ("id", PyNone);
             ("error", PyDict [("code", PyInt (-32600));
                               ("message", PyStr "Empty batch")])]) ->
  RPCClient_batch json_loads json_dumps client [] w
  = (Raised (OtherException "AttributeError" "'str' object has no attribute 'get'"),
     client, w).
Proof.
  intros Ht (_ & Hreq & _) (_ & Hresp & _).
  unfold RPCClient_batch; cbn [batch_requests]. rewrite Ht.
  change (json_encode json_dumps (PyList [])) with (Ok (json_dumps (PyList []))).
  cbn iota. unfold server_transport, handle_json. rewrite Hreq. cbn.
  change (PyInt INVALID_REQUEST) with (PyInt (-32600)). now rewrite Hresp.
Qed.

Lemma read_batch_response_engine_made (r : RPCResponse) :
  engine_made r ->
  read_batch_response (PyDict (RPCResponse_to_dict r)) = Ok (result_of_response r).
Proof.
  intros [(result & id & ->) | (e & id & ->)]; [reflexivity |].
  destruct e as [c m d]. unfold RPCResponse_failure, RPCResponse_to_dict; cbn.
  destruct d; reflexivity.
Qed.

Lemma read_batch_responses_engine_made (rs : list RPCResponse) acc :
  Forall engine_made rs ->
  read_batch_responses (encode_responses rs) acc
  = Ok (acc ++ map result_of_response rs).
Proof.
  intros Hrs. revert acc.
  induction Hrs as [| r rs Hr _ IH]; intros acc; cbn [encode_responses map].
  - cbn. now rewrite app_nil_r.
  - cbn [read_batch_responses]. rewrite (read_batch_response_engine_made r Hr).
    fold (encode_responses rs). rewrite IH. now rewrite <- app_assoc.
Qed.

Lemma batch_run_with_ids server (s : machine W) data outs s' :
  middleware server = [] ->
  batch_run server s data outs s' ->
  Forall (fun item => is_None (item_id item) = false) data ->
  Forall engine_made (responses_of outs)
  /\ map resp_id (responses_of outs) = map item_id data.
Proof.
  intros Hchain Hrun.
  induction Hrun as [s | s d rest out s1 outs s2 Hcall _ IH]; intros Hids.
  - split; [constructor | reflexivity].
  - apply Forall_cons in Hids as [Hid Hids]. cbn in Hid.
    destruct (IH Hids) as [Hmade Hmap].
    destruct (call_without_middleware_with_id server (RPCRequest_from_dict d) s out s1
                Hchain Hid Hcall) as (response & -> & Hmade1 & Hecho).
    cbn. split.
    + now constructor.
    + now rewrite Hecho, Hmap.
Qed.

(** X28.  Through such a transport, [batch] returns one result for each
    call, in the order of the calls: the server answers the requests one
    after the other, its responses echo the ids the client gave, in that
    order, and the client turns each response into the result or the
    error object at the same position. *)
Theorem client_batch_through_server client server calls w outs s' :
  transport client = Some (server_transport json_loads json_dumps server) ->
  calls <> [] ->
  middleware server = [] ->
  carried json_loads json_dumps (PyList (fst (batch_requests calls client []))) ->
  batch_run server {| world := w; journal := [] |}
    (fst (batch_requests calls client [])) outs s' ->
  carried json_loads json_dumps (PyList (encode_responses (responses_of outs))) ->
  RPCClient_batch json_loads json_dumps client calls w
  = (Returned (map result_of_response (responses_of outs)),
     {| transport := transport client;
        id_counter := id_counter client + Z.of_nat (length calls) |},
     world s')
  /\ length (responses_of outs) = length calls
  /\ map resp_id (responses_of outs)
     = map (fun i => PyInt (id_counter client + 1 + Z.of_nat i)) (seq 0 (length calls)).
Proof.
  intros Ht Hne Hchain (Hsent & Hreq & _) Hrun (Hback & Hresp & _).
  pose proof (batch_requests_id_list client calls) as Hids.
  pose proof (batch_requests_objects client calls) as Hshape.
  destruct (batch_run_with_ids server _ _ _ _ Hchain Hrun) as [Hmade Hmap].
  { eapply Forall_impl; [exact Hshape |]. now intros doc [_ H]. }
  rewrite Hids in Hmap. repeat split.
  - unfold RPCClient_batch.
    pose proof (batch_requests_client calls client []) as Hc.
    destruct (batch_requests calls client []) as [requests client'] eqn:Hbr.
    cbn [fst snd] in *. subst client'. cbn [transport]. rewrite Ht.
    rewrite (json_encode_encodable _ _ Hsent).
    unfold server_transport, handle_json. rewrite Hreq.
    assert (Hrequests : requests <> []).
    { intros ->. apply (f_equal (@length _)) in Hids.
      rewrite !length_map, length_seq in Hids. destruct calls; [congruence | discriminate]. }
    destruct requests as [| request requests]; [congruence |].
    unfold bind. rewrite (batch_loop_run _ _ _ _ _ Hrun []). cbn [app].
    unfold lift. rewrite (json_encode_encodable _ _ Hback), Hresp. cbn [iterate].
    now rewrite (read_batch_responses_engine_made _ [] Hmade).
  - apply (f_equal (@length _)) in Hmap.
    now rewrite !length_map, length_seq in Hmap.
  - exact Hmap.
Qed.

End ClientProps.

Lemma plain_sample_server_disciplined : disciplined Sample.server.
Proof.
  split; [constructor |].
  intros name m Hm args kwargs w cls msg.
  unfold Sample.server, register in Hm; cbn in Hm.
  repeat (apply lookup_insert_Some in Hm as [[_ <-] | [_ Hm]]);
    [| | | now rewrite lookup_empty in Hm];
    cbn [method_handler]; unfold Sample.crash, Sample.divide, Sample.add;
    repeat match goal with
           | |- fst (match ?x with _ => _ end) <> _ => destruct x
           end; cbn; discriminate.
Qed.

Lemma unhashable_method_raises_type_error_witness :
  let text := Sample.dumps Fixture.list_method_doc in
  let d := [("method", PyList []); ("id", PyInt 1)] in
  Fixture.loads text = inr (PyDict d)
  /\ middleware Sample.server = []
  /\ hashable (dict_get d "method" (PyStr "")) = false
  /\ exists msg,
       handle_json Fixture.loads Sample.dumps Sample.server text Sample.start
       = (Raise (TypeError msg), Sample.start).
Proof.
  intros text d.
  split; [vm_compute; reflexivity | split; [reflexivity | split; [reflexivity |]]].
  apply (unhashable_method_raises_type_error Fixture.loads Sample.dumps Sample.server
           text d Sample.start); [vm_compute; reflexivity | reflexivity | reflexivity].
Defined.

Lemma batch_of_notifications_yields_empty_list_witness :
  let text := Sample.dumps (PyList Fixture.notices) in
  Fixture.loads text = inr (PyList Fixture.notices)
  /\ Fixture.notices <> []
  /\ middleware Sample.server = []
  /\ disciplined Sample.server
  /\ Forall (registered_notification Sample.server) Fixture.notices
  /\ exists s',
       handle_json Fixture.loads Sample.dumps Sample.server text Sample.start
       = (Ok (Sample.dumps (PyList [])), s').
Proof.
  intros text.
  assert (Hall : Forall (registered_notification Sample.server) Fixture.notices).
  { repeat constructor; eexists _, "add", _; repeat split; reflexivity. }
  split; [vm_compute; reflexivity | split; [discriminate | split; [reflexivity |]]].
  split; [exact plain_sample_server_disciplined | split; [exact Hall |]].
  apply (batch_of_notifications_yields_empty_list Fixture.loads Sample.dumps
           Sample.server text Fixture.notices Sample.start);
    [vm_compute; reflexivity | discriminate | reflexivity
    | exact plain_sample_server_disciplined | exact Hall].
Defined.



Lemma client_without_transport_witness :
  let client := RPCClient_init (W := nat) None in
  let calls := [("add", PyList [PyInt 1; PyInt 2]); ("sub", PyInt 5)] in
  transport client = None
  /\ mixed [PyInt 1; PyInt 2] [] = false
  /\ RPCClient_call Fixture.loads Sample.dumps client "add" [PyInt 1; PyInt 2] [] 0%nat
     = (Raised (ValueError "No transport configured"),
        {| transport := None; id_counter := id_counter client + 1 |}, 0%nat)
  /\ RPCClient_notify Sample.dumps client "add" [PyInt 1; PyInt 2] [] 0%nat
     = (Returned tt, client, 0%nat)
  /\ RPCClient_batch Fixture.loads Sample.dumps client calls 0%nat
     = (Raised (ValueError "No transport configured"),
        {| transport := None;
           id_counter := id_counter client + Z.of_nat (length calls) |}, 0%nat).
Proof.
  intros client calls.
  split; [reflexivity | split; [reflexivity |]].
  apply (client_without_transport Fixture.loads Sample.dumps client "add"
           [PyInt 1; PyInt 2] [] calls 0%nat); reflexivity.
Defined.

Lemma fixture_carries (v : pyvalue) :
  encodable v = true ->
  Fixture.loads (Sample.dumps v) = inr v ->
  Sample.dumps v <> "" ->
  carried Fixture.loads Sample.dumps v.
Proof. now repeat split. Qed.

Lemma client_call_returns_handler_result_witness :
  let m := {| method_name := "add"; method_handler := Sample.add;
              method_description := "Add two numbers"; method_params_schema := [];
              method_metadata := [] |} in
  let request := {| req_method := PyStr "add";
                    req_params := PyList [PyInt 1; PyInt 2];
                    req_id := PyInt (id_counter Fixture.client + 1);
                    req_jsonrpc := PyStr "2.0" |} in
  transport Fixture.client
  = Some (server_transport Fixture.loads Sample.dumps Sample.server)
  /\ mixed [PyInt 1; PyInt 2] [] = false
  /\ middleware Sample.server = []
  /\ lookup_method "add" Sample.server = Some m
  /\ method_handler m [PyInt 1; PyInt 2] [] 0%nat = (Ok (PyInt 3), 1%nat)
  /\ carried Fixture.loads Sample.dumps (PyDict (RPCRequest_to_dict request))
  /\ carried Fixture.loads Sample.dumps
       (PyDict [("jsonrpc", PyStr "2.0"); ("id", PyInt (id_counter Fixture.client + 1));
                ("result", PyInt 3)])
  /\ RPCClient_call Fixture.loads Sample.dumps Fixture.client "add"
       [PyInt 1; PyInt 2] [] 0%nat
     = (Returned (PyInt 3),
        {| transport := transport Fixture.client;
           id_counter := id_counter Fixture.client + 1 |}, 1%nat).
Proof.
  intros m request.
  assert (Hreq : carried Fixture.loads Sample.dumps (PyDict (RPCRequest_to_dict request))).
  { apply fixture_carries; vm_compute; [reflexivity | reflexivity | discriminate]. }
  assert (Hresp : carried Fixture.loads Sample.dumps
            (PyDict [("jsonrpc", PyStr "2.0");
                     ("id", PyInt (id_counter Fixture.client + 1));
                     ("result", PyInt 3)])).
  { apply fixture_carries; vm_compute; [reflexivity | reflexivity | discriminate]. }
  split; [reflexivity | split; [reflexivity | split; [reflexivity |]]].
  split; [reflexivity | split; [reflexivity | split; [exact Hreq | split; [exact Hresp |]]]].
  apply (client_call_returns_handler_result Fixture.loads Sample.dumps Fixture.client
           Sample.server "add" [PyInt 1; PyInt 2] [] 0%nat m (PyInt 3) 1%nat);
    [reflexivity | reflexivity | reflexivity | reflexivity | reflexivity
    | exact Hreq | exact Hresp].
Defined.

Lemma client_call_raises_handler_error_witness :
  let m := {| method_name := "divide"; method_handler := Sample.divide;
              method_description := ""; method_params_schema := [];
              method_metadata := [] |} in
  let e := {| code := -32001; message := "Division by zero"; data := PyNone |} in
  let request := {| req_method := PyStr "divide";
                    req_params := PyList [PyInt 1; PyInt 0];
                    req_id := PyInt (id_counter Fixture.client + 1);
                    req_jsonrpc := PyStr "2.0" |} in
  transport Fixture.client
  = Some (server_transport Fixture.loads Sample.dumps Sample.server)
  /\ mixed [PyInt 1; PyInt 0] [] = false
  /\ middleware Sample.server = []
  /\ lookup_method "divide" Sample.server = Some m
  /\ method_handler m [PyInt 1; PyInt 0] [] 0%nat = (Raise (RPCError_exn e), 1%nat)
  /\ carried Fixture.loads Sample.dumps (PyDict (RPCRequest_to_dict request))
  /\ carried Fixture.loads Sample.dumps
       (PyDict [("jsonrpc", PyStr "2.0"); ("id", PyInt (id_counter Fixture.client + 1));
                ("error", RPCError_to_dict e)])
  /\ RPCClient_call Fixture.loads Sample.dumps Fixture.client "divide"
       [PyInt 1; PyInt 0] [] 0%nat
     = (RaisedRPCError (PyInt (code e)) (PyStr (message e)) (data e),
        {| transport := transport Fixture.client;
           id_counter := id_counter Fixture.client + 1 |}, 1%nat).
Proof.
  intros m e request.
  assert (Hreq : carried Fixture.loads Sample.dumps (PyDict (RPCRequest_to_dict request))).
  { apply fixture_carries; vm_compute; [reflexivity | reflexivity | discriminate]. }
  assert (Hresp : carried Fixture.loads Sample.dumps
            (PyDict [("jsonrpc", PyStr "2.0");
                     ("id", PyInt (id_counter Fixture.client + 1));
                     ("error", RPCError_to_dict e)])).
  { apply fixture_carries; vm_compute; [reflexivity | reflexivity | discriminate]. }
  split; [reflexivity | split; [reflexivity | split; [reflexivity |]]].
  split; [reflexivity | split; [reflexivity | split; [exact Hreq | split; [exact Hresp |]]]].
  apply (client_call_raises_handler_error Fixture.loads Sample.dumps Fixture.client
           Sample.server "divide" [PyInt 1; PyInt 0] [] 0%nat m e 1%nat);
    [reflexivity | reflexivity | reflexivity | reflexivity | reflexivity
    | exact Hreq | exact Hresp].
Defined.

Lemma client_call_of_unknown_method_raises_witness :
  let request := {| req_method := PyStr "sub";
                    req_params := PyDict [];
                    req_id := PyInt (id_counter Fixture.client + 1);
                    req_jsonrpc := PyStr "2.0" |} in
  transport Fixture.client
  = Some (server_transport Fixture.loads Sample.dumps Sample.server)
  /\ mixed [] [] = false
  /\ middleware Sample.server = []
  /\ lookup_method "sub" Sample.server = None
  /\ carried Fixture.loads Sample.dumps (PyDict (RPCRequest_to_dict request))
  /\ carried Fixture.loads Sample.dumps
       (PyDict [("jsonrpc", PyStr "2.0"); ("id", PyInt (id_counter Fixture.client + 1));
                ("error", PyDict [("code", PyInt (-32601));
                                  ("message", PyStr ("Method not found: " ++ "sub"))])])
  /\ RPCClient_call Fixture.loads Sample.dumps Fixture.client "sub" [] [] 0%nat
     = (RaisedRPCError (PyInt (-32601)) (PyStr ("Method not found: " ++ "sub")) PyNone,
        {| transport := transport Fixture.client;
           id_counter := id_counter Fixture.client + 1 |}, 0%nat).
Proof.
  intros request.
  assert (Hreq : carried Fixture.loads Sample.dumps (PyDict (RPCRequest_to_dict request))).
  { apply fixture_carries; vm_compute; [reflexivity | reflexivity | discriminate]. }
  assert (Hresp : carried Fixture.loads Sample.dumps
            (PyDict [("jsonrpc", PyStr "2.0");
                     ("id", PyInt (id_counter Fixture.client + 1));
                     ("error", PyDict [("code", PyInt (-32601));
                                       ("message",
                                        PyStr ("Method not found: " ++ "sub"))])])).
  { apply fixture_carries; vm_compute; [reflexivity | reflexivity | discriminate]. }
  split; [reflexivity | split; [reflexivity | split; [reflexivity |]]].
  split; [reflexivity | split; [exact Hreq | split; [exact Hresp |]]].
  apply (client_call_of_unknown_method_raises Fixture.loads Sample.dumps Fixture.client
           Sample.server "sub" [] [] 0%nat);
    [reflexivity | reflexivity | reflexivity | reflexivity | exact Hreq | exact Hresp].
Defined.

Lemma client_batch_of_nothing_raises_witness :
  transport Fixture.client
  = Some (server_transport Fixture.loads Sample.dumps Sample.server)
  /\ carried Fixture.loads Sample.dumps (PyList [])
  /\ carried Fixture.loads Sample.dumps
       (PyDict [("jsonrpc", PyStr "2.0"); ("id", PyNone);
                ("error", PyDict [("code", PyInt (-32600));
                                  ("message", PyStr "Empty batch")])])
  /\ RPCClient_batch Fixture.loads Sample.dumps Fixture.client [] 0%nat
     = (Raised (OtherException "AttributeError" "'str' object has no attribute 'get'"),
        Fixture.client, 0%nat).
Proof.
  assert (Hreq : carried Fixture.loads Sample.dumps (PyList [])).
  { apply fixture_carries; vm_compute; [reflexivity | reflexivity | discriminate]. }
  assert (Hresp : carried Fixture.loads Sample.dumps
            (PyDict [("jsonrpc", PyStr "2.0"); ("id", PyNone);
                     ("error", PyDict [("code", PyInt (-32600));
                                       ("message", PyStr "Empty batch")])])).
  { apply fixture_carries; vm_compute; [reflexivity | reflexivity | discriminate]. }
  split; [reflexivity | split; [exact Hreq | split; [exact Hresp |]]].
  apply (client_batch_of_nothing_raises Fixture.loads Sample.dumps Fixture.client
           Sample.server 0%nat); [reflexivity | exact Hreq | exact Hresp].
Defined.

Lemma client_batch_through_server_witness :
  let calls := [("add", PyList [PyInt 1; PyInt 2]); ("sub", PyInt 5);
                ("add", PyList [PyInt 3; PyInt 4])] in
  let outs := [Some (RPCResponse_success (PyInt 3) (PyInt 1));
               Some (RPCResponse_failure
                       {| code := METHOD_NOT_FOUND; message := "Method not found: sub";
                          data := PyNone |} (PyInt 2));
               Some (RPCResponse_success (PyInt 7) (PyInt 3))] in
  let s' := {| world := 2%nat; journal := [HandlerCall "add"; HandlerCall "add"] |} in
  transport Fixture.client
  = Some (server_transport Fixture.loads Sample.dumps Sample.server)
  /\ calls <> []
  /\ middleware Sample.server = []
  /\ carried Fixture.loads Sample.dumps
       (PyList (fst (batch_requests calls Fixture.client [])))
  /\ batch_run Sample.server {| world := 0%nat; journal := [] |}
       (fst (batch_requests calls Fixture.client [])) outs s'
  /\ carried Fixture.loads Sample.dumps (PyList (encode_responses (responses_of outs)))
  /\ RPCClient_batch Fixture.loads Sample.dumps Fixture.client calls 0%nat
     = (Returned (map result_of_response (responses_of outs)),
        {| transport := transport Fixture.client;
           id_counter := id_counter Fixture.client + Z.of_nat (length calls) |},
        world s')
  /\ length (responses_of outs) = length calls
  /\ map resp_id (responses_of outs)
     = map (fun i => PyInt (id_counter Fixture.client + 1 + Z.of_nat i))
         (seq 0 (length calls)).
Proof.
  intros calls outs s'.
  assert (Hreq : carried Fixture.loads Sample.dumps
                   (PyList (fst (batch_requests calls Fixture.client [])))).
  { apply fixture_carries; vm_compute; [reflexivity | reflexivity | discriminate]. }
  assert (Hrun : batch_run Sample.server {| world := 0%nat; journal := [] |}
                   (fst (batch_requests calls Fixture.client [])) outs s').
  { cbn. repeat (econstructor; [reflexivity |]). constructor. }
  assert (Hresp : carried Fixture.loads Sample.dumps
                    (PyList (encode_responses (responses_of outs)))).
  { apply fixture_carries; vm_compute; [reflexivity | reflexivity | discriminate]. }
  split; [reflexivity | split; [discriminate | split; [reflexivity |]]].
  split; [exact Hreq | split; [exact Hrun | split; [exact Hresp |]]].
  apply (client_batch_through_server Fixture.loads Sample.dumps Fixture.client
           Sample.server calls 0%nat outs s');
    [reflexivity | discriminate | reflexivity | exact Hreq | exact Hrun | exact Hresp].
Defined.
